(** * Greenhouse MCP: the Harvest API client and its tool adapter

    A shallow embedding of [src/greenhouse_client.py] (class
    [GreenhouseClient]) and of the tools of [src/greenhouse_mcp.py] that
    call it, followed by the properties of the request pipeline: key
    resolution and the authorization header, the windowed rate limiter,
    the 429 wait-and-retry recursion, status handling, and the assembly
    of query parameters and request bodies.

    Modelling conventions.
    - Python dictionaries built by the code are insertion-ordered
      association lists with unique keys ([dict_set] replaces or appends);
      the process environment and the response headers, which the code
      only reads, are finite maps.
    - Arguments carry the types of the source's annotations: [Optional[T]]
      is [option T]; Python truthiness is written out per type.
    - A string stands for a Python text through its UTF-8 bytes. [int]
      reads text as Python 3.11 does: the decimal digits and white space
      of every script, one sign, single underscores between digits, and
      no more than 4300 digits.
    - Time is rational seconds. [time.time()] reads the clock of the
      outside world, [time.sleep(d)] advances it by [d] plus a scheduling
      overshoot taken from the world; the clock moves in sleeps only, a
      round trip takes no time. The upper end of the lengths
      [time.sleep] takes is not modelled; the properties of waits are
      stated for lengths below a thousand million seconds.
    - The limiter computes with floats. [_rate_limit_binary64] is the
      limiter with its subtractions rounded as binary64 rounds them;
      [_rate_limit], which the request pipeline uses, computes them
      exactly. The two are the same wherever nothing is rounded
      ([exact_floats]), as on every grid of time fine enough to hold the
      clock reading and the window start in 53 bits.
    - A retry is a call nested in the call it retries. The world says how
      many nested calls the interpreter has room for below its recursion
      limit ([frames]); the retry for which there is no room raises
      [RecursionError].
    - The server is a script: the list of responses it gives to the
      successive requests; an exhausted script is a connection failure. *)

From Stdlib Require Import ZArith QArith Lqa String Ascii List Bool Lia.
From Stdlib Require Import DecimalString DecimalPos.
From stdpp Require Import base gmap strings.
Import ListNotations.
Set Warnings "-register-all".
Open Scope string_scope.
Open Scope Z_scope.

(** ** Python values and dictionaries *)

(** JSON-like values: what request bodies, query parameters and parsed
    responses are made of. *)
Inductive value : Type :=
| VNone
| VBool (b : bool)
| VInt (z : Z)
| VStr (s : string)
| VList (l : list value)
| VDict (d : list (string * value)).

Abbreviation dict := (list (string * value)).

Fixpoint dict_get {A : Type} (k : string) (d : list (string * A)) : option A :=
  match d with
  | [] => None
  | (k', v) :: d' => if String.eqb k k' then Some v else dict_get k d'
  end.

(** [d[k] = v]: an existing key keeps its position, a new key goes last. *)
Fixpoint dict_set {A : Type} (k : string) (v : A) (d : list (string * A)) : list (string * A) :=
  match d with
  | [] => [(k, v)]
  | (k', v') :: d' =>
      if String.eqb k k' then (k', v) :: d' else (k', v') :: dict_set k v d'
  end.

Definition dict_keys {A : Type} (d : list (string * A)) : list string := map fst d.

(** [str(n)] for an integer. *)
Definition str_of_Z (z : Z) : string := NilZero.string_of_int (Z.to_int z).

(** [",".join(l)] *)
Fixpoint join (sep : string) (l : list string) : string :=
  match l with
  | [] => ""
  | [s] => s
  | s :: l' => s +:+ sep +:+ join sep l'
  end.

(** Truthiness of the optional arguments, per annotated type:
    [None], [""], [0] and [[]] are falsy. *)
Definition truthy_str (o : option string) : bool :=
  match o with
  | Some s => negb (String.eqb s "")
  | None => false
  end.

Definition truthy_int (o : option Z) : bool :=
  match o with
  | Some z => negb (z =? 0)
  | None => false
  end.

Definition truthy_list {A : Type} (o : option (list A)) : bool :=
  match o with
  | Some (_ :: _) => true
  | _ => false
  end.

(** A string stands for a Python text through its UTF-8 bytes. Decoding
    gives the code points; bytes that are not UTF-8 stand for no text. *)
Definition continuation (c : ascii) : option N :=
  let n := N_of_ascii c in
  if ((128 <=? n) && (n <? 192))%N then Some (n - 128)%N else None.

Fixpoint utf8_decode (l : list ascii) : option (list N) :=
  match l with
  | [] => Some []
  | b0 :: l1 =>
      let n0 := N_of_ascii b0 in
      if (n0 <? 128)%N then cons n0 <$> utf8_decode l1
      else if (n0 <? 194)%N then None
      else if (n0 <? 224)%N then
        match l1 with
        | b1 :: l2 =>
            match continuation b1 with
            | Some n1 => cons ((n0 - 192) * 64 + n1)%N <$> utf8_decode l2
            | None => None
            end
        | [] => None
        end
      else if (n0 <? 240)%N then
        match l1 with
        | b1 :: b2 :: l3 =>
            match continuation b1, continuation b2 with
            | Some n1, Some n2 =>
                let c := ((n0 - 224) * 4096 + n1 * 64 + n2)%N in
                if ((c <? 2048) || ((55296 <=? c) && (c <? 57344)))%N then None
                else cons c <$> utf8_decode l3
            | _, _ => None
            end
        | _ => None
        end
      else if (n0 <? 245)%N then
        match l1 with
        | b1 :: b2 :: b3 :: l4 =>
            match continuation b1, continuation b2, continuation b3 with
            | Some n1, Some n2, Some n3 =>
                let c := ((n0 - 240) * 262144 + n1 * 4096 + n2 * 64 + n3)%N in
                if ((c <? 65536) || (1114112 <=? c))%N then None
                else cons c <$> utf8_decode l4
            | _, _, _ => None
            end
        | _ => None
        end
      else None
  end.

(** [len(s)] for a text: the number of its code points. *)
Definition text_length (s : string) : nat :=
  match utf8_decode (list_ascii_of_string s) with
  | Some cs => length cs
  | None => String.length s
  end.

(** [len(v)]: defined on sized values only. *)
Definition py_len (v : value) : option Z :=
  match v with
  | VStr s => Some (Z.of_nat (text_length s))
  | VList l => Some (Z.of_nat (List.length l))
  | VDict d => Some (Z.of_nat (List.length d))
  | _ => None
  end.

(** ** [base64.b64encode] (RFC 4648, with padding) *)

Definition b64_alphabet : string :=
  "ABCDEFGHIJKLMNOPQRSTUVWXYZabcdefghijklmnopqrstuvwxyz0123456789+/".

Definition b64_digit (n : N) : ascii :=
  match String.get (N.to_nat n) b64_alphabet with
  | Some c => c
  | None => "="%char
  end.

Fixpoint b64encode_bytes (l : list N) : string :=
  match l with
  | [] => ""
  | [a] =>
      String (b64_digit (N.shiftr a 2))
     (String (b64_digit (N.shiftl (N.land a 3) 4))
             "==")
  | [a; b] =>
      String (b64_digit (N.shiftr a 2))
     (String (b64_digit (N.lor (N.shiftl (N.land a 3) 4) (N.shiftr b 4)))
     (String (b64_digit (N.shiftl (N.land b 15) 2))
             "="))
  | a :: b :: c :: rest =>
      String (b64_digit (N.shiftr a 2))
     (String (b64_digit (N.lor (N.shiftl (N.land a 3) 4) (N.shiftr b 4)))
     (String (b64_digit (N.lor (N.shiftl (N.land b 15) 2) (N.shiftr c 6)))
     (String (b64_digit (N.land c 63))
             (b64encode_bytes rest))))
  end.

(** [base64.b64encode(s.encode()).decode()]: a string is its byte sequence. *)
Definition b64encode (s : string) : string :=
  b64encode_bytes (map N_of_ascii (list_ascii_of_string s)).

(** ** [int(s)] on a string *)

(** White space beyond ASCII: NEL, the no-break space, the Ogham space
    mark, the spaces U+2000 to U+200A, the line and paragraph separators,
    the narrow no-break, medium mathematical and ideographic spaces. *)
Definition unicode_space (c : N) : bool :=
  ((c =? 133) || (c =? 160) || (c =? 5760) || ((8192 <=? c) && (c <=? 8202))
   || (c =? 8232) || (c =? 8233) || (c =? 8239) || (c =? 8287) || (c =? 12288))%N.

(** The decimal digits beyond ASCII (Unicode 14, the database of Python
    3.11): runs of code points, each given by its first code point and
    its length, the digits 0 to 9 in order and over again. *)
Definition decimal_runs : list (N * N) :=
  [ (1632, 10); (1776, 10); (1984, 10); (2406, 10); (2534, 10); (2662, 10);
    (2790, 10); (2918, 10); (3046, 10); (3174, 10); (3302, 10); (3430, 10);
    (3558, 10); (3664, 10); (3792, 10); (3872, 10); (4160, 10); (4240, 10);
    (6112, 10); (6160, 10); (6470, 10); (6608, 10); (6784, 10); (6800, 10);
    (6992, 10); (7088, 10); (7232, 10); (7248, 10); (42528, 10); (43216, 10);
    (43264, 10); (43472, 10); (43504, 10); (43600, 10); (44016, 10); (65296, 10);
    (66720, 10); (68912, 10); (69734, 10); (69872, 10); (69942, 10); (70096, 10);
    (70384, 10); (70736, 10); (70864, 10); (71248, 10); (71360, 10); (71472, 10);
    (71904, 10); (72016, 10); (72784, 10); (73040, 10); (73120, 10); (92768, 10);
    (92864, 10); (93008, 10); (120782, 50); (123200, 10); (123632, 10);
    (125264, 10); (130032, 10) ]%N.

Definition unicode_decimal (c : N) : option N :=
  match List.find (fun r => ((fst r <=? c) && (c <? fst r + snd r))%N) decimal_runs with
  | Some (first, _) => Some ((c - first) mod 10)%N
  | None => None
  end.

(** What [int] makes of a character before it reads the text: ASCII
    stays, white space becomes a space, a decimal digit its ASCII digit,
    and anything else a character that no number holds. *)
Definition to_ascii (c : N) : ascii :=
  if (c <? 127)%N then ascii_of_N c
  else if unicode_space c then " "%char
  else match unicode_decimal c with
       | Some d => ascii_of_N (48 + d)
       | None => "?"%char
       end.

(** Whitespace as [int] skips it in ASCII text: tab to carriage return,
    and the space. *)
Definition is_space (c : ascii) : bool :=
  let n := N_of_ascii c in
  ((9 <=? n) && (n <=? 13) || (n =? 32))%N.

Definition digit_of (c : ascii) : option Z :=
  let n := N_of_ascii c in
  if ((48 <=? n) && (n <=? 57))%N then Some (Z.of_N n - 48) else None.

Definition is_digit (c : ascii) : bool :=
  match digit_of c with
  | Some _ => true
  | None => false
  end.

Fixpoint lstrip (l : list ascii) : list ascii :=
  match l with
  | c :: l' => if is_space c then lstrip l' else l
  | [] => []
  end.

Definition strip (l : list ascii) : list ascii := rev (lstrip (rev (lstrip l))).

(** Digits with single underscores allowed between them. [after_digit]
    tells whether the previous character was a digit. *)
Fixpoint parse_digits (acc : Z) (after_digit : bool) (l : list ascii) : option Z :=
  match l with
  | [] => if after_digit then Some acc else None
  | c :: l' =>
      match digit_of c with
      | Some d => parse_digits (10 * acc + d) true l'
      | None =>
          if Ascii.eqb c "_" && after_digit then parse_digits acc false l' else None
      end
  end.

(** Reading ASCII text as an integer written in base 10: surrounding
    whitespace, an optional sign, then digits. *)
Definition int_ascii (l : list ascii) : option Z :=
  match strip l with
  | "-"%char :: ds => Z.opp <$> parse_digits 0 false ds
  | "+"%char :: ds => parse_digits 0 false ds
  | ds => parse_digits 0 false ds
  end.

(** [sys.get_int_max_str_digits()], by default. *)
Definition int_max_str_digits : Z := 4300.

(** [int(s)], base 10. [None] stands for the [ValueError] that [int]
    raises, on text that is no integer and on text with more digits than
    the interpreter converts. *)
Definition py_int (s : string) : option Z :=
  match utf8_decode (list_ascii_of_string s) with
  | Some cs =>
      let l := map to_ascii cs in
      if int_max_str_digits <? Z.of_nat (length (List.filter is_digit l)) then None
      else int_ascii l
  | None => None
  end.

(** The digits [int] counts before it converts: those of the run of
    digits and single underscores that the text begins with; none if the
    run is empty or an underscore is out of place. *)
Fixpoint count_run (n : Z) (after_digit : bool) (l : list ascii) : option Z :=
  match l with
  | [] => if after_digit then Some n else None
  | c :: l' =>
      if is_digit c then count_run (n + 1) true l'
      else if Ascii.eqb c "_" then
        if after_digit then count_run n false l' else None
      else if after_digit then Some n else None
  end.

(** How the message of the [ValueError] begins: [int] refuses a
    well-formed run of too many digits before it looks at what follows
    the run. *)
Definition int_error_message (s : string) : string :=
  match utf8_decode (list_ascii_of_string s) with
  | Some cs =>
      let l := lstrip (map to_ascii cs) in
      let run :=
        match l with
        | "+"%char :: l' | "-"%char :: l' => l'
        | _ => l
        end in
      match count_run 0 false run with
      | Some n =>
          if int_max_str_digits <? n
          then "Exceeds the limit (4300 digits) for integer string conversion"
          else "invalid literal for int() with base 10"
      | None => "invalid literal for int() with base 10"
      end
  | None => "invalid literal for int() with base 10"
  end.

(** ** The HTTP library's interface, as the client uses it *)

Module httpx.

Record Request : Type := mkRequest {
  method : string;
  url : string;
  headers : list (string * string);
  params : option dict;
  json : option dict;
  timeout : Q
}.

(** Header names are the keys of a finite map, in lower case, the way
    the library normalises them for its case-insensitive lookup.
    [resp_json] is what [response.json()] returns, [None] when the body is
    not JSON and the call raises. *)
Record Response : Type := mkResponse {
  status_code : Z;
  resp_headers : gmap string string;
  content : string;
  resp_json : option value
}.

Definition is_success (r : Response) : bool :=
  (200 <=? status_code r) && (status_code r <=? 299).

End httpx.

(** ** Exceptions, results and the state-and-exception monad *)

Inductive exn : Type :=
| ValueError (msg : string)
| TypeError (msg : string)
| AttributeError (cls attr : string)
| HTTPStatusError (response : httpx.Response)
| ConnectError
| JSONDecodeError
| RecursionError.

Inductive result (A : Type) : Type :=
| Return (a : A)
| Raise (e : exn).
Arguments Return {A} a.
Arguments Raise {A} e.

(** A computation over a state [S]: the state survives an exception, as
    the attributes of a Python object do. *)
Definition M (S A : Type) : Type := S -> result A * S.

#[global] Instance M_ret {S} : MRet (M S) := fun A a s => (Return a, s).
#[global] Instance M_bind {S} : MBind (M S) := fun A B k m s =>
  match m s with
  | (Return a, s') => k a s'
  | (Raise e, s') => (Raise e, s')
  end.

Definition raise {S A} (e : exn) : M S A := fun s => (Raise e, s).
Definition gets {S A} (f : S -> A) : M S A := fun s => (Return (f s), s).
Definition modify {S} (f : S -> S) : M S unit := fun s => (Return tt, f s).

(** ** The client object and the world around it *)

Record GreenhouseClient : Type := mkClient {
  api_key : string;
  base_url : string;
  headers : list (string * string);
  _last_request_time : Q;
  _request_count : Z;
  _rate_limit_window : Q;
  _rate_limit_max : Z
}.

(** The outside world of one process: the wall clock, the overshoot of
    each coming sleep, the logs of what was sent and slept, and the
    room the interpreter has left below its recursion limit, counted in
    calls of [_make_request] nested in one another. *)
Record Net : Type := mkNet {
  clock : Q;
  lags : list Q;
  sent : list httpx.Request;
  slept : list Q;
  frames : nat
}.

Record St : Type := mkSt { self : GreenhouseClient; net : Net }.

Definition set_request_count (n : Z) (s : St) : St :=
  let c := self s in
  mkSt (mkClient (api_key c) (base_url c) (headers c) (_last_request_time c) n
                 (_rate_limit_window c) (_rate_limit_max c)) (net s).

Definition set_last_request_time (t : Q) (s : St) : St :=
  let c := self s in
  mkSt (mkClient (api_key c) (base_url c) (headers c) t (_request_count c)
                 (_rate_limit_window c) (_rate_limit_max c)) (net s).

Definition Qlt_bool (x y : Q) : bool := negb (Qle_bool y x).

(** [time.time()] *)
Definition time_time : M St Q := gets (fun s => clock (net s)).

(** [time.sleep(d)]: a negative length is a [ValueError]; otherwise the
    clock moves on by [d] and by the overshoot of this sleep. *)
Definition time_sleep (d : Q) : M St unit := fun s =>
  if Qlt_bool d 0 then (Raise (ValueError "sleep length must be non-negative"), s)
  else
    let n := net s in
    (Return tt,
     mkSt (self s)
          (mkNet (clock n + d + hd 0%Q (lags n))%Q (tl (lags n)) (sent n)
                 (slept n ++ [d])%list (frames n))).

(** [os.getenv(name)] and [os.getenv(name, default)] *)
Definition getenv (environ : gmap string string) (name : string) : option string :=
  environ !! name.

Definition getenv_default (environ : gmap string string) (name default : string) : string :=
  match environ !! name with
  | Some v => v
  | None => default
  end.

(** ** [GreenhouseClient.__init__] *)

Definition __init__ (environ : gmap string string) (api_key : option string)
  : result GreenhouseClient :=
  let api_key := if truthy_str api_key then api_key else getenv environ "GREENHOUSE_API_KEY" in
  match api_key with
  | Some key =>
      if negb (truthy_str (Some key)) then Raise (ValueError "Greenhouse API key is required")
      else
        let base_url := getenv_default environ "GREENHOUSE_BASE_URL"
                                       "https://harvest.greenhouse.io/v1" in
        let auth_string := b64encode (key +:+ ":") in
        Return (mkClient key base_url
                         [("Authorization", "Basic " +:+ auth_string);
                          ("Content-Type", "application/json")]
                         0%Q 0 10%Q 50)
  | None => Raise (ValueError "Greenhouse API key is required")
  end.

(** ** Floating-point numbers *)

(** Clock readings are of Python's [float], the binary64 format, and the
    limiter computes with them. A float is modelled by the rational it
    stands for; infinities and NaN do not occur among clock readings. *)

Fixpoint odd_part (p : positive) : positive :=
  match p with
  | xO q => odd_part q
  | _ => p
  end.

(** The rationals that are values of the binary64 format: zero, and the
    numbers with an odd part below 2^53 whose lowest binary digit is no
    lower than 2^-1074 and that are less than 2^1024 in size. *)
Definition binary64 (x : Q) : bool :=
  let y := Qred x in
  match Qnum y with
  | 0%Z => true
  | Z.pos n | Z.neg n =>
      Pos.eqb (odd_part (Qden y)) 1 && (Z.pos (Qden y) <=? 2 ^ 1074)
      && (Z.pos (odd_part n) <? 2 ^ 53) && (Z.pos n <? 2 ^ 1024)
  end.

(** The integer nearest to [a / b], the even one of two equally near. *)
Definition round_half_even (a : Z) (b : positive) : Z :=
  let m := a / Z.pos b in
  match 2 * (a mod Z.pos b) ?= Z.pos b with
  | Lt => m
  | Gt => m + 1
  | Eq => if Z.even m then m else m + 1
  end.

(** The float nearest to [n / d]: with [2^e <= n / d < 2^(e+1)], the
    nearest multiple of [2^(e-52)], or of [2^-1074] where that is
    larger. (Numbers beyond the largest float, which round to infinity,
    are left aside.) *)
Definition round64_pos (n d : positive) : Q :=
  let e0 := Z.log2 (Z.pos n) - Z.log2 (Z.pos d) in
  let below :=
    if 0 <=? e0 then Z.pos n <? 2 ^ e0 * Z.pos d
    else Z.pos n * 2 ^ (- e0) <? Z.pos d in
  let e := if below then e0 - 1 else e0 in
  let q := Z.max (e - 52) (-1074) in
  if 0 <=? q then
    inject_Z (round_half_even (Z.pos n) (d * Z.to_pos (2 ^ q)) * 2 ^ q)
  else
    Qmake (round_half_even (Z.pos n * 2 ^ (- q)) d) (Z.to_pos (2 ^ (- q))).

Definition round64 (x : Q) : Q :=
  match Qnum x with
  | 0%Z => 0%Q
  | Z.pos n => round64_pos n (Qden x)
  | Z.neg n => (- round64_pos n (Qden x))%Q
  end.

(** [float(x)] for a number [x], and the difference of two floats as
    the floating-point subtraction gives it: the exact number where it
    is a float, the nearest float otherwise. *)
Definition float_of (x : Q) : Q := if binary64 x then x else round64 x.

Definition float_sub (x y : Q) : Q := float_of (x - y).

(** ** [GreenhouseClient._rate_limit] *)

(** The limiter, with its two subtractions computed exactly. This is the
    limiter of the request pipeline below. *)
Definition _rate_limit : M St unit :=
  current_time ← time_time;
  last ← gets (fun s => _last_request_time (self s));
  window ← gets (fun s => _rate_limit_window (self s));
  (if Qlt_bool window (current_time - last) then
     modify (set_request_count 0);;
     modify (set_last_request_time current_time)
   else mret tt);;
  count ← gets (fun s => _request_count (self s));
  max ← gets (fun s => _rate_limit_max (self s));
  (if max <=? count then
     last ← gets (fun s => _last_request_time (self s));
     let sleep_time := (window - (current_time - last))%Q in
     if Qlt_bool 0 sleep_time then
       time_sleep sleep_time;;
       modify (set_request_count 0);;
       now ← time_time;
       modify (set_last_request_time now)
     else mret tt
   else mret tt);;
  count ← gets (fun s => _request_count (self s));
  modify (set_request_count (count + 1)).

(** The limiter as the code computes it: the clock reading and the
    window start are floats, and each subtraction gives the float
    nearest to the exact difference. The comparisons are exact (Python
    compares a float with an integer by value). Where no subtraction
    rounds, this is [_rate_limit]. *)
Definition _rate_limit_binary64 : M St unit :=
  current_time ← time_time;
  last ← gets (fun s => _last_request_time (self s));
  window ← gets (fun s => _rate_limit_window (self s));
  (if Qlt_bool window (float_sub current_time last) then
     modify (set_request_count 0);;
     modify (set_last_request_time current_time)
   else mret tt);;
  count ← gets (fun s => _request_count (self s));
  max ← gets (fun s => _rate_limit_max (self s));
  (if max <=? count then
     last ← gets (fun s => _last_request_time (self s));
     let sleep_time := float_sub (float_of window) (float_sub current_time last) in
     if Qlt_bool 0 sleep_time then
       time_sleep sleep_time;;
       modify (set_request_count 0);;
       now ← time_time;
       modify (set_last_request_time now)
     else mret tt
   else mret tt);;
  count ← gets (fun s => _request_count (self s));
  modify (set_request_count (count + 1)).

(** ** [GreenhouseClient._make_request] *)

(** [int(response.headers.get("Retry-After", 10))] *)
Definition retry_after_of (response : httpx.Response) : result Z :=
  match httpx.resp_headers response !! "retry-after" with
  | Some v =>
      match py_int v with
      | Some n => Return n
      | None => Raise (ValueError (int_error_message v))
      end
  | None => Return 10
  end.

(** [response.raise_for_status()]: any status outside 2xx raises, and the
    error carries the response. (Older versions of the library let 1xx
    and 3xx pass; the properties below rest on 2xx, 4xx and 5xx only.) *)
Definition raise_for_status (response : httpx.Response) : result unit :=
  if httpx.is_success response then Return tt else Raise (HTTPStatusError response).

(** The request as [client.request(...)] issues it. *)
Definition request_of (c : GreenhouseClient) (method endpoint : string)
    (params json_data : option dict) : httpx.Request :=
  httpx.mkRequest method (base_url c +:+ "/" +:+ endpoint) (headers c)
                  params json_data 30%Q.

Definition send (req : httpx.Request) (s : St) : St :=
  let n := net s in
  mkSt (self s) (mkNet (clock n) (lags n) (sent n ++ [req])%list (slept n) (frames n)).

(** A call of a client method: it runs against the server's script [wire]
    and gives back the part of the script it did not consume. *)
Definition Call (A : Type) : Type :=
  list httpx.Response -> St -> result A * St * list httpx.Response.

(** The call with room for [depth] more calls nested in it. A retry is
    a call nested in the call it retries ([return await
    self._make_request(...)]); without room for it the interpreter raises
    [RecursionError] in its place. *)
Fixpoint _make_request_in (depth : nat) (method endpoint : string)
    (params json_data : option dict)
    (wire : list httpx.Response) (s : St) {struct wire}
  : result value * St * list httpx.Response :=
  match _rate_limit s with
  | (Raise e, s) => (Raise e, s, wire)
  | (Return _, s) =>
      let s := send (request_of (self s) method endpoint params json_data) s in
      match wire with
      | [] => (Raise ConnectError, s, [])
      | response :: wire =>
          if httpx.status_code response =? 429 then
            match retry_after_of response with
            | Raise e => (Raise e, s, wire)
            | Return retry_after =>
                match time_sleep (inject_Z retry_after) s with
                | (Raise e, s) => (Raise e, s, wire)
                | (Return _, s) =>
                    match depth with
                    | S depth =>
                        _make_request_in depth method endpoint params json_data wire s
                    | O => (Raise RecursionError, s, wire)
                    end
                end
            end
          else
            match raise_for_status response with
            | Raise e => (Raise e, s, wire)
            | Return _ =>
                if httpx.status_code response =? 204 then (Return (VDict []), s, wire)
                else
                  match httpx.resp_json response with
                  | Some v => (Return v, s, wire)
                  | None => (Raise JSONDecodeError, s, wire)
                  end
            end
      end
  end.

Definition _make_request (method endpoint : string) (params json_data : option dict)
    (wire : list httpx.Response) (s : St)
  : result value * St * list httpx.Response :=
  _make_request_in (frames (net s)) method endpoint params json_data wire s.

(** ** Endpoint methods *)

(** [if x: d[k] = x] for an optional argument [x]. *)
Definition set_if {A : Type} (truthy : option A -> bool) (inj : A -> value)
    (k : string) (x : option A) (d : dict) : dict :=
  match x with
  | Some a => if truthy x then dict_set k (inj a) d else d
  | None => d
  end.

Definition pagination (per_page page : Z) : dict :=
  [("per_page", VInt per_page); ("page", VInt page)].

Definition list_jobs_params (per_page page : Z)
    (created_before created_after status : option string) : dict :=
  let params := pagination per_page page in
  let params := set_if truthy_str VStr "created_before" created_before params in
  let params := set_if truthy_str VStr "created_after" created_after params in
  let params := set_if truthy_str VStr "status" status params in
  params.

Definition list_jobs (per_page page : Z)
    (created_before created_after status : option string) : Call value :=
  _make_request "GET" "jobs"
    (Some (list_jobs_params per_page page created_before created_after status)) None.

Definition get_job (job_id : Z) : Call value :=
  _make_request "GET" ("jobs/" +:+ str_of_Z job_id) None None.

Definition candidate_ids_param (candidate_ids : list Z) : value :=
  VStr (join "," (map str_of_Z candidate_ids)).

Definition list_candidates_params (per_page page : Z)
    (created_before created_after email : option string)
    (candidate_ids : option (list Z)) : dict :=
  let params := pagination per_page page in
  let params := set_if truthy_str VStr "created_before" created_before params in
  let params := set_if truthy_str VStr "created_after" created_after params in
  let params := set_if truthy_str VStr "email" email params in
  let params := set_if truthy_list candidate_ids_param "candidate_ids" candidate_ids params in
  params.

Definition list_candidates (per_page page : Z)
    (created_before created_after email : option string)
    (candidate_ids : option (list Z)) : Call value :=
  _make_request "GET" "candidates"
    (Some (list_candidates_params per_page page created_before created_after
                                  email candidate_ids)) None.

Definition get_candidate (candidate_id : Z) : Call value :=
  _make_request "GET" ("candidates/" +:+ str_of_Z candidate_id) None None.

Definition create_candidate (candidate_data : dict) : Call value :=
  _make_request "POST" "candidates" None (Some candidate_data).

Definition update_candidate (candidate_id : Z) (candidate_data : dict) : Call value :=
  _make_request "PATCH" ("candidates/" +:+ str_of_Z candidate_id) None (Some candidate_data).

Definition list_applications_params (per_page page : Z)
    (created_before created_after : option string) (job_id candidate_id : option Z)
    (status : option string) : dict :=
  let params := pagination per_page page in
  let params := set_if truthy_str VStr "created_before" created_before params in
  let params := set_if truthy_str VStr "created_after" created_after params in
  let params := set_if truthy_int VInt "job_id" job_id params in
  let params := set_if truthy_int VInt "candidate_id" candidate_id params in
  let params := set_if truthy_str VStr "status" status params in
  params.

Definition list_applications (per_page page : Z)
    (created_before created_after : option string) (job_id candidate_id : option Z)
    (status : option string) : Call value :=
  _make_request "GET" "applications"
    (Some (list_applications_params per_page page created_before created_after
                                    job_id candidate_id status)) None.

Definition get_application (application_id : Z) : Call value :=
  _make_request "GET" ("applications/" +:+ str_of_Z application_id) None None.

Definition advance_application_data (from_stage_id : Z) (to_stage_id : option Z) : dict :=
  let data := [("from_stage_id", VInt from_stage_id)] in
  let data := set_if truthy_int VInt "to_stage_id" to_stage_id data in
  data.

Definition advance_application (application_id from_stage_id : Z)
    (to_stage_id : option Z) : Call value :=
  _make_request "POST" ("applications/" +:+ str_of_Z application_id +:+ "/advance")
    None (Some (advance_application_data from_stage_id to_stage_id)).

Definition reject_application_data (rejection_reason_id : option Z)
    (notes : option string) (rejection_email_id : option Z) : dict :=
  let data := [] in
  let data := set_if truthy_int VInt "rejection_reason_id" rejection_reason_id data in
  let data := set_if truthy_str VStr "notes" notes data in
  let data := set_if truthy_int VInt "rejection_email_send_email_at" rejection_email_id data in
  data.

Definition reject_application (application_id : Z) (rejection_reason_id : option Z)
    (notes : option string) (rejection_email_id : option Z) : Call value :=
  _make_request "POST" ("applications/" +:+ str_of_Z application_id +:+ "/reject")
    None (Some (reject_application_data rejection_reason_id notes rejection_email_id)).

Definition note_data (body visibility : string) : dict :=
  [("body", VStr body); ("visibility", VStr visibility)].

Definition add_note_to_candidate (candidate_id : Z) (body visibility : string) : Call value :=
  _make_request "POST" ("candidates/" +:+ str_of_Z candidate_id +:+ "/activity_feed/notes")
    None (Some (note_data body visibility)).

Definition add_note_to_application (application_id : Z) (body visibility : string)
  : Call value :=
  _make_request "POST" ("applications/" +:+ str_of_Z application_id +:+ "/notes")
    None (Some (note_data body visibility)).

Definition list_departments (per_page page : Z) : Call value :=
  _make_request "GET" "departments" (Some (pagination per_page page)) None.

Definition list_offices (per_page page : Z) : Call value :=
  _make_request "GET" "offices" (Some (pagination per_page page)) None.

Definition list_users_params (per_page page : Z) (email : option string) : dict :=
  let params := pagination per_page page in
  let params := set_if truthy_str VStr "email" email params in
  params.

Definition list_users (per_page page : Z) (email : option string) : Call value :=
  _make_request "GET" "users" (Some (list_users_params per_page page email)) None.

(** ** Calling a method on the client object

    The adapter reaches the client through attribute lookup on the
    instance. [GreenhouseClient_methods] is the method table of the class,
    one entry per [def] of its body, in source order; an entry binds the
    call's arguments (named after the parameters they land in) and
    defaults, then runs the method. *)

#[global] Instance result_ret : MRet result := fun A a => Return a.
#[global] Instance result_bind : MBind result := fun A B k r =>
  match r with
  | Return a => k a
  | Raise e => Raise e
  end.

Definition enc_opt_int (o : option Z) : value :=
  match o with Some z => VInt z | None => VNone end.
Definition enc_opt_str (o : option string) : value :=
  match o with Some s => VStr s | None => VNone end.
Definition enc_opt_ints (o : option (list Z)) : value :=
  match o with Some l => VList (map VInt l) | None => VNone end.

Definition bad_argument {A : Type} (k : string) : result A :=
  Raise (TypeError ("bad argument: " +:+ k)).

Definition arg_int (kw : dict) (k : string) (default : option Z) : result Z :=
  match dict_get k kw, default with
  | Some (VInt z), _ => Return z
  | None, Some z => Return z
  | _, _ => bad_argument k
  end.

Definition arg_str (kw : dict) (k : string) (default : option string) : result string :=
  match dict_get k kw, default with
  | Some (VStr s), _ => Return s
  | None, Some s => Return s
  | _, _ => bad_argument k
  end.

Definition arg_dict (kw : dict) (k : string) : result dict :=
  match dict_get k kw with
  | Some (VDict d) => Return d
  | _ => bad_argument k
  end.

Definition arg_opt_int (kw : dict) (k : string) : result (option Z) :=
  match dict_get k kw with
  | Some (VInt z) => Return (Some z)
  | Some VNone | None => Return None
  | _ => bad_argument k
  end.

Definition arg_opt_str (kw : dict) (k : string) : result (option string) :=
  match dict_get k kw with
  | Some (VStr s) => Return (Some s)
  | Some VNone | None => Return None
  | _ => bad_argument k
  end.

Fixpoint ints_of (l : list value) : option (list Z) :=
  match l with
  | [] => Some []
  | VInt z :: l' => cons z <$> ints_of l'
  | _ => None
  end.

Definition arg_opt_ints (kw : dict) (k : string) : result (option (list Z)) :=
  match dict_get k kw with
  | Some (VList l) =>
      match ints_of l with
      | Some zs => Return (Some zs)
      | None => bad_argument k
      end
  | Some VNone | None => Return None
  | _ => bad_argument k
  end.

Definition GreenhouseClient_methods : list (string * (dict -> result (Call value))) :=
  [ ("list_jobs", fun kw =>
       per_page ← arg_int kw "per_page" (Some 50);
       page ← arg_int kw "page" (Some 1);
       created_before ← arg_opt_str kw "created_before";
       created_after ← arg_opt_str kw "created_after";
       status ← arg_opt_str kw "status";
       mret (list_jobs per_page page created_before created_after status));
    ("get_job", fun kw =>
       job_id ← arg_int kw "job_id" None;
       mret (get_job job_id));
    ("list_candidates", fun kw =>
       per_page ← arg_int kw "per_page" (Some 50);
       page ← arg_int kw "page" (Some 1);
       created_before ← arg_opt_str kw "created_before";
       created_after ← arg_opt_str kw "created_after";
       email ← arg_opt_str kw "email";
       candidate_ids ← arg_opt_ints kw "candidate_ids";
       mret (list_candidates per_page page created_before created_after email
                             candidate_ids));
    ("get_candidate", fun kw =>
       candidate_id ← arg_int kw "candidate_id" None;
       mret (get_candidate candidate_id));
    ("create_candidate", fun kw =>
       candidate_data ← arg_dict kw "candidate_data";
       mret (create_candidate candidate_data));
    ("update_candidate", fun kw =>
       candidate_id ← arg_int kw "candidate_id" None;
       candidate_data ← arg_dict kw "candidate_data";
       mret (update_candidate candidate_id candidate_data));
    ("list_applications", fun kw =>
       per_page ← arg_int kw "per_page" (Some 50);
       page ← arg_int kw "page" (Some 1);
       created_before ← arg_opt_str kw "created_before";
       created_after ← arg_opt_str kw "created_after";
       job_id ← arg_opt_int kw "job_id";
       candidate_id ← arg_opt_int kw "candidate_id";
       status ← arg_opt_str kw "status";
       mret (list_applications per_page page created_before created_after
                               job_id candidate_id status));
    ("get_application", fun kw =>
       application_id ← arg_int kw "application_id" None;
       mret (get_application application_id));
    ("advance_application", fun kw =>
       application_id ← arg_int kw "application_id" None;
       from_stage_id ← arg_int kw "from_stage_id" None;
       to_stage_id ← arg_opt_int kw "to_stage_id";
       mret (advance_application application_id from_stage_id to_stage_id));
    ("reject_application", fun kw =>
       application_id ← arg_int kw "application_id" None;
       rejection_reason_id ← arg_opt_int kw "rejection_reason_id";
       notes ← arg_opt_str kw "notes";
       rejection_email_id ← arg_opt_int kw "rejection_email_id";
       mret (reject_application application_id rejection_reason_id notes
                                rejection_email_id));
    ("add_note_to_candidate", fun kw =>
       candidate_id ← arg_int kw "candidate_id" None;
       body ← arg_str kw "body" None;
       visibility ← arg_str kw "visibility" (Some "private");
       mret (add_note_to_candidate candidate_id body visibility));
    ("add_note_to_application", fun kw =>
       application_id ← arg_int kw "application_id" None;
       body ← arg_str kw "body" None;
       visibility ← arg_str kw "visibility" (Some "private");
       mret (add_note_to_application application_id body visibility));
    ("list_departments", fun kw =>
       per_page ← arg_int kw "per_page" (Some 50);
       page ← arg_int kw "page" (Some 1);
       mret (list_departments per_page page));
    ("list_offices", fun kw =>
       per_page ← arg_int kw "per_page" (Some 50);
       page ← arg_int kw "page" (Some 1);
       mret (list_offices per_page page));
    ("list_users", fun kw =>
       per_page ← arg_int kw "per_page" (Some 50);
       page ← arg_int kw "page" (Some 1);
       email ← arg_opt_str kw "email";
       mret (list_users per_page page email)) ].

(** The data attributes that [__init__] sets and the two private methods:
    names that resolve on an instance but are not endpoint methods. *)
Definition GreenhouseClient_other_attrs : list string :=
  ["__init__"; "_rate_limit"; "_make_request"; "api_key"; "base_url"; "headers";
   "_last_request_time"; "_request_count"; "_rate_limit_window"; "_rate_limit_max"].

(** ** The tool adapter ([greenhouse_mcp.py]) *)

Inductive log_arg : Type :=
| ArgVal (v : value)
| ArgExn (e : exn).

(** A message handed to the call context: the f-string's template and the
    values interpolated into it. *)
Inductive log_event : Type :=
| CtxInfo (template : string) (args : list log_arg)
| CtxError (template : string) (args : list log_arg).

(** The adapter's process: its environment, the module-level [client]
    singleton, the outside world, the server's script, and what the call
    contexts were told. *)
Record World : Type := mkWorld {
  environ : gmap string string;
  client : option GreenhouseClient;
  world_net : Net;
  wire : list httpx.Response;
  ctx_log : list log_event
}.

Definition set_client (c : option GreenhouseClient) (w : World) : World :=
  mkWorld (environ w) c (world_net w) (wire w) (ctx_log w).

Definition log (ev : log_event) (w : World) : World :=
  mkWorld (environ w) (client w) (world_net w) (wire w) (ctx_log w ++ [ev])%list.

Definition get_client : M World unit := fun w =>
  match client w with
  | Some _ => (Return tt, w)
  | None =>
      let api_key := getenv (environ w) "GREENHOUSE_API_KEY" in
      if negb (truthy_str api_key) then
        (Raise (ValueError "GREENHOUSE_API_KEY environment variable is required. Please set it in your .env file or environment."), w)
      else
        match __init__ (environ w) api_key with
        | Return c => (Return tt, set_client (Some c) w)
        | Raise e => (Raise e, w)
        end
  end.

(** A call of a client method on the singleton [c]: it runs against the
    world's script, and the shared object keeps the state the call leaves. *)
Definition run_call (call : Call value) (c : GreenhouseClient) (w : World)
  : result value * World :=
  let '(r, s, wire') := call (wire w) (mkSt c (world_net w)) in
  (r, mkWorld (environ w) (Some (self s)) (net s) wire' (ctx_log w)).

(** [await gh_client.<name>(<kwargs>)] on the singleton: look the method
    up, bind the arguments, run the call. *)
Definition call_method (name : string) (kwargs : dict) : M World value := fun w =>
  match client w with
  | None => (Raise (AttributeError "NoneType" name), w)
  | Some c =>
      match dict_get name GreenhouseClient_methods with
      | None =>
          if existsb (String.eqb name) GreenhouseClient_other_attrs
          then (Raise (TypeError ("not an endpoint method: " +:+ name)), w)
          else (Raise (AttributeError "GreenhouseClient" name), w)
      | Some bind_args =>
          match bind_args kwargs with
          | Raise e => (Raise e, w)
          | Return call => run_call call c w
          end
      end
  end.

(** [if ctx: ctx.info(f"...")]: evaluating the interpolated expressions
    may itself raise. *)
Definition ctx_info (ctx : bool) (template : string) (args : result (list log_arg))
  : M World unit :=
  if ctx then
    match args with
    | Return a => modify (log (CtxInfo template a))
    | Raise e => raise e
    end
  else mret tt.

(** [try: body / except Exception as e: if ctx: ctx.error(f"...{str(e)}"); raise] *)
Definition try_except (ctx : bool) (template : string) (args : list log_arg)
    (body : M World value) : M World value := fun w =>
  match body w with
  | (Raise e, w') =>
      (Raise e, if ctx then log (CtxError template (args ++ [ArgExn e])%list) w' else w')
  | (Return v, w') => (Return v, w')
  end.

Definition len_arg (v : value) : result (list log_arg) :=
  match py_len v with
  | Some n => Return [ArgVal (VInt n)]
  | None => Raise (TypeError "object has no len()")
  end.

(** [v.get(k, default)] *)
Definition py_get (v : value) (k : string) (default : value) : result value :=
  match v with
  | VDict d =>
      match dict_get k d with
      | Some x => Return x
      | None => Return default
      end
  | _ => Raise (AttributeError "object" "get")
  end.

Module Tools.

Definition list_candidates (per_page page : Z) (email : option string)
    (candidate_ids : option (list Z)) (created_after created_before : option string)
    (ctx : bool) : M World value :=
  try_except ctx "Failed to list candidates: {}" [] (
    get_client;;
    candidates ← call_method "list_candidates"
      [("per_page", VInt per_page); ("page", VInt page);
       ("email", enc_opt_str email); ("candidate_ids", enc_opt_ints candidate_ids);
       ("created_after", enc_opt_str created_after);
       ("created_before", enc_opt_str created_before)];
    ctx_info ctx "Retrieved {} candidates" (len_arg candidates);;
    mret candidates).

Definition candidate_fields (email phone company title : option string)
    (tags : option (list string)) (data : dict) : dict :=
  let data := set_if truthy_str
                (fun e => VList [VDict [("value", VStr e); ("type", VStr "personal")]])
                "email_addresses" email data in
  let data := set_if truthy_str
                (fun p => VList [VDict [("value", VStr p); ("type", VStr "mobile")]])
                "phone_numbers" phone data in
  let data := set_if truthy_str VStr "company" company data in
  let data := set_if truthy_str VStr "title" title data in
  let data := set_if truthy_list (fun t => VList (map VStr t)) "tags" tags data in
  data.

Definition create_candidate_data (first_name last_name : string)
    (email phone company title : option string) (tags : option (list string)) : dict :=
  let candidate_data := [("first_name", VStr first_name); ("last_name", VStr last_name)] in
  candidate_fields email phone company title tags candidate_data.

Definition create_candidate (first_name last_name : string)
    (email phone company title : option string) (tags : option (list string))
    (ctx : bool) : M World value :=
  try_except ctx "Failed to create candidate: {}" [] (
    get_client;;
    let candidate_data :=
      create_candidate_data first_name last_name email phone company title tags in
    candidate ← call_method "create_candidate" [("candidate_data", VDict candidate_data)];
    ctx_info ctx "Created candidate: {} {}"
             (Return [ArgVal (VStr first_name); ArgVal (VStr last_name)]);;
    mret candidate).

Definition update_candidate_data (first_name last_name : option string)
    (email phone company title : option string) (tags : option (list string)) : dict :=
  let update_data := [] in
  let update_data := set_if truthy_str VStr "first_name" first_name update_data in
  let update_data := set_if truthy_str VStr "last_name" last_name update_data in
  candidate_fields email phone company title tags update_data.

Definition update_candidate (candidate_id : Z) (first_name last_name : option string)
    (email phone company title : option string) (tags : option (list string))
    (ctx : bool) : M World value :=
  try_except ctx "Failed to update candidate {}: {}" [ArgVal (VInt candidate_id)] (
    get_client;;
    let update_data :=
      update_candidate_data first_name last_name email phone company title tags in
    candidate ← call_method "update_candidate"
      [("candidate_id", VInt candidate_id); ("candidate_data", VDict update_data)];
    ctx_info ctx "Updated candidate ID: {}" (Return [ArgVal (VInt candidate_id)]);;
    mret candidate).

Definition list_applications (per_page page : Z) (job_id candidate_id : option Z)
    (status created_after created_before : option string) (ctx : bool) : M World value :=
  try_except ctx "Failed to list applications: {}" [] (
    get_client;;
    applications ← call_method "list_applications"
      [("per_page", VInt per_page); ("page", VInt page);
       ("job_id", enc_opt_int job_id); ("candidate_id", enc_opt_int candidate_id);
       ("status", enc_opt_str status);
       ("created_after", enc_opt_str created_after);
       ("created_before", enc_opt_str created_before)];
    ctx_info ctx "Retrieved {} applications" (len_arg applications);;
    mret applications).

Definition advance_application (application_id from_stage_id : Z)
    (to_stage_id : option Z) (ctx : bool) : M World value :=
  try_except ctx "Failed to advance application {}: {}" [ArgVal (VInt application_id)] (
    get_client;;
    result ← call_method "advance_application"
      [("application_id", VInt application_id); ("from_stage_id", VInt from_stage_id);
       ("to_stage_id", enc_opt_int to_stage_id)];
    ctx_info ctx "Advanced application {}" (Return [ArgVal (VInt application_id)]);;
    mret result).

Definition list_job_stages (per_page page : Z) (job_id : option Z)
    (created_after created_before : option string) (ctx : bool) : M World value :=
  try_except ctx "Failed to list job stages: {}" [] (
    get_client;;
    stages ← call_method "list_job_stages"
      [("per_page", VInt per_page); ("page", VInt page);
       ("job_id", enc_opt_int job_id);
       ("created_after", enc_opt_str created_after);
       ("created_before", enc_opt_str created_before)];
    ctx_info ctx "Retrieved {} job stages" (len_arg stages);;
    mret stages).

Definition get_job_stage (job_stage_id : Z) (ctx : bool) : M World value :=
  try_except ctx "Failed to get job stage {}: {}" [ArgVal (VInt job_stage_id)] (
    get_client;;
    stage ← call_method "get_job_stage" [("job_stage_id", VInt job_stage_id)];
    ctx_info ctx "Retrieved job stage: {} ({} interviews)"
      (stage_name ← py_get stage "name" (VStr "Unknown");
       interviews ← py_get stage "interviews" (VList []);
       interview_count ← len_arg interviews;
       mret (ArgVal stage_name :: interview_count));;
    mret stage).

Definition list_jobs (per_page page : Z) (status created_after created_before : option string)
    (ctx : bool) : M World value :=
  try_except ctx "Failed to list jobs: {}" [] (
    get_client;;
    jobs ← call_method "list_jobs"
      [("per_page", VInt per_page); ("page", VInt page);
       ("status", enc_opt_str status);
       ("created_after", enc_opt_str created_after);
       ("created_before", enc_opt_str created_before)];
    ctx_info ctx "Retrieved {} jobs" (len_arg jobs);;
    mret jobs).

Definition get_job (job_id : Z) (ctx : bool) : M World value :=
  try_except ctx "Failed to get job {}: {}" [ArgVal (VInt job_id)] (
    get_client;;
    job ← call_method "get_job" [("job_id", VInt job_id)];
    ctx_info ctx "Retrieved job: {}"
      (name ← py_get job "name" (VStr "Unknown"); mret [ArgVal name]);;
    mret job).

(** The message is made of the two names, stripped, or is ["Unknown"]. *)
Definition get_candidate (candidate_id : Z) (ctx : bool) : M World value :=
  try_except ctx "Failed to get candidate {}: {}" [ArgVal (VInt candidate_id)] (
    get_client;;
    candidate ← call_method "get_candidate" [("candidate_id", VInt candidate_id)];
    ctx_info ctx "Retrieved candidate: {}"
      (first ← py_get candidate "first_name" (VStr "");
       last ← py_get candidate "last_name" (VStr "");
       mret [ArgVal first; ArgVal last]);;
    mret candidate).

Definition get_application (application_id : Z) (ctx : bool) : M World value :=
  try_except ctx "Failed to get application {}: {}" [ArgVal (VInt application_id)] (
    get_client;;
    application ← call_method "get_application" [("application_id", VInt application_id)];
    ctx_info ctx "Retrieved application ID: {}" (Return [ArgVal (VInt application_id)]);;
    mret application).

Definition reject_application (application_id : Z) (rejection_reason_id : option Z)
    (notes : option string) (ctx : bool) : M World value :=
  try_except ctx "Failed to reject application {}: {}" [ArgVal (VInt application_id)] (
    get_client;;
    result ← call_method "reject_application"
      [("application_id", VInt application_id);
       ("rejection_reason_id", enc_opt_int rejection_reason_id);
       ("notes", enc_opt_str notes)];
    ctx_info ctx "Rejected application {}" (Return [ArgVal (VInt application_id)]);;
    mret result).

Definition add_note_to_candidate (candidate_id : Z) (note visibility : string)
    (ctx : bool) : M World value :=
  try_except ctx "Failed to add note to candidate {}: {}" [ArgVal (VInt candidate_id)] (
    get_client;;
    result ← call_method "add_note_to_candidate"
      [("candidate_id", VInt candidate_id); ("body", VStr note);
       ("visibility", VStr visibility)];
    ctx_info ctx "Added note to candidate {}" (Return [ArgVal (VInt candidate_id)]);;
    mret result).

Definition add_note_to_application (application_id : Z) (note visibility : string)
    (ctx : bool) : M World value :=
  try_except ctx "Failed to add note to application {}: {}"
             [ArgVal (VInt application_id)] (
    get_client;;
    result ← call_method "add_note_to_application"
      [("application_id", VInt application_id); ("body", VStr note);
       ("visibility", VStr visibility)];
    ctx_info ctx "Added note to application {}" (Return [ArgVal (VInt application_id)]);;
    mret result).

Definition list_departments (per_page page : Z) (ctx : bool) : M World value :=
  try_except ctx "Failed to list departments: {}" [] (
    get_client;;
    departments ← call_method "list_departments"
      [("per_page", VInt per_page); ("page", VInt page)];
    ctx_info ctx "Retrieved {} departments" (len_arg departments);;
    mret departments).

Definition list_offices (per_page page : Z) (ctx : bool) : M World value :=
  try_except ctx "Failed to list offices: {}" [] (
    get_client;;
    offices ← call_method "list_offices"
      [("per_page", VInt per_page); ("page", VInt page)];
    ctx_info ctx "Retrieved {} offices" (len_arg offices);;
    mret offices).

Definition list_users (per_page page : Z) (email : option string) (ctx : bool)
  : M World value :=
  try_except ctx "Failed to list users: {}" [] (
    get_client;;
    users ← call_method "list_users"
      [("per_page", VInt per_page); ("page", VInt page); ("email", enc_opt_str email)];
    ctx_info ctx "Retrieved {} users" (len_arg users);;
    mret users).

End Tools.

(** ** Tool invocations

    What a caller of the adapter can ask for: one of the seventeen
    registered tools, in the order of their [@mcp.tool] definitions, with
    its arguments. *)

Inductive tool_call : Type :=
| Call_list_jobs (per_page page : Z) (status created_after created_before : option string)
| Call_get_job (job_id : Z)
| Call_list_candidates (per_page page : Z) (email : option string)
    (candidate_ids : option (list Z)) (created_after created_before : option string)
| Call_get_candidate (candidate_id : Z)
| Call_create_candidate (first_name last_name : string)
    (email phone company title : option string) (tags : option (list string))
| Call_update_candidate (candidate_id : Z) (first_name last_name : option string)
    (email phone company title : option string) (tags : option (list string))
| Call_list_applications (per_page page : Z) (job_id candidate_id : option Z)
    (status created_after created_before : option string)
| Call_get_application (application_id : Z)
| Call_advance_application (application_id from_stage_id : Z) (to_stage_id : option Z)
| Call_reject_application (application_id : Z) (rejection_reason_id : option Z)
    (notes : option string)
| Call_add_note_to_candidate (candidate_id : Z) (note visibility : string)
| Call_add_note_to_application (application_id : Z) (note visibility : string)
| Call_list_departments (per_page page : Z)
| Call_list_offices (per_page page : Z)
| Call_list_users (per_page page : Z) (email : option string)
| Call_list_job_stages (per_page page : Z) (job_id : option Z)
    (created_after created_before : option string)
| Call_get_job_stage (job_stage_id : Z).

Definition run_tool (tc : tool_call) (ctx : bool) : M World value :=
  match tc with
  | Call_list_jobs pp pg st ca cb => Tools.list_jobs pp pg st ca cb ctx
  | Call_get_job j => Tools.get_job j ctx
  | Call_list_candidates pp pg em ids ca cb => Tools.list_candidates pp pg em ids ca cb ctx
  | Call_get_candidate c => Tools.get_candidate c ctx
  | Call_create_candidate f l em ph co ti tg => Tools.create_candidate f l em ph co ti tg ctx
  | Call_update_candidate c f l em ph co ti tg =>
      Tools.update_candidate c f l em ph co ti tg ctx
  | Call_list_applications pp pg j c st ca cb =>
      Tools.list_applications pp pg j c st ca cb ctx
  | Call_get_application a => Tools.get_application a ctx
  | Call_advance_application a f t => Tools.advance_application a f t ctx
  | Call_reject_application a r n => Tools.reject_application a r n ctx
  | Call_add_note_to_candidate c n v => Tools.add_note_to_candidate c n v ctx
  | Call_add_note_to_application a n v => Tools.add_note_to_application a n v ctx
  | Call_list_departments pp pg => Tools.list_departments pp pg ctx
  | Call_list_offices pp pg => Tools.list_offices pp pg ctx
  | Call_list_users pp pg em => Tools.list_users pp pg em ctx
  | Call_list_job_stages pp pg j ca cb => Tools.list_job_stages pp pg j ca cb ctx
  | Call_get_job_stage j => Tools.get_job_stage j ctx
  end.

(** The names under which [greenhouse_mcp.py] registers its tools, in the
    order of the [@mcp.tool] definitions. *)
Definition tool_name (tc : tool_call) : string :=
  match tc with
  | Call_list_jobs _ _ _ _ _ => "list_jobs"
  | Call_get_job _ => "get_job"
  | Call_list_candidates _ _ _ _ _ _ => "list_candidates"
  | Call_get_candidate _ => "get_candidate"
  | Call_create_candidate _ _ _ _ _ _ _ => "create_candidate"
  | Call_update_candidate _ _ _ _ _ _ _ _ => "update_candidate"
  | Call_list_applications _ _ _ _ _ _ _ => "list_applications"
  | Call_get_application _ => "get_application"
  | Call_advance_application _ _ _ => "advance_application"
  | Call_reject_application _ _ _ => "reject_application"
  | Call_add_note_to_candidate _ _ _ => "add_note_to_candidate"
  | Call_add_note_to_application _ _ _ => "add_note_to_application"
  | Call_list_departments _ _ => "list_departments"
  | Call_list_offices _ _ => "list_offices"
  | Call_list_users _ _ _ => "list_users"
  | Call_list_job_stages _ _ _ _ _ => "list_job_stages"
  | Call_get_job_stage _ => "get_job_stage"
  end.

(** ** The entry point ([main] of [greenhouse_mcp.py]) *)

Inductive main_outcome : Type :=
| Exit (code : Z) (stderr : list string)
| Serve.

Definition main (environ : gmap string string) : main_outcome :=
  if negb (truthy_str (getenv environ "GREENHOUSE_API_KEY")) then
    Exit 1 ["Error: GREENHOUSE_API_KEY environment variable is required";
            "Please set it in your .env file or environment."]
  else Serve.

(** ** The self-test script ([test_server.py])

    [test_import] and the lookup of the registered tools depend on the
    installation; their outcomes are inputs here. *)

Definition expected_tools : list string :=
  ["list_jobs"; "get_job"; "list_candidates"; "get_candidate"; "create_candidate";
   "update_candidate"; "list_applications"; "get_application"; "list_job_stages";
   "get_job_stage"; "advance_application"; "reject_application";
   "add_note_to_candidate"; "add_note_to_application"; "list_departments";
   "list_offices"; "list_users"].

(** [test_tools], given the names of the registered tools. *)
Definition test_tools (tool_names : list string) : bool :=
  let missing_tools :=
    List.filter (fun t => negb (existsb (String.eqb t) tool_names)) expected_tools in
  match missing_tools with
  | [] => true
  | _ => false
  end.

(** [test_env_check]: [True], or [None] as a warning. *)
Definition test_env_check (environ : gmap string string) : option bool :=
  if truthy_str (getenv environ "GREENHOUSE_API_KEY") then Some true else None.

(** [main] of the script: the exit status. *)
Definition test_main (import_ok tools_ok : bool) (environ : gmap string string) : Z :=
  let results := [import_ok] in
  let results := if List.last results false then (results ++ [tools_ok])%list else results in
  let results :=
    match test_env_check environ with
    | Some env_result => (results ++ [env_result])%list
    | None => results
    end in
  if forallb (fun r => r) results then 0
  else if existsb (fun r => Bool.eqb r false) results then 1
  else 0.

(** * Vocabulary of the properties *)

(** ** States of a call *)

(** The state the limiter leaves. *)
Definition rl_state (s : St) : St := snd (_rate_limit s).

(** The state once the limiter has passed the call and the request has
    gone out. *)
Definition attempt (method endpoint : string) (params json_data : option dict)
    (s : St) : St :=
  send (request_of (self (rl_state s)) method endpoint params json_data) (rl_state s).

(** The state after a sleep of non-negative length [d]. *)
Definition asleep (d : Q) (s : St) : St := snd (time_sleep d s).

(** The state after the 429s with waits [ds] have been answered: each one
    costs an attempt and a sleep. *)
Fixpoint retried (method endpoint : string) (params json_data : option dict)
    (ds : list Z) (s : St) : St :=
  match ds with
  | [] => s
  | d :: ds' =>
      retried method endpoint params json_data ds'
        (asleep (inject_Z d) (attempt method endpoint params json_data s))
  end.

(** Time that passes in a chain of retries: the waits and their overshoots. *)
Fixpoint elapsed (ds : list Z) (lags : list Q) : Q :=
  match ds with
  | [] => 0
  | d :: ds' => inject_Z d + hd 0%Q lags + elapsed ds' (tl lags)
  end.

(** ** Calls in a row *)

(** [k] passes through the limiter with no time between them. *)
Fixpoint repeat_rate_limit (k : nat) : M St unit :=
  match k with
  | O => mret tt
  | S k' => _rate_limit;; repeat_rate_limit k'
  end.

(** The client call a tool stands for: the method of the same name with
    the tool's arguments in the places of the same names. The two
    job-stage tools have none. *)
Definition forwarded_call (tc : tool_call) : option (Call value) :=
  match tc with
  | Call_list_jobs pp pg st ca cb => Some (list_jobs pp pg cb ca st)
  | Call_get_job j => Some (get_job j)
  | Call_list_candidates pp pg em ids ca cb => Some (list_candidates pp pg cb ca em ids)
  | Call_get_candidate c => Some (get_candidate c)
  | Call_create_candidate f l em ph co ti tg =>
      Some (create_candidate (Tools.create_candidate_data f l em ph co ti tg))
  | Call_update_candidate c f l em ph co ti tg =>
      Some (update_candidate c (Tools.update_candidate_data f l em ph co ti tg))
  | Call_list_applications pp pg j c st ca cb =>
      Some (list_applications pp pg cb ca j c st)
  | Call_get_application a => Some (get_application a)
  | Call_advance_application a f t => Some (advance_application a f t)
  | Call_reject_application a r n => Some (reject_application a r n None)
  | Call_add_note_to_candidate c n v => Some (add_note_to_candidate c n v)
  | Call_add_note_to_application a n v => Some (add_note_to_application a n v)
  | Call_list_departments pp pg => Some (list_departments pp pg)
  | Call_list_offices pp pg => Some (list_offices pp pg)
  | Call_list_users pp pg em => Some (list_users pp pg em)
  | Call_list_job_stages _ _ _ _ _ => None
  | Call_get_job_stage _ => None
  end.

(** ** Reading the [candidate_ids] parameter back *)

(** The pieces of a text between its commas. *)
Fixpoint split_commas (cs : list ascii) : list (list ascii) :=
  match cs with
  | [] => [[]]
  | c :: cs' =>
      if Ascii.eqb c "," then [] :: split_commas cs'
      else match split_commas cs' with
           | piece :: pieces => (c :: piece) :: pieces
           | [] => [[c]]
           end
  end.

(** What a receiver gets that splits the parameter at the commas and
    reads each piece as an integer. *)
Definition read_candidate_ids (s : string) : list (option Z) :=
  map int_ascii (split_commas (list_ascii_of_string s)).

(** ** The shape of a tool *)

(** What every tool is: inside [try]/[except], get the singleton, call
    one client method, tell the context, return the result. *)
Definition tool_template (ctx : bool) (fail_template : string) (fail_args : list log_arg)
    (name : string) (kwargs : dict) (info_template : string)
    (info_args : value -> result (list log_arg)) : M World value :=
  try_except ctx fail_template fail_args (
    get_client;;
    x ← call_method name kwargs;
    ctx_info ctx info_template (info_args x);;
    mret x).

(** The tools that report the length of what they retrieved. *)
Definition reports_length (tc : tool_call) : bool :=
  match tc with
  | Call_list_jobs _ _ _ _ _ | Call_list_candidates _ _ _ _ _ _
  | Call_list_applications _ _ _ _ _ _ _ | Call_list_departments _ _
  | Call_list_offices _ _ | Call_list_users _ _ _
  | Call_list_job_stages _ _ _ _ _ => true
  | _ => false
  end.

(** The tools that only read: the [list_] and [get_] ones. *)
Definition reads_only (tc : tool_call) : bool :=
  match tc with
  | Call_create_candidate _ _ _ _ _ _ _ | Call_update_candidate _ _ _ _ _ _ _ _
  | Call_advance_application _ _ _ | Call_reject_application _ _ _
  | Call_add_note_to_candidate _ _ _ | Call_add_note_to_application _ _ _ => false
  | _ => true
  end.

(** The HTTP method of a tool's requests: [GET] for the reading tools,
    [PATCH] for the update, [POST] for the other writing tools. *)
Definition tool_method (tc : tool_call) : string :=
  if reads_only tc then "GET"
  else match tc with
       | Call_update_candidate _ _ _ _ _ _ _ _ => "PATCH"
       | _ => "POST"
       end.

Definition is_info (ev : log_event) : bool :=
  match ev with
  | CtxInfo _ _ => true
  | CtxError _ _ => false
  end.

Definition is_return {A : Type} (r : result A) : bool :=
  match r with
  | Return _ => true
  | Raise _ => false
  end.

(** ** Header values *)

(** A printable ASCII character: no control character, no line break. *)
Definition printable (c : ascii) : bool :=
  let n := N_of_ascii c in ((32 <=? n) && (n <? 127))%N.

Definition all_bytes : list N := map N.of_nat (seq 0 256).

(** ** Handling of a 429 response *)

(** Lengths that [time.sleep] takes wherever it runs: not negative, and
    below a thousand million seconds. (It turns the length into a
    deadline in 64-bit nanoseconds and refuses the lengths for which it
    cannot, from about 9.2 thousand million seconds on.) *)
Definition sleepable (d : Z) : Prop := 0 <= d < 1000000000.

(** A 429 response the client can wait on: [Retry-After] is absent (10 s
    then) or parses to an integer, and the length is one to sleep. *)
Definition usable_429 (response : httpx.Response) (d : Z) : Prop :=
  httpx.status_code response = 429 /\ retry_after_of response = Return d /\ sleepable d.

(** Handling a 429 response by one wait and one retry: in every call and
    state the client, once the limiter has passed the attempt and the
    request has gone out, sleeps once for the [Retry-After] seconds (10
    without the header), and the call goes on as the same call, with the
    same arguments, on the rest of the server's script, nested one level
    deeper. *)
Definition waits_and_retries (response : httpx.Response) : Prop :=
  forall method endpoint params json_data depth wire s,
  exists d : Z,
    retry_after_of response = Return d /\
    time_sleep (inject_Z d) (attempt method endpoint params json_data s)
      = (Return tt, asleep (inject_Z d) (attempt method endpoint params json_data s)) /\
    _make_request_in (S depth) method endpoint params json_data (response :: wire) s
      = _make_request_in depth method endpoint params json_data wire
          (asleep (inject_Z d) (attempt method endpoint params json_data s)).

(** The sleeps of a chain of retries, oldest first: each 429 accounts for
    one sleep of its own length, and each attempt, the last one included,
    for at most one wait of the limiter before it. *)
Inductive retry_sleeps : list Z -> list Q -> Prop :=
| rs_done : retry_sleeps [] []
| rs_last_throttled (w : Q) : retry_sleeps [] [w]
| rs_retry (d : Z) (ds : list Z) (l : list Q) :
    retry_sleeps ds l -> retry_sleeps (d :: ds) (inject_Z d :: l)
| rs_throttled_retry (w : Q) (d : Z) (ds : list Z) (l : list Q) :
    retry_sleeps ds l -> retry_sleeps (d :: ds) (w :: inject_Z d :: l).

(** ** Clock readings as floating-point numbers *)

(** [x] is [a] times [2^-k]: a point of the grid of step [2^-k]. *)
Definition on_grid (k : nat) (x : Q) (a : Z) : Prop :=
  (x * inject_Z (2 ^ Z.of_nat k) == inject_Z a)%Q.

(** The states in which the limiter rounds nothing: the clock reading,
    the window start and the window length are floats, and so are the
    time elapsed and what is left of the window. *)
Definition exact_floats (s : St) : bool :=
  let t := clock (net s) in
  let start := _last_request_time (self s) in
  let window := _rate_limit_window (self s) in
  binary64 t && binary64 start && binary64 window
  && binary64 (t - start) && binary64 (window - (t - start)).

(** ** Decimal digits *)

(** The value of a digit string read after the prefix worth [acc]. *)
Fixpoint digits_val (acc : Z) (d : Decimal.uint) : Z :=
  match d with
  | Decimal.Nil => acc
  | Decimal.D0 l => digits_val (10 * acc + 0) l
  | Decimal.D1 l => digits_val (10 * acc + 1) l
  | Decimal.D2 l => digits_val (10 * acc + 2) l
  | Decimal.D3 l => digits_val (10 * acc + 3) l
  | Decimal.D4 l => digits_val (10 * acc + 4) l
  | Decimal.D5 l => digits_val (10 * acc + 5) l
  | Decimal.D6 l => digits_val (10 * acc + 6) l
  | Decimal.D7 l => digits_val (10 * acc + 7) l
  | Decimal.D8 l => digits_val (10 * acc + 8) l
  | Decimal.D9 l => digits_val (10 * acc + 9) l
  end.

(** ** Arguments and construction *)

(** The argument as the code sees it: a falsy value counts as [None]. *)
Definition given {A : Type} (truthy : option A -> bool) (x : option A) : option A :=
  if truthy x then x else None.

(** [bool(v)]: [None], [False], [0] and the empty string, list and
    dictionary are falsy. *)
Definition py_truthy (v : value) : bool :=
  match v with
  | VNone => false
  | VBool b => b
  | VInt z => negb (z =? 0)
  | VStr s => negb (String.eqb s "")
  | VList l => match l with [] => false | _ :: _ => true end
  | VDict d => match d with [] => false | _ :: _ => true end
  end.

(** The object [__init__] leaves behind for the key [key]. *)
Definition fresh_client (environ : gmap string string) (key : string) : GreenhouseClient :=
  mkClient key
    (getenv_default environ "GREENHOUSE_BASE_URL" "https://harvest.greenhouse.io/v1")
    [("Authorization", "Basic " +:+ b64encode (key +:+ ":"));
     ("Content-Type", "application/json")]
    0%Q 0 10%Q 50.

(** ** Sample states, worlds and responses *)

(** A client that has used up its window: 50 calls counted since time
    100, the clock at 103, the next sleep overshooting by half a second. *)
Definition full_window_state : St :=
  mkSt (mkClient "abc" "https://harvest.greenhouse.io/v1"
                 [("Authorization", "Basic YWJjOg=="); ("Content-Type", "application/json")]
                 100%Q 50 10%Q 50)
       (mkNet 103%Q [(1 # 2)%Q] [] [] 900).

Definition idle_state : St :=
  mkSt (mkClient "abc" "https://harvest.greenhouse.io/v1"
                 [("Authorization", "Basic YWJjOg=="); ("Content-Type", "application/json")]
                 100%Q 3 10%Q 50)
       (mkNet 103%Q [] [] [] 900).

Definition not_found : httpx.Response :=
  httpx.mkResponse 404 ∅ "Resource not found" None.

Definition ok_empty_list : httpx.Response :=
  httpx.mkResponse 200 ∅ "[]" (Some (VList [])).

Definition no_content : httpx.Response := httpx.mkResponse 204 ∅ "" None.

Definition too_many_2 : httpx.Response :=
  httpx.mkResponse 429 {[ "retry-after" := "2" ]} "" None.

Definition too_many_plain : httpx.Response := httpx.mkResponse 429 ∅ "" None.


(** [Retry-After] in its HTTP-date form. *)
Definition too_many_http_date : httpx.Response :=
  httpx.mkResponse 429 {[ "retry-after" := "Wed, 21 Oct 2015 07:28:00 GMT" ]} "" None.

Definition keyed_world : World :=
  mkWorld {[ "GREENHOUSE_API_KEY" := "abc" ]} None (mkNet 103%Q [] [] [] 900)
          [ok_empty_list] [].

(** The ceiling reached and the clock exactly at the window's end. *)
Definition boundary_state : St :=
  mkSt (mkClient "abc" "https://harvest.greenhouse.io/v1"
                 [("Authorization", "Basic YWJjOg=="); ("Content-Type", "application/json")]
                 100%Q 50 10%Q 50)
       (mkNet 110%Q [] [] [] 900).

(** The ceiling reached, with the floats nearest to 0.1 and 10.1 as the
    window start and the clock reading. *)
Definition rounding_state : St :=
  mkSt (mkClient "abc" "https://harvest.greenhouse.io/v1"
                 [("Authorization", "Basic YWJjOg=="); ("Content-Type", "application/json")]
                 (3602879701896397 # 36028797018963968)%Q 50 10%Q 50)
       (mkNet (5685794529555251 # 562949953421312)%Q [] [] [] 900).

(** The ceiling reached in a window that began at 1700000000.5 s, the
    clock at 1700000003.25 s. *)
Definition recent_state : St :=
  mkSt (mkClient "abc" "https://harvest.greenhouse.io/v1"
                 [("Authorization", "Basic YWJjOg=="); ("Content-Type", "application/json")]
                 (3400000001 # 2)%Q 50 10%Q 50)
       (mkNet (6800000013 # 4)%Q [] [] [] 900).

(** A client just constructed, at a wall-clock time far from the epoch. *)
Definition fresh_state : St :=
  mkSt (fresh_client ∅ "abc") (mkNet 1700000000%Q [] [] [] 900).

(** A 200 response whose JSON body is [null]. *)
Definition ok_null : httpx.Response := httpx.mkResponse 200 ∅ "null" (Some VNone).

Definition null_world : World :=
  mkWorld {[ "GREENHOUSE_API_KEY" := "abc" ]} None (mkNet 103%Q [] [] [] 900)
          [ok_null] [].

Definition keyless_world : World :=
  mkWorld ∅ None (mkNet 103%Q [] [] [] 900) [ok_empty_list] [].

(** * Properties *)

(** ** Encoders and parsers on known values *)

Example b64_rfc4648_vectors :
  b64encode "" = "" /\ b64encode "f" = "Zg==" /\ b64encode "fo" = "Zm8=" /\
  b64encode "foo" = "Zm9v" /\ b64encode "foob" = "Zm9vYg==" /\
  b64encode "fooba" = "Zm9vYmE=" /\ b64encode "foobar" = "Zm9vYmFy".
Proof. repeat split; reflexivity. Qed.

Example py_int_samples :
  py_int "10" = Some 10 /\ py_int " 007 " = Some 7 /\ py_int "-5" = Some (-5) /\
  py_int "+1_000" = Some 1000 /\ py_int "" = None /\ py_int "1__0" = None /\
  py_int "_1" = None /\ py_int "1_" = None /\ py_int "2.5" = None /\
  py_int "- 5" = None /\
  py_int "Wed, 21 Oct 2015 07:28:00 GMT" = None.
Proof. repeat split; vm_compute; reflexivity. Qed.

(** Digits and spaces of other scripts: the Arabic-Indic three (bytes D9
    A3), full-width digits, a no-break space before and an em space
    after a number; a minus sign that is not the ASCII one is no sign. *)
Example py_int_unicode_samples :
  py_int (String "217" (String "163" "")) = Some 3 /\
  py_int (String "239" (String "188" (String "145"
           (String "239" (String "188" (String "146" "")))))) = Some 12 /\
  py_int (String "194" (String "160" "3")) = Some 3 /\
  py_int (String "051" (String "226" (String "128" (String "131" "")))) = Some 3 /\
  py_int (String "226" (String "136" (String "146" "5"))) = None /\
  py_int (String "028" "3") = None /\
  py_int (String "195" (String "153" (String "194" (String "163" "")))) = None.
Proof. repeat split; vm_compute; reflexivity. Qed.

(** ** Comparisons on rational time *)

Lemma Qlt_bool_true (x y : Q) : Qlt_bool x y = true <-> (x < y)%Q.
Proof.
  unfold Qlt_bool. rewrite negb_true_iff, <- not_true_iff_false, Qle_bool_iff.
  split; [apply Qnot_le_lt | apply Qlt_not_le].
Qed.

Lemma Qlt_bool_false (x y : Q) : Qlt_bool x y = false <-> (y <= x)%Q.
Proof.
  unfold Qlt_bool. rewrite negb_false_iff. apply Qle_bool_iff.
Qed.

(** Where rounding comes in: between the floats nearest to 0.1 and 10.1
    a little less than 10 s lie, which is no float (the difference of
    the two, computed in floating point, is 10). *)
Example rounding_state_is_not_exact :
  binary64 (clock (net rounding_state)) = true /\
  binary64 (_last_request_time (self rounding_state)) = true /\
  (clock (net rounding_state) - _last_request_time (self rounding_state) < 10)%Q /\
  binary64 (clock (net rounding_state) - _last_request_time (self rounding_state)) = false /\
  exact_floats rounding_state = false /\
  exact_floats full_window_state = true /\ exact_floats fresh_state = true.
Proof. repeat split; vm_compute; reflexivity. Qed.

(** ** [int] reads back what [str] prints *)

Lemma parse_digits_uint (d : Decimal.uint) (acc : Z) (after_digit : bool) :
  d <> Decimal.Nil \/ after_digit = true ->
  parse_digits acc after_digit (list_ascii_of_string (NilEmpty.string_of_uint d))
    = Some (digits_val acc d).
Proof.
  revert acc after_digit.
  induction d as [|d IH|d IH|d IH|d IH|d IH|d IH|d IH|d IH|d IH|d IH];
    intros acc after_digit H;
    cbn [NilEmpty.string_of_uint list_ascii_of_string parse_digits digits_val].
  1: { destruct H as [H | ->]; [contradiction | reflexivity]. }
  all: apply IH; right; reflexivity.
Qed.

Lemma digits_val_acc (d : Decimal.uint) (acc : positive) :
  digits_val (Z.pos acc) d = Z.pos (Pos.of_uint_acc d acc).
Proof.
  revert acc.
  induction d as [|d IH|d IH|d IH|d IH|d IH|d IH|d IH|d IH|d IH|d IH]; intros acc;
    cbn [digits_val Pos.of_uint_acc]; [reflexivity | rewrite <- IH; f_equal; lia ..].
Qed.

Lemma digits_val_of_uint (d : Decimal.uint) : digits_val 0 d = Z.of_N (Pos.of_uint d).
Proof.
  induction d as [|d IH|d IH|d IH|d IH|d IH|d IH|d IH|d IH|d IH|d IH];
    cbn [digits_val Pos.of_uint]; [reflexivity | exact IH | apply digits_val_acc ..].
Qed.

Lemma uint_chars_no_space (d : Decimal.uint) :
  Forall (fun c => is_space c = false)
         (list_ascii_of_string (NilEmpty.string_of_uint d)).
Proof.
  induction d as [|d IH|d IH|d IH|d IH|d IH|d IH|d IH|d IH|d IH|d IH];
    cbn [NilEmpty.string_of_uint list_ascii_of_string]; constructor;
    solve [reflexivity | exact IH].
Qed.

Lemma lstrip_no_space (l : list ascii) :
  Forall (fun c => is_space c = false) l -> lstrip l = l.
Proof. intros [|c l' Hc _]; [reflexivity|]. cbn. rewrite Hc. reflexivity. Qed.

Lemma strip_no_space (l : list ascii) :
  Forall (fun c => is_space c = false) l -> strip l = l.
Proof.
  intros H. unfold strip. rewrite (lstrip_no_space l H).
  rewrite lstrip_no_space by (apply Forall_rev; exact H).
  apply rev_involutive.
Qed.

Lemma int_ascii_digits (d : Decimal.uint) :
  d <> Decimal.Nil ->
  int_ascii (list_ascii_of_string (NilEmpty.string_of_uint d)) = Some (digits_val 0 d) /\
  int_ascii ("-"%char :: list_ascii_of_string (NilEmpty.string_of_uint d))
    = Some (- digits_val 0 d).
Proof.
  intros Hd. unfold int_ascii.
  rewrite !strip_no_space
    by (repeat constructor; try reflexivity; apply uint_chars_no_space).
  split.
  - rewrite <- (parse_digits_uint d 0 false (or_introl Hd)).
    destruct d; [contradiction | reflexivity ..].
  - rewrite (parse_digits_uint d 0 false (or_introl Hd)). reflexivity.
Qed.

Lemma str_of_Z_pos (p : positive) :
  str_of_Z (Z.pos p) = NilEmpty.string_of_uint (Pos.to_uint p) /\
  str_of_Z (Z.neg p) = String "-" (NilEmpty.string_of_uint (Pos.to_uint p)).
Proof.
  pose proof (DecimalPos.Unsigned.to_uint_nonnil p) as Hnil.
  unfold str_of_Z. cbn [Z.to_int NilZero.string_of_int].
  destruct (Pos.to_uint p); [contradiction | split; reflexivity ..].
Qed.

(** Reading the decimal form of an integer gives the integer back. *)
Lemma int_ascii_str_of_Z (n : Z) : int_ascii (list_ascii_of_string (str_of_Z n)) = Some n.
Proof.
  destruct n as [|p|p]; [reflexivity | |];
    destruct (str_of_Z_pos p) as (Hpos & Hneg);
    destruct (int_ascii_digits (Pos.to_uint p) (DecimalPos.Unsigned.to_uint_nonnil p))
      as (Hp & Hn);
    rewrite ?Hpos, ?Hneg; cbn [list_ascii_of_string];
    rewrite ?Hp, ?Hn, digits_val_of_uint, DecimalPos.Unsigned.of_to; reflexivity.
Qed.

(** ** [int] on ASCII text *)

Lemma utf8_decode_ascii (l : list ascii) :
  Forall (fun c => (N_of_ascii c < 127)%N) l ->
  utf8_decode l = Some (map N_of_ascii l) /\ map to_ascii (map N_of_ascii l) = l.
Proof.
  induction 1 as [|c l Hc _ (IHd & IHt)]; [split; reflexivity|].
  cbn [utf8_decode map]. rewrite IHd, IHt.
  destruct (N.ltb_spec (N_of_ascii c) 128) as [_|]; [|lia]. split; [reflexivity|].
  unfold to_ascii. destruct (N.ltb_spec (N_of_ascii c) 127) as [_|]; [|lia].
  rewrite ascii_N_embedding. reflexivity.
Qed.

Lemma py_int_ascii (s : string) :
  Forall (fun c => (N_of_ascii c < 127)%N) (list_ascii_of_string s) ->
  py_int s =
    if int_max_str_digits <? Z.of_nat (length (List.filter is_digit (list_ascii_of_string s)))
    then None else int_ascii (list_ascii_of_string s).
Proof.
  intros H. unfold py_int. destruct (utf8_decode_ascii _ H) as (-> & Ht).
  cbv zeta. rewrite Ht. reflexivity.
Qed.

Lemma uint_chars (d : Decimal.uint) :
  Forall (fun c => (N_of_ascii c < 127)%N)
         (list_ascii_of_string (NilEmpty.string_of_uint d)) /\
  length (List.filter is_digit (list_ascii_of_string (NilEmpty.string_of_uint d)))
    = Decimal.nb_digits d.
Proof.
  induction d as [|d (IHa & IHn)|d (IHa & IHn)|d (IHa & IHn)|d (IHa & IHn)|d (IHa & IHn)
                  |d (IHa & IHn)|d (IHa & IHn)|d (IHa & IHn)|d (IHa & IHn)|d (IHa & IHn)];
    cbn [NilEmpty.string_of_uint list_ascii_of_string Decimal.nb_digits].
  1: split; [constructor | reflexivity].
  all: split; [constructor; [vm_compute; reflexivity | exact IHa]|].
  all: change (List.filter is_digit (?c :: ?l)) with (c :: List.filter is_digit l).
  all: cbn [length]; rewrite IHn; reflexivity.
Qed.

Lemma digits_val_lower (d : Decimal.uint) (acc : Z) :
  0 <= acc -> acc * 10 ^ Z.of_nat (Decimal.nb_digits d) <= digits_val acc d.
Proof.
  revert acc.
  induction d as [|d IH|d IH|d IH|d IH|d IH|d IH|d IH|d IH|d IH|d IH]; intros acc Hacc;
    cbn [digits_val Decimal.nb_digits]; [cbn; lia | ..];
    rewrite Nat2Z.inj_succ, Z.pow_succ_r by lia;
    (etransitivity; [|apply IH; lia]);
    pose proof (Z.pow_nonneg 10 (Z.of_nat (Decimal.nb_digits d)) ltac:(lia)); nia.
Qed.

(** The decimal form of a positive number starts with a digit that is
    not zero. *)
Lemma to_uint_head (p : positive) :
  match Pos.to_uint p with
  | Decimal.Nil | Decimal.D0 _ => False
  | _ => True
  end.
Proof.
  pose proof (DecimalPos.Unsigned.to_of (Pos.to_uint p)) as Hnorm.
  rewrite DecimalPos.Unsigned.of_to in Hnorm. cbn [N.to_uint] in Hnorm.
  pose proof (DecimalPos.Unsigned.to_uint_nonzero p) as Hz.
  pose proof (DecimalPos.Unsigned.to_uint_nonnil p) as Hnil.
  destruct (Pos.to_uint p) as [|d| | | | | | | | |]; try exact I; [contradiction|].
  unfold Decimal.unorm in Hnorm. cbn [Decimal.nzhead] in Hnorm.
  pose proof (DecimalFacts.nb_digits_nzhead d) as Hlen.
  destruct (Decimal.nzhead d) eqn:Hd.
  - exact (Hz Hnorm).
  - injection Hnorm as ->. cbn [Decimal.nb_digits] in Hlen. lia.
  - discriminate Hnorm.
  - discriminate Hnorm.
  - discriminate Hnorm.
  - discriminate Hnorm.
  - discriminate Hnorm.
  - discriminate Hnorm.
  - discriminate Hnorm.
  - discriminate Hnorm.
  - discriminate Hnorm.
Qed.

Lemma nb_digits_bound (p : positive) (k : nat) :
  Z.pos p < 10 ^ Z.of_nat k -> (Decimal.nb_digits (Pos.to_uint p) <= k)%nat.
Proof.
  intros Hp. pose proof (to_uint_head p) as Hhead.
  pose proof (digits_val_of_uint (Pos.to_uint p)) as Hval.
  rewrite DecimalPos.Unsigned.of_to in Hval. cbn [Z.of_N] in Hval.
  assert (Hlow : 10 ^ (Z.of_nat (Decimal.nb_digits (Pos.to_uint p)) - 1) <= Z.pos p).
  { rewrite <- Hval.
    destruct (Pos.to_uint p) as [|d|d|d|d|d|d|d|d|d|d]; try contradiction;
      cbn [digits_val Decimal.nb_digits];
      rewrite Nat2Z.inj_succ;
      replace (Z.succ (Z.of_nat (Decimal.nb_digits d)) - 1)
        with (Z.of_nat (Decimal.nb_digits d)) by lia;
      (etransitivity; [|apply digits_val_lower; lia]);
      pose proof (Z.pow_nonneg 10 (Z.of_nat (Decimal.nb_digits d)) ltac:(lia)); nia. }
  destruct (Nat.le_gt_cases (Decimal.nb_digits (Pos.to_uint p)) k) as [|Hgt]; [assumption|].
  exfalso.
  assert (10 ^ Z.of_nat k <= 10 ^ (Z.of_nat (Decimal.nb_digits (Pos.to_uint p)) - 1))
    by (apply Z.pow_le_mono_r; lia).
  lia.
Qed.

(** [int(str(n)) = n], for the integers [str] and [int] convert. *)
Lemma py_int_str_of_Z (n : Z) :
  Z.abs n < 10 ^ int_max_str_digits -> py_int (str_of_Z n) = Some n.
Proof.
  intros Hn.
  assert (Hascii : Forall (fun c => (N_of_ascii c < 127)%N)
                          (list_ascii_of_string (str_of_Z n)) /\
                   (Z.of_nat (length (List.filter is_digit
                                        (list_ascii_of_string (str_of_Z n))))
                    <= int_max_str_digits)).
  { destruct n as [|p|p]; [split; [repeat constructor | vm_compute; discriminate] | |];
      destruct (str_of_Z_pos p) as (Hpos & Hneg);
      destruct (uint_chars (Pos.to_uint p)) as (Ha & Hlen);
      pose proof (nb_digits_bound p 4300 Hn) as Hb;
      rewrite ?Hpos, ?Hneg; cbn [list_ascii_of_string].
    - split; [exact Ha|]. rewrite Hlen. unfold int_max_str_digits. lia.
    - split; [constructor; [vm_compute; reflexivity | exact Ha]|].
      change (List.filter is_digit ("-"%char :: ?l)) with (List.filter is_digit l).
      rewrite Hlen. unfold int_max_str_digits. lia. }
  destruct Hascii as (Ha & Hlen).
  rewrite (py_int_ascii _ Ha).
  destruct (Z.ltb_spec int_max_str_digits
              (Z.of_nat (length (List.filter is_digit (list_ascii_of_string (str_of_Z n))))));
    [lia|].
  apply int_ascii_str_of_Z.
Qed.

(** ** The rate limiter always lets the call through *)

Lemma time_sleep_nonneg (d : Q) (s : St) :
  (0 <= d)%Q ->
  time_sleep d s =
    (Return tt,
     mkSt (self s)
          (mkNet (clock (net s) + d + hd 0%Q (lags (net s)))%Q (tl (lags (net s)))
                 (sent (net s)) (slept (net s) ++ [d])%list (frames (net s)))).
Proof.
  intros Hd. unfold time_sleep.
  destruct (Qlt_bool d 0) eqn:E; [|reflexivity].
  apply Qlt_bool_true in E. lra.
Qed.

Lemma _rate_limit_returns (s : St) : _rate_limit s = (Return tt, rl_state s).
Proof.
  unfold rl_state, _rate_limit.
  destruct s as [c n]. cbn.
  unfold mbind, M_bind, gets, modify, time_time, mret, M_ret; cbn.
  repeat match goal with
         | |- context [if ?b then _ else _] => destruct b eqn:?; cbn
         | |- context [time_sleep ?d ?s] =>
             rewrite (time_sleep_nonneg d s) by (apply Qlt_le_weak, Qlt_bool_true; assumption); cbn
         end; reflexivity.
Qed.

Ltac run_rate_limit :=
  unfold rl_state, _rate_limit;
  unfold mbind, M_bind, gets, modify, time_time, mret, M_ret; cbn.

(** The window has expired: the counter restarts at this call. *)
Lemma rl_state_expired (s : St) :
  0 < _rate_limit_max (self s) ->
  (_rate_limit_window (self s) < clock (net s) - _last_request_time (self s))%Q ->
  rl_state s = set_request_count 1 (set_last_request_time (clock (net s)) s).
Proof.
  destruct s as [c n]; cbn. intros Hmax Hexp.
  apply Qlt_bool_true in Hexp.
  run_rate_limit. rewrite Hexp; cbn.
  destruct (Z.leb_spec (_rate_limit_max c) 0); [lia | reflexivity].
Qed.

(** Inside the window with room left: the call is counted, nothing else. *)
Lemma rl_state_room (s : St) :
  (clock (net s) - _last_request_time (self s) <= _rate_limit_window (self s))%Q ->
  _request_count (self s) < _rate_limit_max (self s) ->
  rl_state s = set_request_count (_request_count (self s) + 1) s.
Proof.
  destruct s as [c n]; cbn. intros Hin Hroom.
  apply Qlt_bool_false in Hin.
  run_rate_limit. rewrite Hin; cbn.
  destruct (Z.leb_spec (_rate_limit_max c) (_request_count c)); [lia | reflexivity].
Qed.

(** Inside the window with the ceiling reached: sleep out the rest of the
    window, then start a new window at the time read after the sleep. *)
Lemma rl_state_full (s : St) :
  (clock (net s) - _last_request_time (self s) < _rate_limit_window (self s))%Q ->
  _rate_limit_max (self s) <= _request_count (self s) ->
  let sleep_time :=
    (_rate_limit_window (self s) - (clock (net s) - _last_request_time (self s)))%Q in
  let woke := (clock (net s) + sleep_time + hd 0%Q (lags (net s)))%Q in
  rl_state s =
    set_request_count 1
      (set_last_request_time woke
         (mkSt (self s)
               (mkNet woke (tl (lags (net s))) (sent (net s))
                      (slept (net s) ++ [sleep_time])%list (frames (net s))))).
Proof.
  destruct s as [c n]; cbn. intros Hin Hfull.
  assert (Hin' : Qlt_bool (_rate_limit_window c) (clock n - _last_request_time c) = false)
    by (apply Qlt_bool_false; lra).
  assert (Hpos : Qlt_bool 0 (_rate_limit_window c - (clock n - _last_request_time c)) = true)
    by (apply Qlt_bool_true; lra).
  run_rate_limit. rewrite Hin'; cbn.
  destruct (Z.leb_spec (_rate_limit_max c) (_request_count c)); [|lia].
  cbn [self net]. rewrite Hpos. rewrite time_sleep_nonneg by lra. reflexivity.
Qed.

(** Exactly at the window's end with the ceiling reached: no time is left
    to sleep, and the call is counted in the old window. *)
Lemma rl_state_boundary (s : St) :
  (clock (net s) - _last_request_time (self s) == _rate_limit_window (self s))%Q ->
  _rate_limit_max (self s) <= _request_count (self s) ->
  rl_state s = set_request_count (_request_count (self s) + 1) s.
Proof.
  destruct s as [c n]; cbn. intros Heq Hfull.
  assert (Hin' : Qlt_bool (_rate_limit_window c) (clock n - _last_request_time c) = false)
    by (apply Qlt_bool_false; lra).
  assert (Hpos : Qlt_bool 0 (_rate_limit_window c - (clock n - _last_request_time c)) = false)
    by (apply Qlt_bool_false; lra).
  run_rate_limit. rewrite Hin'; cbn.
  destruct (Z.leb_spec (_rate_limit_max c) (_request_count c)); [|lia].
  cbn [self net]. rewrite Hpos. reflexivity.
Qed.

(** What the limiter never touches. *)
Lemma rl_state_frame (s : St) :
  api_key (self (rl_state s)) = api_key (self s) /\
  base_url (self (rl_state s)) = base_url (self s) /\
  headers (self (rl_state s)) = headers (self s) /\
  _rate_limit_window (self (rl_state s)) = _rate_limit_window (self s) /\
  _rate_limit_max (self (rl_state s)) = _rate_limit_max (self s) /\
  sent (net (rl_state s)) = sent (net s).
Proof.
  destruct s as [c n]. run_rate_limit.
  repeat match goal with
         | |- context [if ?b then _ else _] => destruct b eqn:?; cbn
         | |- context [time_sleep ?d ?s] =>
             rewrite (time_sleep_nonneg d s) by (apply Qlt_le_weak, Qlt_bool_true; assumption); cbn
         end; repeat split; reflexivity.
Qed.

(** ** The limiter in floating point *)

Lemma binary64_Qeq (x y : Q) : (x == y)%Q -> binary64 x = binary64 y.
Proof. intros H. unfold binary64. rewrite (Qred_complete _ _ H). reflexivity. Qed.

Lemma float_of_exact (x : Q) : binary64 x = true -> float_of x = x.
Proof. unfold float_of. intros ->. reflexivity. Qed.

(** Where nothing is rounded, the limiter as the code computes it is the
    limiter computed exactly. *)
Lemma rate_limit_binary64_exact (s : St) :
  exact_floats s = true -> _rate_limit_binary64 s = _rate_limit s.
Proof.
  destruct s as [c n]. unfold exact_floats. cbn [self net]. cbv zeta.
  intros H. do 4 (apply andb_true_iff in H; destruct H as [H ?]).
  assert (Hz : binary64 (clock n - clock n) = true).
  { rewrite (binary64_Qeq _ 0%Q); [reflexivity | ring]. }
  assert (Hw : binary64 (_rate_limit_window c - (clock n - clock n)) = true).
  { rewrite (binary64_Qeq _ (_rate_limit_window c)); [assumption | ring]. }
  unfold _rate_limit_binary64, _rate_limit, float_sub.
  unfold mbind, M_bind, gets, modify, time_time, mret, M_ret.
  cbn -[float_of].
  rewrite (float_of_exact (clock n - _last_request_time c)) by assumption.
  rewrite (float_of_exact (_rate_limit_window c)) by assumption.
  destruct (Qlt_bool (_rate_limit_window c) (clock n - _last_request_time c));
    cbn -[float_of].
  - destruct (_rate_limit_max c <=? 0); cbn -[float_of]; [|reflexivity].
    rewrite (float_of_exact (clock n - clock n) Hz), (float_of_exact _ Hw). reflexivity.
  - destruct (_rate_limit_max c <=? _request_count c); cbn -[float_of]; [|reflexivity].
    rewrite (float_of_exact (clock n - _last_request_time c)) by assumption.
    rewrite (float_of_exact (_rate_limit_window c - (clock n - _last_request_time c)))
      by assumption.
    reflexivity.
Qed.

(** ** Construction *)

(** C6. With no usable key argument ([None] or the empty string) and no
    non-empty [GREENHOUSE_API_KEY] in the environment, construction raises
    [ValueError("Greenhouse API key is required")], the configuration error
    of the spec. With a key from the argument, or else from the
    environment, construction succeeds: the [Authorization] header is
    ["Basic "] followed by the base64 of ["<key>:"], and the base URL is
    [GREENHOUSE_BASE_URL] when set and the production host otherwise. *)
Theorem client_construction (environ : gmap string string) (api_key : option string)
    (key : string) :
  (truthy_str api_key = false ->
   truthy_str (getenv environ "GREENHOUSE_API_KEY") = false ->
   __init__ environ api_key = Raise (ValueError "Greenhouse API key is required")) /\
  (key <> "" ->
   api_key = Some key \/
   (truthy_str api_key = false /\ getenv environ "GREENHOUSE_API_KEY" = Some key) ->
   __init__ environ api_key = Return (fresh_client environ key) /\
   dict_get "Authorization" (headers (fresh_client environ key))
     = Some ("Basic " +:+ b64encode (key +:+ ":")) /\
   base_url (fresh_client environ key)
     = match environ !! "GREENHOUSE_BASE_URL" with
       | Some u => u
       | None => "https://harvest.greenhouse.io/v1"
       end).
Proof.
  assert (Hne : forall k, k <> "" -> truthy_str (Some k) = true).
  { intros k Hk. cbn. apply negb_true_iff, String.eqb_neq, Hk. }
  split.
  - intros Harg Henv. unfold __init__. rewrite Harg.
    destruct (getenv environ "GREENHOUSE_API_KEY") as [k|]; [|reflexivity].
    rewrite Henv. reflexivity.
  - intros Hkey Hsrc. split; [|split; reflexivity].
    unfold __init__.
    destruct Hsrc as [-> | [Harg Henv]].
    + rewrite (Hne key Hkey). cbv iota. rewrite (Hne key Hkey). reflexivity.
    + rewrite Harg, Henv. cbv iota. rewrite (Hne key Hkey). reflexivity.
Qed.

Lemma client_construction_witness :
  __init__ ∅ None = Raise (ValueError "Greenhouse API key is required") /\
  __init__ ∅ (Some "abc") = Return (fresh_client ∅ "abc") /\
  __init__ {[ "GREENHOUSE_API_KEY" := "abc";
              "GREENHOUSE_BASE_URL" := "http://localhost:8080/v1" ]} (Some "")
    = Return (fresh_client {[ "GREENHOUSE_API_KEY" := "abc";
                             "GREENHOUSE_BASE_URL" := "http://localhost:8080/v1" ]} "abc").
Proof.
  split; [|split].
  - apply (proj1 (client_construction ∅ None "")); reflexivity.
  - apply (proj2 (client_construction ∅ (Some "abc") "abc")); [discriminate | left; reflexivity].
  - apply (proj2 (client_construction _ (Some "") "abc")); [discriminate |].
    right. split; [reflexivity | vm_compute; reflexivity].
Defined.

Example fresh_client_abc :
  fresh_client ∅ "abc" =
    mkClient "abc" "https://harvest.greenhouse.io/v1"
             [("Authorization", "Basic YWJjOg=="); ("Content-Type", "application/json")]
             0%Q 0 10%Q 50.
Proof. vm_compute. reflexivity. Qed.

(** ** The rate limiter's window *)

(** C2 (amended). For a client with ceiling 50 and window 10 s, in a
    state where the limiter's floating-point subtractions round nothing:
    the limiter, as the code computes it, lets the call through; when 50
    calls are already counted and the window has not expired, the call
    leaves the limiter no earlier than 10 s after the window start, and
    whenever that takes a wait (the window's end is still ahead) the
    limiter sleeps exactly the rest of the window, the counter is 1
    afterwards and the window start is the time read after the sleep; a
    call arriving more than 10 s after the window start is counted as
    the first of a new window starting at its arrival, without any
    wait. *)
Theorem rate_limit_window_ceiling (s : St) :
  _rate_limit_max (self s) = 50 ->
  _rate_limit_window (self s) = 10%Q ->
  exact_floats s = true ->
  (0 <= hd 0 (lags (net s)))%Q ->
  let t := clock (net s) in
  let start := _last_request_time (self s) in
  exists s', _rate_limit_binary64 s = (Return tt, s') /\
    (50 <= _request_count (self s) -> (t - start <= 10)%Q ->
       (start + 10 <= clock (net s'))%Q /\
       ((t - start < 10)%Q ->
          slept (net s') = (slept (net s) ++ [10 - (t - start)])%Q%list /\
          _request_count (self s') = 1 /\
          _last_request_time (self s') = clock (net s'))) /\
    ((10 < t - start)%Q ->
       _request_count (self s') = 1 /\
       _last_request_time (self s') = t /\
       net s' = net s).
Proof.
  intros Hmax Hwin Hexact Hlag t start.
  exists (rl_state s).
  split; [rewrite (rate_limit_binary64_exact s Hexact); apply _rate_limit_returns|]. split.
  - intros Hfull Hin. split.
    + destruct (Qlt_le_dec (t - start) 10) as [Hlt | Hge].
      * rewrite rl_state_full by (rewrite ?Hwin, ?Hmax; assumption).
        cbn. rewrite Hwin. fold t start. lra.
      * rewrite rl_state_boundary by (rewrite ?Hwin, ?Hmax; first [assumption | apply Qle_antisym; assumption]).
        cbn. fold t. lra.
    + intros Hlt.
      rewrite rl_state_full by (rewrite ?Hwin, ?Hmax; assumption).
      cbn. rewrite Hwin. repeat split; reflexivity.
  - intros Hexp.
    rewrite rl_state_expired by (rewrite ?Hwin, ?Hmax; first [lia | assumption]).
    repeat split; reflexivity.
Qed.

Lemma rate_limit_window_ceiling_witness :
  exists s', _rate_limit_binary64 full_window_state = (Return tt, s') /\
    (100 + 10 <= clock (net s'))%Q /\
    slept (net s') = [7%Q] /\
    _request_count (self s') = 1 /\
    _last_request_time (self s') = clock (net s').
Proof.
  destruct (rate_limit_window_ceiling full_window_state) as (s' & Hrun & Hfull & _).
  - reflexivity.
  - reflexivity.
  - vm_compute. reflexivity.
  - vm_compute. discriminate.
  - exists s'. split; [exact Hrun|].
    destruct Hfull as [Hclock Hwait].
    + vm_compute. discriminate.
    + vm_compute. discriminate.
    + split; [exact Hclock|]. apply Hwait. vm_compute. reflexivity.
Defined.

(** C2 as stated fails where a subtraction rounds. With the floats
    nearest to 0.1 and 10.1 as the window start and the clock reading,
    less than 10 s have passed, but their difference in floating point
    is 10: with 50 calls counted the call is let through at once, as the
    51st of the window. *)
Lemma rate_limit_rounding_counterexample :
  _rate_limit_max (self rounding_state) = 50 /\
  _rate_limit_window (self rounding_state) = 10%Q /\
  _request_count (self rounding_state) = 50 /\
  (clock (net rounding_state) - _last_request_time (self rounding_state) < 10)%Q /\
  (float_sub (clock (net rounding_state)) (_last_request_time (self rounding_state)) == 10)%Q /\
  exists s',
    _rate_limit_binary64 rounding_state = (Return tt, s') /\
    net s' = net rounding_state /\
    _request_count (self s') = 51 /\
    _last_request_time (self s') = _last_request_time (self rounding_state).
Proof.
  split; [reflexivity|]. split; [reflexivity|]. split; [reflexivity|].
  split; [vm_compute; reflexivity|]. split; [vm_compute; reflexivity|].
  eexists. split; [vm_compute; reflexivity|]. repeat split; reflexivity.
Qed.

(** ** One attempt of [_make_request] *)

Section OneAttempt.

Variables (method endpoint : string) (params json_data : option dict).

Let call := _make_request method endpoint params json_data.
Let call_in := fun depth => _make_request_in depth method endpoint params json_data.
Let tried := attempt method endpoint params json_data.

Lemma make_request_in_no_response (depth : nat) (s : St) :
  call_in depth [] s = (Raise ConnectError, tried s, []).
Proof.
  subst call_in tried. unfold attempt. destruct depth; cbn;
    rewrite _rate_limit_returns; reflexivity.
Qed.

Lemma make_request_in_response (depth : nat) (response : httpx.Response)
    (wire : list httpx.Response) (s : St) :
  call_in depth (response :: wire) s =
    if httpx.status_code response =? 429 then
      match retry_after_of response with
      | Raise e => (Raise e, tried s, wire)
      | Return retry_after =>
          match time_sleep (inject_Z retry_after) (tried s) with
          | (Raise e, s') => (Raise e, s', wire)
          | (Return _, s') =>
              match depth with
              | S depth => call_in depth wire s'
              | O => (Raise RecursionError, s', wire)
              end
          end
      end
    else
      match raise_for_status response with
      | Raise e => (Raise e, tried s, wire)
      | Return _ =>
          if httpx.status_code response =? 204 then (Return (VDict []), tried s, wire)
          else
            match httpx.resp_json response with
            | Some v => (Return v, tried s, wire)
            | None => (Raise JSONDecodeError, tried s, wire)
            end
      end.
Proof.
  subst call_in tried. unfold attempt. destruct depth; cbn [_make_request_in];
    rewrite _rate_limit_returns; reflexivity.
Qed.

Lemma make_request_no_response (s : St) :
  call [] s = (Raise ConnectError, tried s, []).
Proof. apply make_request_in_no_response. Qed.

Lemma make_request_response (response : httpx.Response) (wire : list httpx.Response)
    (s : St) :
  call (response :: wire) s =
    if httpx.status_code response =? 429 then
      match retry_after_of response with
      | Raise e => (Raise e, tried s, wire)
      | Return retry_after =>
          match time_sleep (inject_Z retry_after) (tried s) with
          | (Raise e, s') => (Raise e, s', wire)
          | (Return _, s') =>
              match frames (net s) with
              | S depth => call_in depth wire s'
              | O => (Raise RecursionError, s', wire)
              end
          end
      end
    else
      match raise_for_status response with
      | Raise e => (Raise e, tried s, wire)
      | Return _ =>
          if httpx.status_code response =? 204 then (Return (VDict []), tried s, wire)
          else
            match httpx.resp_json response with
            | Some v => (Return v, tried s, wire)
            | None => (Raise JSONDecodeError, tried s, wire)
            end
      end.
Proof. apply make_request_in_response. Qed.

(** A 429 whose [Retry-After] is usable: one sleep, then the same call
    again on the rest of the script, one level deeper. *)
Lemma make_request_retry (depth : nat) (response : httpx.Response)
    (wire : list httpx.Response) (s : St) (d : Z) :
  httpx.status_code response = 429 ->
  retry_after_of response = Return d ->
  0 <= d ->
  call_in (S depth) (response :: wire) s = call_in depth wire (asleep (inject_Z d) (tried s)).
Proof.
  intros H429 Hd Hpos. rewrite make_request_in_response, H429, Hd. cbn [Z.eqb Pos.eqb].
  assert (Hq : (0 <= inject_Z d)%Q) by (unfold Qle; cbn; lia).
  unfold asleep. rewrite (time_sleep_nonneg _ _ Hq). reflexivity.
Qed.


(** Any other status ends the call at this response. *)
Lemma make_request_in_final (depth : nat) (response : httpx.Response)
    (wire : list httpx.Response) (s : St) :
  httpx.status_code response <> 429 ->
  exists r, call_in depth (response :: wire) s = (r, tried s, wire) /\
    r = match raise_for_status response with
        | Raise e => Raise e
        | Return _ =>
            if httpx.status_code response =? 204 then Return (VDict [])
            else match httpx.resp_json response with
                 | Some v => Return v
                 | None => Raise JSONDecodeError
                 end
        end.
Proof.
  intros Hne. rewrite make_request_in_response.
  destruct (Z.eqb_spec (httpx.status_code response) 429) as [|_]; [contradiction|].
  destruct (raise_for_status response); [|eauto].
  destruct (httpx.status_code response =? 204); [eauto|].
  destruct (httpx.resp_json response); eauto.
Qed.

Lemma make_request_final (response : httpx.Response) (wire : list httpx.Response)
    (s : St) :
  httpx.status_code response <> 429 ->
  exists r, call (response :: wire) s = (r, tried s, wire) /\
    r = match raise_for_status response with
        | Raise e => Raise e
        | Return _ =>
            if httpx.status_code response =? 204 then Return (VDict [])
            else match httpx.resp_json response with
                 | Some v => Return v
                 | None => Raise JSONDecodeError
                 end
        end.
Proof. apply make_request_in_final. Qed.

Lemma tried_frame (s : St) :
  self (tried s) = self (rl_state s) /\
  sent (net (tried s)) =
    (sent (net s) ++ [request_of (self s) method endpoint params json_data])%list /\
  slept (net (tried s)) = slept (net (rl_state s)) /\
  clock (net (tried s)) = clock (net (rl_state s)) /\
  lags (net (tried s)) = lags (net (rl_state s)).
Proof.
  subst tried. unfold attempt, send. cbn.
  destruct (rl_state_frame s) as (_ & Hurl & Hhdr & _ & _ & Hsent).
  unfold request_of. rewrite Hurl, Hhdr, Hsent. repeat split; reflexivity.
Qed.

Lemma asleep_frame (d : Q) (s : St) :
  (0 <= d)%Q ->
  self (asleep d s) = self s /\
  sent (net (asleep d s)) = sent (net s) /\
  slept (net (asleep d s)) = (slept (net s) ++ [d])%list /\
  clock (net (asleep d s)) = (clock (net s) + d + hd 0%Q (lags (net s)))%Q /\
  lags (net (asleep d s)) = tl (lags (net s)).
Proof.
  intros Hd. unfold asleep. rewrite (time_sleep_nonneg _ _ Hd). repeat split; reflexivity.
Qed.

(** Neither the limiter, nor a request, nor a sleep changes the room
    below the recursion limit. *)
Lemma rl_state_frames (s : St) : frames (net (rl_state s)) = frames (net s).
Proof.
  destruct s as [c n]. run_rate_limit.
  repeat match goal with
         | |- context [if ?b then _ else _] => destruct b eqn:?; cbn
         | |- context [time_sleep ?d ?s] =>
             rewrite (time_sleep_nonneg d s) by (apply Qlt_le_weak, Qlt_bool_true; assumption); cbn
         end; reflexivity.
Qed.

Lemma tried_frames (s : St) : frames (net (tried s)) = frames (net s).
Proof. subst tried. unfold attempt, send. cbn. apply rl_state_frames. Qed.

Lemma asleep_frames (d : Q) (s : St) : frames (net (asleep d s)) = frames (net s).
Proof.
  unfold asleep, time_sleep. destruct (Qlt_bool d 0); reflexivity.
Qed.

End OneAttempt.

(** ** Status handling *)

(** C5. A response with a 4xx or 5xx status other than 429 makes the call
    raise [HTTPStatusError] carrying that very response (status and body
    as received); exactly one request has gone out, nothing is slept
    after the limiter, and the rest of the server's script is left
    unread: the request is not retried. *)
Theorem error_status_raises_without_retry (method endpoint : string)
    (params json_data : option dict) (response : httpx.Response)
    (wire : list httpx.Response) (s : St) :
  400 <= httpx.status_code response <= 599 ->
  httpx.status_code response <> 429 ->
  exists s',
    _make_request method endpoint params json_data (response :: wire) s
      = (Raise (HTTPStatusError response), s', wire) /\
    sent (net s') =
      (sent (net s) ++ [request_of (self s) method endpoint params json_data])%list /\
    slept (net s') = slept (net (rl_state s)).
Proof.
  intros Hrange Hne.
  exists (attempt method endpoint params json_data s).
  destruct (make_request_final method endpoint params json_data response wire s Hne)
    as (r & Hcall & Hr).
  destruct (tried_frame method endpoint params json_data s) as (_ & Hsent & Hslept & _).
  split; [|split; assumption].
  rewrite Hcall, Hr. unfold raise_for_status, httpx.is_success.
  destruct (Z.leb_spec (httpx.status_code response) 299); [lia|].
  rewrite andb_false_r. reflexivity.
Qed.

Lemma error_status_raises_without_retry_witness :
  exists s',
    _make_request "GET" "jobs/7" None None [not_found; ok_empty_list] idle_state
      = (Raise (HTTPStatusError not_found), s', [ok_empty_list]) /\
    sent (net s') = [request_of (self idle_state) "GET" "jobs/7" None None] /\
    slept (net s') = [].
Proof.
  destruct (error_status_raises_without_retry "GET" "jobs/7" None None not_found
              [ok_empty_list] idle_state) as (s' & Hcall & Hsent & Hslept).
  - vm_compute. split; discriminate.
  - vm_compute. discriminate.
  - exists s'. split; [exact Hcall|]. split; [exact Hsent | exact Hslept].
Defined.

(** C7. A 204 response makes the call return the empty record, which is
    not [None]; any other 2xx response whose body parses as JSON makes it
    return the parsed value. In both cases one request has gone out and
    the rest of the script is left unread. *)
Theorem no_content_returns_empty_record (method endpoint : string)
    (params json_data : option dict) (response : httpx.Response)
    (wire : list httpx.Response) (s : St) :
  let tried := attempt method endpoint params json_data s in
  (httpx.status_code response = 204 ->
   _make_request method endpoint params json_data (response :: wire) s
     = (Return (VDict []), tried, wire) /\
   VDict [] <> VNone) /\
  (200 <= httpx.status_code response <= 299 ->
   httpx.status_code response <> 204 ->
   forall v, httpx.resp_json response = Some v ->
   _make_request method endpoint params json_data (response :: wire) s
     = (Return v, tried, wire)).
Proof.
  intros tried. subst tried. split.
  - intros H204. split; [|discriminate].
    rewrite make_request_response.
    unfold raise_for_status, httpx.is_success. rewrite H204. reflexivity.
  - intros Hrange Hne v Hjson.
    destruct (make_request_final method endpoint params json_data response wire s)
      as (r & Hcall & Hr); [lia|].
    rewrite Hcall, Hr. unfold raise_for_status, httpx.is_success.
    destruct (Z.leb_spec 200 (httpx.status_code response)); [|lia].
    destruct (Z.leb_spec (httpx.status_code response) 299); [|lia].
    destruct (Z.eqb_spec (httpx.status_code response) 204); [contradiction|].
    cbn. rewrite Hjson. reflexivity.
Qed.

Lemma no_content_returns_empty_record_witness :
  _make_request "POST" "applications/5/advance" None (Some [("from_stage_id", VInt 10)])
                [no_content] idle_state
    = (Return (VDict []),
       attempt "POST" "applications/5/advance" None (Some [("from_stage_id", VInt 10)])
               idle_state, []) /\
  _make_request "GET" "jobs" (Some (pagination 50 1)) None [ok_empty_list] idle_state
    = (Return (VList []),
       attempt "GET" "jobs" (Some (pagination 50 1)) None idle_state, []).
Proof.
  split.
  - apply (proj1 (no_content_returns_empty_record _ _ _ _ no_content [] idle_state)).
    reflexivity.
  - apply (proj2 (no_content_returns_empty_record _ _ _ _ ok_empty_list [] idle_state)).
    + vm_compute. split; discriminate.
    + vm_compute. discriminate.
    + reflexivity.
Defined.

(** ** The 429 path *)

Lemma inject_Z_nonneg (d : Z) : 0 <= d -> (0 <= inject_Z d)%Q.
Proof. intros H. unfold Qle. cbn. lia. Qed.

Lemma usable_429_waits_and_retries (response : httpx.Response) (d : Z) :
  usable_429 response d -> waits_and_retries response.
Proof.
  intros (H429 & Hd & Hpos & _) method endpoint params json_data depth wire s.
  exists d. split; [exact Hd|]. split.
  - unfold asleep. rewrite (time_sleep_nonneg _ _ (inject_Z_nonneg d Hpos)). reflexivity.
  - apply make_request_retry; assumption.
Qed.

(** The limiter sleeps at most once. *)
Lemma rl_state_slept (s : St) :
  exists t, slept (net (rl_state s)) = (slept (net s) ++ t)%list /\ (length t <= 1)%nat.
Proof.
  destruct s as [c n]. run_rate_limit.
  repeat match goal with
         | |- context [if ?b then _ else _] => destruct b eqn:?; cbn
         | |- context [time_sleep ?d ?s] =>
             rewrite (time_sleep_nonneg d s) by (apply Qlt_le_weak, Qlt_bool_true; assumption); cbn
         end;
    first [ exists []; split; [symmetry; apply app_nil_r | cbn; lia]
          | eexists [_]; split; [reflexivity | cbn; lia] ].
Qed.

Lemma usable_429_nonneg (rs : list httpx.Response) (ds : list Z) :
  Forall2 usable_429 rs ds -> Forall (fun d => 0 <= d) ds.
Proof.
  induction 1 as [|r d rs ds (_ & _ & Hd & _) _ IH]; constructor; assumption.
Qed.

Lemma usable_429_status (rs : list httpx.Response) (ds : list Z) :
  Forall2 usable_429 rs ds -> Forall (fun r => httpx.status_code r = 429) rs.
Proof.
  induction 1 as [|r d rs ds (H429 & _) _ IH]; constructor; assumption.
Qed.

Section Retries.

Variables (method endpoint : string) (params json_data : option dict).

Local Abbreviation call := (_make_request method endpoint params json_data).
Local Abbreviation call_in depth :=
  (_make_request_in depth method endpoint params json_data).
Local Abbreviation tried := (attempt method endpoint params json_data).
Local Abbreviation again := (retried method endpoint params json_data).

Lemma make_request_retries (depth : nat) (rs : list httpx.Response) (ds : list Z)
    (wire : list httpx.Response) (s : St) :
  Forall2 usable_429 rs ds ->
  call_in (length rs + depth)%nat (rs ++ wire) s = call_in depth wire (again ds s).
Proof.
  intros H. revert s. induction H as [|r d rs ds (H429 & Hd & Hpos & _) _ IH]; intros s.
  - reflexivity.
  - cbn [app retried length Nat.add].
    rewrite (make_request_retry _ _ _ _ _ r (rs ++ wire) s d H429 Hd Hpos).
    apply IH.
Qed.


Lemma tried_config (s : St) :
  base_url (self (tried s)) = base_url (self s) /\
  headers (self (tried s)) = headers (self s).
Proof.
   destruct (tried_frame method endpoint params json_data s) as (Hself & _).
  rewrite Hself. destruct (rl_state_frame s) as (_ & Hurl & Hhdr & _). auto.
Qed.

Lemma retried_sent (ds : list Z) (s : St) :
  Forall (fun d => 0 <= d) ds ->
  sent (net (again ds s)) =
    (sent (net s)
     ++ repeat (request_of (self s) method endpoint params json_data) (length ds))%list /\
  request_of (self (again ds s)) method endpoint params json_data
    = request_of (self s) method endpoint params json_data.
Proof.
  intros H. revert s. induction H as [|d ds Hd _ IH]; intros s.
  - cbn. rewrite app_nil_r. auto.
  - cbn [retried length repeat].
    pose proof (asleep_frame (inject_Z d) (tried s) (inject_Z_nonneg d Hd))
      as (Hself & Hsent & _).
    pose proof (tried_frame method endpoint params json_data s) as (_ & Htsent & _).
    pose proof (tried_config s) as (Hurl & Hhdr).
    assert (Hreq : request_of (self (asleep (inject_Z d) (tried s)))
                              method endpoint params json_data
                   = request_of (self s) method endpoint params json_data).
    { unfold request_of. rewrite Hself, Hurl, Hhdr. reflexivity. }
    destruct (IH (asleep (inject_Z d) (tried s))) as (IHsent & IHreq).
    rewrite IHsent, IHreq, Hreq, Hsent.  rewrite Htsent.
    rewrite <- app_assoc. auto.
Qed.

Lemma retried_slept (ds : list Z) (s : St) :
  Forall (fun d => 0 <= d) ds ->
  exists l, slept (net (tried (again ds s))) = (slept (net s) ++ l)%list /\
            retry_sleeps ds l.
Proof.
  intros H. revert s. induction H as [|d ds Hd _ IH]; intros s.
  - cbn [retried].
    pose proof (tried_frame method endpoint params json_data s) as (_ & _ & Hslept & _).
    destruct (rl_state_slept s) as (t & Ht & Hlen).
    exists t.  rewrite Hslept, Ht. split; [reflexivity|].
    destruct t as [|w [|? ?]]; cbn in Hlen; [constructor | constructor | lia].
  - cbn [retried].
    destruct (IH (asleep (inject_Z d) (tried s))) as (l & Hl & Hrs).
    pose proof (asleep_frame (inject_Z d) (tried s) (inject_Z_nonneg d Hd))
      as (_ & _ & Hslept & _).
    pose proof (tried_frame method endpoint params json_data s) as (_ & _ & Htslept & _).
    destruct (rl_state_slept s) as (t & Ht & Hlen).
    exists (t ++ inject_Z d :: l)%list.
    rewrite Hl, Hslept.  rewrite Htslept, Ht.
    split; [rewrite <- !app_assoc; reflexivity|].
    destruct t as [|w [|? ?]]; cbn in Hlen |- *; [constructor | constructor | lia];
      assumption.
Qed.

Lemma retried_frames (ds : list Z) (s : St) :
  frames (net (again ds s)) = frames (net s).
Proof.
  revert s. induction ds as [|d ds IH]; intros s; [reflexivity|].
  cbn [retried]. rewrite IH, asleep_frames. apply tried_frames.
Qed.

(** While only 429s arrive, the call does not return a value. *)
Lemma all_429_never_returns_in (depth : nat) (wire : list httpx.Response) (s : St)
    (v : value) :
  Forall (fun r => httpx.status_code r = 429) wire ->
  fst (fst (call_in depth wire s)) <> Return v.
Proof.
  intros H. revert depth s. induction H as [|r wire H429 _ IH]; intros depth s.
  - rewrite make_request_in_no_response. discriminate.
  - rewrite make_request_in_response, H429. cbn [Z.eqb Pos.eqb].
    destruct (retry_after_of r); [|discriminate].
    destruct (time_sleep _ _) as [[|] s']; [|discriminate].
    destruct depth; [discriminate | apply IH].
Qed.

Lemma all_429_never_returns (wire : list httpx.Response) (s : St) (v : value) :
  Forall (fun r => httpx.status_code r = 429) wire ->
  fst (fst (call wire s)) <> Return v.
Proof. apply all_429_never_returns_in. Qed.

End Retries.

(** The whole call on a script of usable 429s followed by another status,
    with room for the retries. *)
Lemma make_request_chain (method endpoint : string) (params json_data : option dict)
    (rs : list httpx.Response) (ds : list Z) (final : httpx.Response)
    (wire : list httpx.Response) (s : St) :
  Forall2 usable_429 rs ds ->
  httpx.status_code final <> 429 ->
  (length rs <= frames (net s))%nat ->
  exists out,
    _make_request method endpoint params json_data (rs ++ final :: wire) s
      = (out, attempt method endpoint params json_data
                (retried method endpoint params json_data ds s), wire).
Proof.
  intros Hrs Hfinal Hroom. unfold _make_request.
  replace (frames (net s)) with (length rs + (frames (net s) - length rs))%nat by lia.
  rewrite (make_request_retries _ _ _ _ _ rs ds (final :: wire) s Hrs).
  destruct (make_request_in_final method endpoint params json_data
              (frames (net s) - length rs) final wire
              (retried method endpoint params json_data ds s) Hfinal) as (out & Hcall & _).
  exists out. exact Hcall.
Qed.

Lemma sleepable_digits (n : Z) : sleepable n -> Z.abs n < 10 ^ int_max_str_digits.
Proof.
  intros [Hlo Hhi]. rewrite Z.abs_eq by exact Hlo.
  apply Z.lt_trans with (10 ^ 9); [exact Hhi|].
  apply Z.pow_lt_mono_r; unfold int_max_str_digits; lia.
Qed.

(** A [Retry-After] of [str(n)] seconds, [n] a length to sleep, or no
    such header at all, is usable. *)
Lemma usable_429_decimal (response : httpx.Response) (n : Z) :
  httpx.status_code response = 429 ->
  sleepable n ->
  httpx.resp_headers response !! "retry-after" = Some (str_of_Z n) \/
  (httpx.resp_headers response !! "retry-after" = None /\ n = 10) ->
  usable_429 response n.
Proof.
  intros H429 Hn Hhdr. split; [exact H429|]. split; [|exact Hn].
  unfold retry_after_of.
  destruct Hhdr as [-> | [-> ->]];
    [rewrite (py_int_str_of_Z n (sleepable_digits n Hn))|]; reflexivity.
Qed.

(** C3 (amended). For 429 responses whose [Retry-After] is absent or
    parses to an integer that is a length to sleep, as the decimal form
    of every such integer does: each one is handled by one wait of that
    many seconds (10 without the header) and one retry with the same
    method, endpoint, params and body, nested in the call it retries.
    Any number [n] of them in a row that the interpreter has room to
    nest, followed by a response with another status, makes the call
    send [n + 1] identical requests and sleep once per 429 for exactly
    the server's lengths (the limiter adding at most one wait of its own
    per attempt), then end at that response; and as long as only 429s
    arrive the call returns no value. *)
Theorem retry_after_each_429 (method endpoint : string) (params json_data : option dict)
    (rs : list httpx.Response) (ds : list Z) (final : httpx.Response)
    (wire : list httpx.Response) (s : St) :
  Forall2 usable_429 rs ds ->
  httpx.status_code final <> 429 ->
  (length rs <= frames (net s))%nat ->
  (forall response n,
     httpx.status_code response = 429 -> sleepable n ->
     httpx.resp_headers response !! "retry-after" = Some (str_of_Z n) \/
     (httpx.resp_headers response !! "retry-after" = None /\ n = 10) ->
     usable_429 response n) /\
  Forall waits_and_retries rs /\
  (exists out s' l,
     _make_request method endpoint params json_data (rs ++ final :: wire) s
       = (out, s', wire) /\
     sent (net s') =
       (sent (net s)
        ++ repeat (request_of (self s) method endpoint params json_data)
                  (S (length rs)))%list /\
     slept (net s') = (slept (net s) ++ l)%list /\
     retry_sleeps ds l) /\
  (forall v, fst (fst (_make_request method endpoint params json_data rs s)) <> Return v).
Proof.
  intros Hrs Hfinal Hroom.
  pose proof (usable_429_nonneg rs ds Hrs) as Hds.
  split; [exact usable_429_decimal|]. split; [|split].
  - clear -Hrs. induction Hrs as [|r d rs ds Hr _ IH]; constructor; [|exact IH].
    exact (usable_429_waits_and_retries r d Hr).
  - destruct (make_request_chain method endpoint params json_data rs ds final wire s
                Hrs Hfinal Hroom) as (out & Hcall).
    destruct (retried_slept method endpoint params json_data ds s Hds) as (l & Hl & Hsl).
    destruct (retried_sent method endpoint params json_data ds s Hds) as (Hsent & Hreq).
    destruct (tried_frame method endpoint params json_data
                (retried method endpoint params json_data ds s)) as (_ & Htsent & _).
    exists out, (attempt method endpoint params json_data
                   (retried method endpoint params json_data ds s)), l.
    split; [exact Hcall|]. split; [|split; assumption].
    rewrite Htsent, Hreq, Hsent, <- app_assoc.
    rewrite (Forall2_length _ _ _ Hrs). f_equal.
    cbn [repeat]. apply eq_sym, repeat_cons.
  - intros v. apply all_429_never_returns. exact (usable_429_status rs ds Hrs).
Qed.

Lemma retry_after_each_429_witness :
  Forall2 usable_429 [too_many_2; too_many_plain] [2; 10] /\
  usable_429 too_many_2 2 /\
  Forall waits_and_retries [too_many_2; too_many_plain] /\
  exists out s' l,
    _make_request "GET" "jobs" (Some (pagination 50 1)) None
                  [too_many_2; too_many_plain; ok_empty_list] idle_state
      = (out, s', []) /\
    sent (net s') =
      repeat (request_of (self idle_state) "GET" "jobs" (Some (pagination 50 1)) None) 3 /\
    slept (net s') = l /\
    retry_sleeps [2; 10] l.
Proof.
  assert (Hrs : Forall2 usable_429 [too_many_2; too_many_plain] [2; 10]).
  { repeat constructor; try (vm_compute; reflexivity); vm_compute; discriminate. }
  assert (Hfinal : httpx.status_code ok_empty_list <> 429) by (vm_compute; discriminate).
  assert (Hroom : (length [too_many_2; too_many_plain] <= frames (net idle_state))%nat)
    by (apply Nat.leb_le; vm_compute; reflexivity).
  destruct (retry_after_each_429 "GET" "jobs" (Some (pagination 50 1)) None
              [too_many_2; too_many_plain] [2; 10] ok_empty_list [] idle_state
              Hrs Hfinal Hroom)
    as (Hdec & Heach & (out & s' & l & Hcall & Hsent & Hslept & Hl) & _).
  split; [exact Hrs|]. split; [|split; [exact Heach|]].
  - apply Hdec; [reflexivity | unfold sleepable; lia | left; vm_compute; reflexivity].
  - exists out, s', l. repeat split; assumption.
Defined.

(** C3 as stated fails on a 429 whose [Retry-After] is an HTTP-date:
    [int] rejects the value, so the call raises [ValueError] after its one
    request, without any sleep and without reading the next response. *)
Lemma retry_after_http_date_counterexample :
  httpx.status_code too_many_http_date = 429 /\
  ~ waits_and_retries too_many_http_date /\
  exists s',
    _make_request "GET" "jobs" (Some (pagination 50 1)) None
                  [too_many_http_date; ok_empty_list] idle_state
      = (Raise (ValueError "invalid literal for int() with base 10"), s', [ok_empty_list]) /\
    slept (net s') = [] /\
    length (sent (net s')) = 1%nat.
Proof.
  split; [reflexivity|]. split.
  - intros H.
    destruct (H "GET" "jobs" None None 0%nat [] idle_state) as (d & Hd & _).
    vm_compute in Hd. discriminate.
  - eexists. split; [vm_compute; reflexivity|]. split; reflexivity.
Qed.

(** ** Retries and the limiter's counter *)

Lemma elapsed_nonneg (ds : list Z) (lags : list Q) :
  Forall (fun d => 0 <= d) ds -> Forall (Qle 0) lags -> (0 <= elapsed ds lags)%Q.
Proof.
  intros Hds. revert lags. induction Hds as [|d ds Hd _ IH]; intros lags Hlags.
  - cbn. lra.
  - cbn [elapsed].
    assert (Hhd : (0 <= hd 0 lags)%Q) by (destruct Hlags; cbn; [lra | assumption]).
    assert (Htl : Forall (Qle 0) (tl lags)) by (destruct Hlags; cbn; [constructor | assumption]).
    pose proof (IH _ Htl). pose proof (inject_Z_nonneg d Hd). lra.
Qed.

(** Inside one window and below the ceiling, every attempt of a chain of
    retries adds one to the counter. *)
Lemma retried_count (method endpoint : string) (params json_data : option dict)
    (ds : list Z) (s : St) :
  Forall (fun d => 0 <= d) ds ->
  Forall (Qle 0) (lags (net s)) ->
  (clock (net s) - _last_request_time (self s) + elapsed ds (lags (net s))
   <= _rate_limit_window (self s))%Q ->
  _request_count (self s) + Z.of_nat (length ds) < _rate_limit_max (self s) ->
  _request_count (self (attempt method endpoint params json_data
                          (retried method endpoint params json_data ds s)))
    = _request_count (self s) + Z.of_nat (S (length ds)).
Proof.
  intros Hds. revert s. induction Hds as [|d ds Hd Hds IH]; intros s Hlags Htime Hroom.
  - cbn [retried length elapsed] in *.
    destruct (tried_frame method endpoint params json_data s) as (Hself & _).
    rewrite Hself, rl_state_room by (first [lra | lia]).
    cbn. lia.
  - cbn [retried elapsed] in *.
    assert (Hhd : (0 <= hd 0 (lags (net s)))%Q) by (destruct Hlags; cbn; [lra | assumption]).
    assert (Htl : Forall (Qle 0) (tl (lags (net s))))
      by (destruct Hlags; cbn; [constructor | assumption]).
    pose proof (elapsed_nonneg ds _ Hds Htl) as Hel.
    pose proof (inject_Z_nonneg d Hd) as Hdq.
    assert (Hrl : rl_state s = set_request_count (_request_count (self s) + 1) s).
    { apply rl_state_room; [lra | cbn [length] in Hroom; lia]. }
    set (s1 := asleep (inject_Z d) (attempt method endpoint params json_data s)).
    destruct (asleep_frame (inject_Z d) (attempt method endpoint params json_data s) Hdq)
      as (Hself1 & _ & _ & Hclock1 & Hlags1).
    destruct (tried_frame method endpoint params json_data s)
      as (Hself & _ & _ & Hclock & Hlagsq).
    fold s1 in Hself1, Hclock1, Hlags1.
    rewrite Hself, Hrl in Hself1. rewrite Hclock, Hlagsq, Hrl in Hclock1.
    rewrite Hlagsq, Hrl in Hlags1.
    cbn in Hself1, Hclock1, Hlags1.
    rewrite (IH s1).
    + rewrite Hself1. cbn. lia.
    + rewrite Hlags1. exact Htl.
    + rewrite Hself1, Hclock1, Hlags1. cbn. lra.
    + rewrite Hself1. cbn. cbn [length] in Hroom. lia.
Qed.

(** C10. On a 429 response: a [Retry-After] value that [int] cannot parse
    makes the call raise [ValueError] right after its one request, with
    no sleep and no retry, so the wait-and-retry handling holds only if
    the header is absent or parses to an integer. Each retry starts the
    call again from the limiter: after [n] usable 429s that the
    interpreter has room to nest and a final response, the state is the
    one reached through [n + 1] passes of the limiter, and inside one
    window below the ceiling the counter has grown by [n + 1]. *)
Theorem retry_path_partial_and_charged (method endpoint : string)
    (params json_data : option dict) (response : httpx.Response)
    (wire : list httpx.Response) (s : St) :
  httpx.status_code response = 429 ->
  (forall v, httpx.resp_headers response !! "retry-after" = Some v -> py_int v = None ->
     _make_request method endpoint params json_data (response :: wire) s
       = (Raise (ValueError (int_error_message v)),
          attempt method endpoint params json_data s, wire) /\
     slept (net (attempt method endpoint params json_data s)) = slept (net (rl_state s)) /\
     ~ waits_and_retries response) /\
  (waits_and_retries response ->
     httpx.resp_headers response !! "retry-after" = None \/
     exists v n, httpx.resp_headers response !! "retry-after" = Some v /\ py_int v = Some n) /\
  (forall rs ds final,
     Forall2 usable_429 rs ds ->
     httpx.status_code final <> 429 ->
     (length rs <= frames (net s))%nat ->
     exists out,
       _make_request method endpoint params json_data (rs ++ final :: wire) s
         = (out, attempt method endpoint params json_data
                   (retried method endpoint params json_data ds s), wire) /\
       (Forall (Qle 0) (lags (net s)) ->
        (clock (net s) - _last_request_time (self s) + elapsed ds (lags (net s))
         <= _rate_limit_window (self s))%Q ->
        _request_count (self s) + Z.of_nat (length rs) < _rate_limit_max (self s) ->
        _request_count (self (attempt method endpoint params json_data
                                (retried method endpoint params json_data ds s)))
          = _request_count (self s) + Z.of_nat (S (length rs)))).
Proof.
  intros H429. split; [|split].
  - intros v Hhdr Hparse.
    assert (Hra : retry_after_of response = Raise (ValueError (int_error_message v))).
    { unfold retry_after_of. rewrite Hhdr, Hparse. reflexivity. }
    split; [|split].
    + rewrite make_request_response, H429, Hra. reflexivity.
    + apply (tried_frame method endpoint params json_data s).
    + intros Hw. destruct (Hw method endpoint params json_data 0%nat wire s) as (d & Hd & _).
      rewrite Hra in Hd. discriminate.
  - intros Hw. destruct (Hw method endpoint params json_data 0%nat wire s) as (d & Hd & _).
    unfold retry_after_of in Hd.
    destruct (httpx.resp_headers response !! "retry-after") as [v|]; [|left; reflexivity].
    right. destruct (py_int v) as [n|] eqn:Hn; [|discriminate].
    exists v, n. split; reflexivity || assumption.
  - intros rs ds final Hrs Hfinal Hframes.
    destruct (make_request_chain method endpoint params json_data rs ds final wire s
                Hrs Hfinal Hframes) as (out & Hcall).
    exists out. split; [exact Hcall|].
    intros Hlags Htime Hroom.
    rewrite (Forall2_length _ _ _ Hrs) in *.
    apply retried_count; [exact (usable_429_nonneg rs ds Hrs) | assumption..].
Qed.

Lemma retry_path_partial_and_charged_witness :
  _make_request "GET" "jobs" None None [too_many_http_date; ok_empty_list] idle_state
    = (Raise (ValueError "invalid literal for int() with base 10"),
       attempt "GET" "jobs" None None idle_state, [ok_empty_list]) /\
  (httpx.resp_headers too_many_2 !! "retry-after" = None \/
   exists v n, httpx.resp_headers too_many_2 !! "retry-after" = Some v /\ py_int v = Some n) /\
  exists out s',
    _make_request "GET" "jobs" None None [too_many_2; ok_empty_list] idle_state
      = (out, s', []) /\
    _request_count (self s') = _request_count (self idle_state) + 2.
Proof.
  split; [|split].
  - apply (proj1 (retry_path_partial_and_charged "GET" "jobs" None None
                    too_many_http_date [ok_empty_list] idle_state eq_refl)
             "Wed, 21 Oct 2015 07:28:00 GMT").
    + vm_compute. reflexivity.
    + vm_compute. reflexivity.
  - apply (proj1 (proj2 (retry_path_partial_and_charged "GET" "jobs" None None
                           too_many_2 [] idle_state eq_refl))).
    apply (usable_429_waits_and_retries too_many_2 2).
    split; [reflexivity|]. split; [vm_compute; reflexivity | unfold sleepable; lia].
  - destruct (proj2 (proj2 (retry_path_partial_and_charged "GET" "jobs" None None
                              too_many_2 [] idle_state eq_refl))
                [too_many_2] [2] ok_empty_list) as (out & Hcall & Hcount).
    + constructor; [|constructor].
      split; [reflexivity|]. split; [vm_compute; reflexivity | unfold sleepable; lia].
    + vm_compute. discriminate.
    + apply Nat.leb_le. vm_compute. reflexivity.
    + exists out, (attempt "GET" "jobs" None None
                     (retried "GET" "jobs" None None [2] idle_state)).
      split; [exact Hcall|].
      apply Hcount.
      * constructor.
      * vm_compute. discriminate.
      * vm_compute. reflexivity.
Defined.

(** ** Assembling query parameters and bodies *)

Lemma dict_get_dict_set {A : Type} (k k' : string) (v : A) (d : list (string * A)) :
  dict_get k (dict_set k' v d) = if String.eqb k k' then Some v else dict_get k d.
Proof.
  induction d as [|[k0 v0] d IH]; cbn.
  - reflexivity.
  - destruct (String.eqb_spec k' k0) as [->|Hne0]; cbn.
    + destruct (String.eqb k k0); reflexivity.
    + rewrite IH. destruct (String.eqb_spec k k') as [->|Hne]; [|reflexivity].
      destruct (String.eqb_spec k' k0); [contradiction | reflexivity].
Qed.

(** An argument that is [None] or falsy leaves the dictionary alone. *)
Lemma set_if_falsy {A : Type} (truthy : option A -> bool) (inj : A -> value)
    (k : string) (x : option A) (d : dict) :
  x = None \/ truthy x = false -> set_if truthy inj k x d = d.
Proof.
  intros [-> | H]; [reflexivity|]. unfold set_if. rewrite H. destruct x; reflexivity.
Qed.

Lemma set_if_truthy {A : Type} (truthy : option A -> bool) (inj : A -> value)
    (k : string) (a : A) (d : dict) :
  truthy (Some a) = true -> set_if truthy inj k (Some a) d = dict_set k (inj a) d.
Proof. intros H. unfold set_if. rewrite H. reflexivity. Qed.

Lemma dict_get_set_if {A : Type} (truthy : option A -> bool) (inj : A -> value)
    (k k' : string) (x : option A) (d : dict) :
  dict_get k (set_if truthy inj k' x d) =
    match x with
    | Some a => if truthy x && String.eqb k k' then Some (inj a) else dict_get k d
    | None => dict_get k d
    end.
Proof.
  unfold set_if. destruct x as [a|]; [|reflexivity].
  destruct (truthy (Some a)); cbn; [apply dict_get_dict_set | reflexivity].
Qed.

Lemma dict_get_set_if_other {A : Type} (truthy : option A -> bool) (inj : A -> value)
    (k k' : string) (x : option A) (d : dict) :
  String.eqb k k' = false -> dict_get k (set_if truthy inj k' x d) = dict_get k d.
Proof.
  intros H. rewrite dict_get_set_if, H, andb_false_r. destruct x; reflexivity.
Qed.

Ltac dict_lookup :=
  repeat first [ rewrite dict_get_set_if_other by reflexivity
               | rewrite set_if_falsy by (left; reflexivity) ];
  try reflexivity.

(** C4. The query parameters of the list endpoints ([list_jobs],
    [list_candidates], [list_applications], [list_users], and
    [list_departments] and [list_offices], which take no filter): every
    one holds [per_page] and [page] with the caller's values, and a filter
    the caller left at [None] is not among the keys of any of them, hence
    not there with an empty or null value either. The parameters so built
    are what each endpoint method hands to [_make_request]. *)
Theorem unsupplied_filters_are_absent (per_page page : Z)
    (created_before created_after status email : option string)
    (job_id candidate_id : option Z) (candidate_ids : option (list Z)) :
  let jobs := list_jobs_params per_page page created_before created_after status in
  let candidates :=
    list_candidates_params per_page page created_before created_after email candidate_ids in
  let applications :=
    list_applications_params per_page page created_before created_after
                             job_id candidate_id status in
  let users := list_users_params per_page page email in
  let plain := pagination per_page page in
  let all := [jobs; candidates; applications; users; plain] in
  Forall (fun p => dict_get "per_page" p = Some (VInt per_page) /\
                   dict_get "page" p = Some (VInt page)) all /\
  (created_before = None -> Forall (fun p => dict_get "created_before" p = None) all) /\
  (created_after = None -> Forall (fun p => dict_get "created_after" p = None) all) /\
  (status = None -> Forall (fun p => dict_get "status" p = None) all) /\
  (email = None -> Forall (fun p => dict_get "email" p = None) all) /\
  (job_id = None -> Forall (fun p => dict_get "job_id" p = None) all) /\
  (candidate_id = None -> Forall (fun p => dict_get "candidate_id" p = None) all) /\
  (candidate_ids = None -> Forall (fun p => dict_get "candidate_ids" p = None) all) /\
  list_jobs per_page page created_before created_after status
    = _make_request "GET" "jobs" (Some jobs) None /\
  list_candidates per_page page created_before created_after email candidate_ids
    = _make_request "GET" "candidates" (Some candidates) None /\
  list_applications per_page page created_before created_after job_id candidate_id status
    = _make_request "GET" "applications" (Some applications) None /\
  list_users per_page page email = _make_request "GET" "users" (Some users) None /\
  list_departments per_page page = _make_request "GET" "departments" (Some plain) None /\
  list_offices per_page page = _make_request "GET" "offices" (Some plain) None.
Proof.
  cbv zeta.
  unfold list_jobs_params, list_candidates_params, list_applications_params,
    list_users_params.
  split; [|repeat split; try reflexivity; intros ->; repeat constructor; dict_lookup].
  repeat constructor; dict_lookup.
Qed.

Lemma unsupplied_filters_are_absent_witness :
  dict_get "created_before" (list_jobs_params 50 1 None None (Some "open")) = None /\
  dict_get "job_id" (list_applications_params 50 1 None None None (Some 7) (Some "open"))
    = None /\
  dict_get "candidate_ids" (list_candidates_params 50 1 None None None None) = None.
Proof.
  pose proof (unsupplied_filters_are_absent 50 1 None None (Some "open") None
                None (Some 7) None) as (_ & Hcb & _ & _ & _ & Hjob & _ & Hids & _).
  split; [|split].
  - exact (Forall_inv (Hcb eq_refl)).
  - exact (Forall_inv (Forall_inv_tail (Forall_inv_tail (Hjob eq_refl)))).
  - exact (Forall_inv (Forall_inv_tail (Hids eq_refl))).
Defined.

Example list_applications_params_sample :
  list_applications_params 50 1 None (Some "2024-01-01") None (Some 7) (Some "active")
    = [("per_page", VInt 50); ("page", VInt 1); ("created_after", VStr "2024-01-01");
       ("candidate_id", VInt 7); ("status", VStr "active")].
Proof. reflexivity. Qed.

Example candidate_ids_sample :
  dict_get "candidate_ids" (list_candidates_params 50 1 None None None (Some [1; 2; 3]))
    = Some (VStr "1,2,3").
Proof. reflexivity. Qed.

(** ** The tool adapter *)

Lemma get_client_ok (w w' : World) :
  get_client w = (Return tt, w') ->
  exists c, client w' = Some c /\ environ w' = environ w /\ world_net w' = world_net w /\
            wire w' = wire w /\ ctx_log w' = ctx_log w.
Proof.
  unfold get_client. destruct (client w) as [c|] eqn:Hc.
  - intros [= <-]. exists c. auto.
  - destruct (negb _); [discriminate|].
    destruct (__init__ _ _) as [c|e]; [|discriminate].
    intros [= <-]. exists c. cbn. auto.
Qed.

(** The two job-stage names resolve to nothing on the client. *)
Lemma job_stage_methods_missing :
  dict_get "list_job_stages" GreenhouseClient_methods = None /\
  dict_get "get_job_stage" GreenhouseClient_methods = None /\
  existsb (String.eqb "list_job_stages") GreenhouseClient_other_attrs = false /\
  existsb (String.eqb "get_job_stage") GreenhouseClient_other_attrs = false.
Proof. repeat split; reflexivity. Qed.

Lemma call_method_missing (name : string) (kwargs : dict) (w : World) (c : GreenhouseClient) :
  client w = Some c ->
  dict_get name GreenhouseClient_methods = None ->
  existsb (String.eqb name) GreenhouseClient_other_attrs = false ->
  call_method name kwargs w = (Raise (AttributeError "GreenhouseClient" name), w).
Proof.
  intros Hc Hm Ha. unfold call_method. rewrite Hc, Hm, Ha. reflexivity.
Qed.

Lemma bind_return {S A B : Type} (m : M S A) (k : A -> M S B) (s s' : S) (a : A) :
  m s = (Return a, s') -> (m ≫= k) s = k a s'.
Proof. intros H. unfold mbind, M_bind. rewrite H. reflexivity. Qed.

Lemma bind_raise {S A B : Type} (m : M S A) (k : A -> M S B) (s s' : S) (e : exn) :
  m s = (Raise e, s') -> (m ≫= k) s = (Raise e, s').
Proof. intros H. unfold mbind, M_bind. rewrite H. reflexivity. Qed.

Lemma try_except_raise (ctx : bool) (template : string) (args : list log_arg)
    (body : M World value) (w w' : World) (e : exn) :
  body w = (Raise e, w') ->
  try_except ctx template args body w
    = (Raise e, if ctx then log (CtxError template (args ++ [ArgExn e])%list) w' else w').
Proof. intros H. unfold try_except. rewrite H. reflexivity. Qed.

(** C1 (the code at the failing inputs). Once the singleton exists, the
    [list_job_stages] and [get_job_stage] tools raise [AttributeError]:
    the client class has no method of either name. No request is sent
    and nothing of the server's script is read. *)
Theorem job_stage_tools_raise_attribute_error (per_page page job_stage_id : Z)
    (job_id : option Z) (created_after created_before : option string) (ctx : bool)
    (w w' : World) :
  get_client w = (Return tt, w') ->
  let listed := Tools.list_job_stages per_page page job_id created_after created_before
                                      ctx w in
  let got := Tools.get_job_stage job_stage_id ctx w in
  fst listed = Raise (AttributeError "GreenhouseClient" "list_job_stages") /\
  fst got = Raise (AttributeError "GreenhouseClient" "get_job_stage") /\
  world_net (snd listed) = world_net w /\ wire (snd listed) = wire w /\
  world_net (snd got) = world_net w /\ wire (snd got) = wire w.
Proof.
  intros Hget.
  destruct (get_client_ok w w' Hget) as (c & Hc & _ & Hnet & Hwire & _).
  destruct job_stage_methods_missing as (Hl & Hg & Hla & Hga).
  cbv zeta. unfold Tools.list_job_stages, Tools.get_job_stage.
  erewrite !try_except_raise;
    [ | rewrite (bind_return _ _ _ _ _ Hget); apply bind_raise;
        apply (call_method_missing _ _ w' c Hc); assumption .. ].
  destruct ctx; cbn; rewrite ?Hnet, ?Hwire; repeat split; reflexivity.
Qed.

Lemma job_stage_tools_raise_attribute_error_witness :
  fst (Tools.list_job_stages 50 1 None None None false keyed_world)
    = Raise (AttributeError "GreenhouseClient" "list_job_stages") /\
  fst (Tools.get_job_stage 24348514 false keyed_world)
    = Raise (AttributeError "GreenhouseClient" "get_job_stage") /\
  wire (snd (Tools.get_job_stage 24348514 false keyed_world)) = [ok_empty_list].
Proof.
  assert (Hget : get_client keyed_world
                 = (Return tt, set_client (Some (fresh_client (environ keyed_world) "abc"))
                                          keyed_world))
    by (vm_compute; reflexivity).
  pose proof (job_stage_tools_raise_attribute_error 50 1 24348514 None None None false
                keyed_world _ Hget) as (Hl & Hg & _ & _ & _ & Hw).
  split; [exact Hl|]. split; [exact Hg | exact Hw].
Defined.

(** A tool whose context message cannot fail forwards to the client: its
    outcome, and what it leaves of the world apart from the context log,
    are those of the client call on the singleton. *)
Lemma tool_forwards (ctx : bool) (fail_template info_template : string)
    (fail_args info_args : list log_arg) (name : string) (kwargs : dict)
    (bind_args : dict -> result (Call value)) (call : Call value)
    (w w' : World) (c : GreenhouseClient) :
  get_client w = (Return tt, w') ->
  client w' = Some c ->
  dict_get name GreenhouseClient_methods = Some bind_args ->
  bind_args kwargs = Return call ->
  let out :=
    try_except ctx fail_template fail_args (
      get_client;;
      x ← call_method name kwargs;
      ctx_info ctx info_template (Return info_args);;
      mret x) w in
  let ran := run_call call c w' in
  fst out = fst ran /\
  environ (snd out) = environ (snd ran) /\
  client (snd out) = client (snd ran) /\
  world_net (snd out) = world_net (snd ran) /\
  wire (snd out) = wire (snd ran).
Proof.
  intros Hget Hc Hm Hb. cbv zeta.
  unfold try_except. rewrite (bind_return _ _ _ _ _ Hget).
  unfold mbind, M_bind, call_method. rewrite Hc, Hm, Hb.
  destruct (run_call call c w') as [[v|e] w''];
    destruct ctx; cbn; repeat split; reflexivity.
Qed.

(** ** Shaping the candidate body *)

Lemma dict_get_set_if_same {A : Type} (truthy : option A -> bool) (inj : A -> value)
    (k : string) (x : option A) (d : dict) :
  dict_get k d = None ->
  dict_get k (set_if truthy inj k x d) = inj <$> given truthy x.
Proof.
  intros Hd. rewrite dict_get_set_if, String.eqb_refl, andb_true_r. unfold given.
  destruct x as [a|]; [destruct (truthy (Some a)); [reflexivity | exact Hd]|].
  destruct (truthy None); exact Hd.
Qed.

Lemma dict_set_keys {A : Type} (k x : string) (v : A) (d : list (string * A)) :
  In x (dict_keys (dict_set k v d)) -> x = k \/ In x (dict_keys d).
Proof.
  induction d as [|[k' v'] d IH]; cbn.
  - intros [<- | []]. left. reflexivity.
  - destruct (String.eqb k k'); cbn; intros [<- | H]; auto.
    destruct (IH H); auto.
Qed.

Lemma dict_set_nodup {A : Type} (k : string) (v : A) (d : list (string * A)) :
  List.NoDup (dict_keys d) -> List.NoDup (dict_keys (dict_set k v d)).
Proof.
  induction d as [|[k' v'] d IH]; cbn; intros H.
  - repeat constructor. intros [].
  - apply List.NoDup_cons_iff in H. destruct H as (Hk' & Hd).
    destruct (String.eqb_spec k k') as [-> | Hne]; cbn.
    + apply List.NoDup_cons_iff. split; assumption.
    + apply List.NoDup_cons_iff. split; [|apply IH, Hd].
      intros Hin. apply dict_set_keys in Hin. destruct Hin as [-> | Hin]; auto.
Qed.

Lemma set_if_nodup {A : Type} (truthy : option A -> bool) (inj : A -> value)
    (k : string) (x : option A) (d : dict) :
  List.NoDup (dict_keys d) -> List.NoDup (dict_keys (set_if truthy inj k x d)).
Proof.
  intros H. unfold set_if. destruct x as [a|]; [|exact H].
  destruct (truthy (Some a)); [apply dict_set_nodup, H | exact H].
Qed.

(** C8. The [create_candidate] tool with a non-empty [email] builds a body
    whose [email_addresses] is the one-element list holding
    [{"value": email, "type": "personal"}], next to the two names as
    given; without [phone] the body has no [phone_numbers] key. Nothing
    else is done to the arguments: a phone number is wrapped the same
    way with the type [mobile], company and title are there as given,
    the tags as the list given, each under its own name and only when
    truthy, and the body has no other key. The body so shaped is passed
    as it is to the client's [create_candidate], which posts it to
    [candidates]; the tool's outcome is the client's. *)
Theorem create_candidate_shapes_email (first_name last_name email : string)
    (phone company title : option string) (tags : option (list string)) (ctx : bool)
    (w w' : World) (c : GreenhouseClient) :
  email <> "" ->
  get_client w = (Return tt, w') ->
  client w' = Some c ->
  let data :=
    Tools.create_candidate_data first_name last_name (Some email) phone company title tags in
  let out :=
    Tools.create_candidate first_name last_name (Some email) phone company title tags ctx w in
  let ran := run_call (create_candidate data) c w' in
  dict_get "email_addresses" data
    = Some (VList [VDict [("value", VStr email); ("type", VStr "personal")]]) /\
  dict_get "first_name" data = Some (VStr first_name) /\
  dict_get "last_name" data = Some (VStr last_name) /\
  (phone = None -> dict_get "phone_numbers" data = None) /\
  dict_get "phone_numbers" data
    = (fun p => VList [VDict [("value", VStr p); ("type", VStr "mobile")]])
        <$> given truthy_str phone /\
  dict_get "company" data = VStr <$> given truthy_str company /\
  dict_get "title" data = VStr <$> given truthy_str title /\
  dict_get "tags" data = (fun t => VList (map VStr t)) <$> given truthy_list tags /\
  (forall k,
     ~ In k ["first_name"; "last_name"; "email_addresses"; "phone_numbers";
             "company"; "title"; "tags"] ->
     dict_get k data = None) /\
  List.NoDup (dict_keys data) /\
  create_candidate data = _make_request "POST" "candidates" None (Some data) /\
  fst out = fst ran /\
  client (snd out) = client (snd ran) /\
  world_net (snd out) = world_net (snd ran) /\
  wire (snd out) = wire (snd ran).
Proof.
  intros Hemail Hget Hc. cbv zeta.
  assert (Htruthy : truthy_str (Some email) = true).
  { cbn. apply negb_true_iff, String.eqb_neq, Hemail. }
  split; [|split; [|split; [|split; [|split; [|split; [|split; [|split;
    [|split; [|split; [|split]]]]]]]]]].
  - unfold Tools.create_candidate_data, Tools.candidate_fields.
    rewrite !dict_get_set_if_other by reflexivity.
    rewrite dict_get_set_if, Htruthy. reflexivity.
  - unfold Tools.create_candidate_data, Tools.candidate_fields. dict_lookup.
  - unfold Tools.create_candidate_data, Tools.candidate_fields. dict_lookup.
  - intros ->. unfold Tools.create_candidate_data, Tools.candidate_fields.
    rewrite !dict_get_set_if_other by reflexivity.
    rewrite (set_if_falsy _ _ "phone_numbers" None) by (left; reflexivity).
    rewrite dict_get_set_if_other by reflexivity. reflexivity.
  - unfold Tools.create_candidate_data, Tools.candidate_fields. cbv zeta.
    rewrite !dict_get_set_if_other by reflexivity.
    apply dict_get_set_if_same. rewrite dict_get_set_if_other by reflexivity. reflexivity.
  - unfold Tools.create_candidate_data, Tools.candidate_fields. cbv zeta.
    rewrite !dict_get_set_if_other by reflexivity.
    apply dict_get_set_if_same. rewrite !dict_get_set_if_other by reflexivity. reflexivity.
  - unfold Tools.create_candidate_data, Tools.candidate_fields. cbv zeta.
    rewrite !dict_get_set_if_other by reflexivity.
    apply dict_get_set_if_same. rewrite !dict_get_set_if_other by reflexivity. reflexivity.
  - unfold Tools.create_candidate_data, Tools.candidate_fields. cbv zeta.
    apply dict_get_set_if_same. rewrite !dict_get_set_if_other by reflexivity. reflexivity.
  - intros k Hk. unfold Tools.create_candidate_data, Tools.candidate_fields. cbv zeta.
    rewrite !dict_get_set_if_other
      by (apply String.eqb_neq; intros ->; apply Hk; cbn; tauto).
    cbn [dict_get].
    destruct (String.eqb_spec k "first_name") as [-> | _]; [exfalso; apply Hk; cbn; tauto|].
    destruct (String.eqb_spec k "last_name") as [-> | _]; [exfalso; apply Hk; cbn; tauto|].
    reflexivity.
  - unfold Tools.create_candidate_data, Tools.candidate_fields. cbv zeta.
    repeat apply set_if_nodup.
    repeat constructor; cbn; intuition discriminate.
  - reflexivity.
  - unfold Tools.create_candidate.
    pose proof (tool_forwards ctx "Failed to create candidate: {}"
                  "Created candidate: {} {}" []
                  [ArgVal (VStr first_name); ArgVal (VStr last_name)]
                  "create_candidate"
                  [("candidate_data",
                    VDict (Tools.create_candidate_data first_name last_name (Some email)
                             phone company title tags))]
                  _ _ w w' c Hget Hc eq_refl eq_refl) as (Hout & _ & Hcl & Hnet & Hwire).
    repeat split; assumption.
Qed.

Lemma create_candidate_shapes_email_witness :
  let data := Tools.create_candidate_data "Ada" "Lovelace" (Some "a@x.com")
                                          None (Some "Analytical Engines") None None in
  dict_get "email_addresses" data
    = Some (VList [VDict [("value", VStr "a@x.com"); ("type", VStr "personal")]]) /\
  dict_get "phone_numbers" data = None /\
  dict_get "company" data = Some (VStr "Analytical Engines") /\
  fst (Tools.create_candidate "Ada" "Lovelace" (Some "a@x.com") None
                              (Some "Analytical Engines") None None false keyed_world)
    = fst (run_call (create_candidate data) (fresh_client (environ keyed_world) "abc")
                    (set_client (Some (fresh_client (environ keyed_world) "abc"))
                                keyed_world)).
Proof.
  assert (Hget : get_client keyed_world
                 = (Return tt, set_client (Some (fresh_client (environ keyed_world) "abc"))
                                          keyed_world))
    by (vm_compute; reflexivity).
  assert (Hemail : "a@x.com" <> "") by discriminate.
  pose proof (create_candidate_shapes_email "Ada" "Lovelace" "a@x.com" None
                (Some "Analytical Engines") None None
                false keyed_world _ _ Hemail Hget eq_refl)
    as (Hmail & _ & _ & Hphone & _ & Hcompany & _ & _ & _ & _ & _ & Hout & _).
  cbv zeta. split; [exact Hmail|]. split; [exact (Hphone eq_refl)|].
  split; [exact Hcompany | exact Hout].
Defined.

Example create_candidate_data_sample :
  Tools.create_candidate_data "Ada" "Lovelace" (Some "a@x.com") None None None None
    = [("first_name", VStr "Ada"); ("last_name", VStr "Lovelace");
       ("email_addresses", VList [VDict [("value", VStr "a@x.com");
                                         ("type", VStr "personal")]])].
Proof. reflexivity. Qed.

(** ** Falsy arguments *)

Lemma set_if_given {A : Type} (truthy : option A -> bool) (inj : A -> value)
    (k : string) (x : option A) (d : dict) :
  set_if truthy inj k (given truthy x) d = set_if truthy inj k x d.
Proof.
  unfold given. destruct (truthy x) eqn:E; [reflexivity|].
  rewrite (set_if_falsy truthy inj k x d) by (right; exact E). reflexivity.
Qed.

Section FalsyArguments.

Variables (per_page page application_id from_stage_id candidate_id : Z).
Variables (created_before created_after status email notes : option string).
Variables (job_id candidate_filter to_stage_id : option Z).
Variables (rejection_reason_id rejection_email_id : option Z).
Variables (candidate_ids : option (list Z)).
Variables (name1 name2 : string).
Variables (first_name last_name new_email phone company title : option string).
Variables (tags : option (list string)).
Variables (ctx : bool) (w w' : World) (c : GreenhouseClient).

(** C9. Every builder of query parameters or of a request body reads its
    optional arguments through their truthiness only, so a falsy value
    gives what omission gives. In particular [list_applications] with
    [job_id=0] or [candidate_id=0] has no such parameter,
    [advance_application] with [to_stage_id=0] sends the body holding
    [from_stage_id] alone, [list_candidates] with [candidate_ids=[]] has
    no [candidate_ids], and the [update_candidate] tool with every
    optional argument unset or falsy hands the empty record to the
    client, which issues a PATCH on [candidates/{id}] with that body. *)
Theorem falsy_arguments_are_omitted :
  (list_jobs_params per_page page created_before created_after status
     = list_jobs_params per_page page (given truthy_str created_before)
         (given truthy_str created_after) (given truthy_str status) /\
   list_candidates_params per_page page created_before created_after email candidate_ids
     = list_candidates_params per_page page (given truthy_str created_before)
         (given truthy_str created_after) (given truthy_str email)
         (given truthy_list candidate_ids) /\
   list_applications_params per_page page created_before created_after job_id
                            candidate_filter status
     = list_applications_params per_page page (given truthy_str created_before)
         (given truthy_str created_after) (given truthy_int job_id)
         (given truthy_int candidate_filter) (given truthy_str status) /\
   list_users_params per_page page email
     = list_users_params per_page page (given truthy_str email) /\
   advance_application_data from_stage_id to_stage_id
     = advance_application_data from_stage_id (given truthy_int to_stage_id) /\
   reject_application_data rejection_reason_id notes rejection_email_id
     = reject_application_data (given truthy_int rejection_reason_id)
         (given truthy_str notes) (given truthy_int rejection_email_id) /\
   Tools.create_candidate_data name1 name2 new_email phone company title tags
     = Tools.create_candidate_data name1 name2 (given truthy_str new_email)
         (given truthy_str phone) (given truthy_str company) (given truthy_str title)
         (given truthy_list tags) /\
   Tools.update_candidate_data first_name last_name new_email phone company title tags
     = Tools.update_candidate_data (given truthy_str first_name)
         (given truthy_str last_name) (given truthy_str new_email)
         (given truthy_str phone) (given truthy_str company) (given truthy_str title)
         (given truthy_list tags)) /\
  (dict_get "job_id"
     (list_applications_params per_page page created_before created_after (Some 0)
                               candidate_filter status) = None /\
   dict_get "candidate_id"
     (list_applications_params per_page page created_before created_after job_id
                               (Some 0) status) = None /\
   list_applications per_page page created_before created_after (Some 0) (Some 0) status
     = list_applications per_page page created_before created_after None None status) /\
  (advance_application_data from_stage_id (Some 0) = [("from_stage_id", VInt from_stage_id)] /\
   advance_application application_id from_stage_id (Some 0)
     = advance_application application_id from_stage_id None) /\
  (dict_get "candidate_ids"
     (list_candidates_params per_page page created_before created_after email (Some []))
     = None /\
   list_candidates per_page page created_before created_after email (Some [])
     = list_candidates per_page page created_before created_after email None) /\
  (truthy_str first_name = false -> truthy_str last_name = false ->
   truthy_str new_email = false -> truthy_str phone = false ->
   truthy_str company = false -> truthy_str title = false ->
   truthy_list tags = false ->
   Tools.update_candidate_data first_name last_name new_email phone company title tags
     = [] /\
   update_candidate candidate_id []
     = _make_request "PATCH" ("candidates/" +:+ str_of_Z candidate_id) None (Some []) /\
   (get_client w = (Return tt, w') -> client w' = Some c ->
    let out := Tools.update_candidate candidate_id first_name last_name new_email phone
                                      company title tags ctx w in
    let ran := run_call (update_candidate candidate_id []) c w' in
    fst out = fst ran /\ client (snd out) = client (snd ran) /\
    world_net (snd out) = world_net (snd ran) /\ wire (snd out) = wire (snd ran))).
Proof.
  split; [|split; [|split; [|split]]].
  - unfold list_jobs_params, list_candidates_params, list_applications_params,
      list_users_params, advance_application_data, reject_application_data,
      Tools.create_candidate_data, Tools.update_candidate_data, Tools.candidate_fields.
    cbv zeta. rewrite !set_if_given. repeat split; reflexivity.
  - unfold list_applications, list_applications_params. cbv zeta.
    rewrite !(set_if_falsy truthy_int VInt _ (Some 0)) by (right; reflexivity).
    repeat split; dict_lookup.
  - repeat split; reflexivity.
  - unfold list_candidates, list_candidates_params. cbv zeta.
    rewrite !(set_if_falsy truthy_list candidate_ids_param _ (Some [])) by (right; reflexivity).
    split; dict_lookup.
  - intros Hf Hl He Hp Hco Ht Hta.
    assert (Hdata : Tools.update_candidate_data first_name last_name new_email phone
                      company title tags = []).
    { unfold Tools.update_candidate_data, Tools.candidate_fields. cbv zeta.
      rewrite !set_if_falsy by (right; assumption). reflexivity. }
    split; [exact Hdata|]. split; [reflexivity|].
    intros Hget Hc. cbv zeta. unfold Tools.update_candidate. rewrite Hdata.
    pose proof (tool_forwards ctx "Failed to update candidate {}: {}"
                  "Updated candidate ID: {}" [ArgVal (VInt candidate_id)]
                  [ArgVal (VInt candidate_id)] "update_candidate"
                  [("candidate_id", VInt candidate_id); ("candidate_data", VDict [])]
                  _ _ w w' c Hget Hc eq_refl eq_refl) as (Hout & _ & Hcl & Hnet & Hwire).
    repeat split; assumption.
Qed.

End FalsyArguments.

Lemma falsy_arguments_are_omitted_witness :
  Tools.update_candidate_data None (Some "") None None (Some "") None (Some []) = [] /\
  fst (Tools.update_candidate 42 None (Some "") None None (Some "") None (Some [])
                              false keyed_world)
    = fst (run_call (update_candidate 42 []) (fresh_client (environ keyed_world) "abc")
                    (set_client (Some (fresh_client (environ keyed_world) "abc"))
                                keyed_world)).
Proof.
  assert (Hget : get_client keyed_world
                 = (Return tt, set_client (Some (fresh_client (environ keyed_world) "abc"))
                                          keyed_world))
    by (vm_compute; reflexivity).
  pose proof (falsy_arguments_are_omitted 50 1 5 10 42 None None None None None
                (Some 0) (Some 0) (Some 0) None None (Some []) "Ada" "Lovelace"
                None (Some "") None None (Some "") None (Some [])
                false keyed_world
                (set_client (Some (fresh_client (environ keyed_world) "abc")) keyed_world)
                (fresh_client (environ keyed_world) "abc")) as (_ & _ & _ & _ & Hupd).
  destruct Hupd as (Hdata & _ & Htool); try reflexivity.
  split; [exact Hdata|].
  exact (proj1 (Htool Hget eq_refl)).
Defined.

Example advance_application_data_samples :
  advance_application_data 10 None = [("from_stage_id", VInt 10)] /\
  advance_application_data 10 (Some 0) = [("from_stage_id", VInt 10)] /\
  advance_application_data 10 (Some 20)
    = [("from_stage_id", VInt 10); ("to_stage_id", VInt 20)].
Proof. repeat split; reflexivity. Qed.

(** * Further properties *)

(** ** The limiter's counter and clock *)

(** X1. The ceiling is kept: with a counter between 0 and a positive
    ceiling, a pass of the limiter, as the code computes it, at any time
    other than the exact end of the window and in a state where its
    floating-point subtractions round nothing, leaves the counter
    between 1 and the ceiling. *)
Theorem rate_limit_keeps_ceiling (s : St) :
  0 < _rate_limit_max (self s) ->
  0 <= _request_count (self s) <= _rate_limit_max (self s) ->
  exact_floats s = true ->
  ~ (clock (net s) - _last_request_time (self s) == _rate_limit_window (self s))%Q ->
  exists s', _rate_limit_binary64 s = (Return tt, s') /\
    1 <= _request_count (self s') <= _rate_limit_max (self s') /\
    _rate_limit_max (self s') = _rate_limit_max (self s).
Proof.
  intros Hmax Hcount Hexact Hedge.
  exists (rl_state s).
  split; [rewrite (rate_limit_binary64_exact s Hexact); apply _rate_limit_returns|].
  destruct (Qlt_le_dec (_rate_limit_window (self s))
                       (clock (net s) - _last_request_time (self s))) as [Hexp | Hin].
  - rewrite rl_state_expired by assumption. cbn. lia.
  - assert (Hlt : (clock (net s) - _last_request_time (self s)
                   < _rate_limit_window (self s))%Q).
    { apply Qle_lt_or_eq in Hin. destruct Hin as [H | H]; [exact H | contradiction]. }
    destruct (Z_lt_le_dec (_request_count (self s)) (_rate_limit_max (self s)))
      as [Hroom | Hfull].
    + rewrite rl_state_room by assumption. cbn. lia.
    + rewrite rl_state_full by assumption. cbn. lia.
Qed.

Lemma rate_limit_keeps_ceiling_witness :
  exists s', _rate_limit_binary64 full_window_state = (Return tt, s') /\
    1 <= _request_count (self s') <= 50.
Proof.
  destruct (rate_limit_keeps_ceiling full_window_state) as (s' & Hrun & Hc & Hm).
  - reflexivity.
  - vm_compute. split; discriminate.
  - vm_compute. reflexivity.
  - vm_compute. discriminate.
  - exists s'. split; [exact Hrun|]. rewrite Hm in Hc. exact Hc.
Defined.

(** X2. Exactly at the end of the window the ceiling does not hold: with
    the ceiling reached, any number of passes at that instant go through
    without a sleep, each adding one to the counter, the window start
    staying where it was. *)
Theorem rate_limit_boundary_passes (k : nat) (s : St) :
  (clock (net s) - _last_request_time (self s) == _rate_limit_window (self s))%Q ->
  _rate_limit_max (self s) <= _request_count (self s) ->
  exists s', repeat_rate_limit k s = (Return tt, s') /\
    _request_count (self s') = _request_count (self s) + Z.of_nat k /\
    _last_request_time (self s') = _last_request_time (self s) /\
    net s' = net s.
Proof.
  revert s. induction k as [|k IH]; intros s Hedge Hfull.
  - exists s. cbn. repeat split; lia.
  - cbn [repeat_rate_limit].
    rewrite (bind_return _ _ _ _ _ (_rate_limit_returns s)).
    rewrite (rl_state_boundary s Hedge Hfull).
    destruct (IH (set_request_count (_request_count (self s) + 1) s)) as (s' & Hrun & Hc & Hl & Hn).
    + exact Hedge.
    + cbn. lia.
    + exists s'. split; [exact Hrun|]. cbn in Hc, Hl, Hn. repeat split; try assumption. lia.
Qed.

Lemma rate_limit_boundary_passes_witness :
  exists s', repeat_rate_limit 3 boundary_state = (Return tt, s') /\
    _request_count (self s') = 53 /\ net s' = net boundary_state.
Proof.
  destruct (rate_limit_boundary_passes 3 boundary_state) as (s' & Hrun & Hc & _ & Hn).
  - vm_compute. reflexivity.
  - vm_compute. discriminate.
  - exists s'. split; [exact Hrun|]. split; [exact Hc | exact Hn].
Defined.

Lemma repeat_rate_limit_room (k : nat) (s : St) :
  (clock (net s) - _last_request_time (self s) <= _rate_limit_window (self s))%Q ->
  _request_count (self s) + Z.of_nat k <= _rate_limit_max (self s) ->
  exists s', repeat_rate_limit k s = (Return tt, s') /\
    _request_count (self s') = _request_count (self s) + Z.of_nat k /\
    self s' = self (set_request_count (_request_count (self s) + Z.of_nat k) s) /\
    net s' = net s.
Proof.
  revert s. induction k as [|k IH]; intros s Hin Hroom.
  - exists s. cbn. rewrite Z.add_0_r. destruct s as [[] n]. repeat split; reflexivity.
  - cbn [repeat_rate_limit].
    rewrite (bind_return _ _ _ _ _ (_rate_limit_returns s)).
    rewrite (rl_state_room s Hin) by lia.
    destruct (IH (set_request_count (_request_count (self s) + 1) s))
      as (s' & Hrun & Hc & Hs & Hn).
    + exact Hin.
    + cbn. lia.
    + exists s'. split; [exact Hrun|]. cbn in Hc, Hs, Hn.
      replace (_request_count (self s) + Z.of_nat (S k))
        with (_request_count (self s) + 1 + Z.of_nat k) by lia.
      repeat split; assumption.
Qed.

(** X3. A burst inside the window: as long as the counter stays within
    the ceiling, [k] calls in a row pass the limiter without a sleep,
    the counter growing by [k] and the window start staying put. *)
Theorem rate_limit_burst (k : nat) (s : St) :
  (clock (net s) - _last_request_time (self s) <= _rate_limit_window (self s))%Q ->
  _request_count (self s) + Z.of_nat k <= _rate_limit_max (self s) ->
  exists s', repeat_rate_limit k s = (Return tt, s') /\
    _request_count (self s') = _request_count (self s) + Z.of_nat k /\
    _last_request_time (self s') = _last_request_time (self s) /\
    net s' = net s.
Proof.
  intros Hin Hroom.
  destruct (repeat_rate_limit_room k s Hin Hroom) as (s' & Hrun & Hc & Hs & Hn).
  exists s'. split; [exact Hrun|]. split; [exact Hc|].
  split; [rewrite Hs; reflexivity | exact Hn].
Qed.

Lemma rate_limit_burst_witness :
  exists s', repeat_rate_limit 47 idle_state = (Return tt, s') /\
    _request_count (self s') = 50 /\ net s' = net idle_state.
Proof.
  destruct (rate_limit_burst 47 idle_state) as (s' & Hrun & Hc & _ & Hn).
  - vm_compute. discriminate.
  - vm_compute. discriminate.
  - exists s'. split; [exact Hrun|]. split; [exact Hc | exact Hn].
Defined.

Ltac reflect_time :=
  repeat match goal with
         | H : Qlt_bool _ _ = true |- _ => apply Qlt_bool_true in H
         | H : Qlt_bool _ _ = false |- _ => apply Qlt_bool_false in H
         end.

(** X4. Time only moves forward through the limiter: when sleeps do not
    end early, the clock does not go back, the window start does not go
    back, and a window start that is not in the future stays so. *)
Theorem rate_limit_time_order (s : St) :
  (0 <= hd 0 (lags (net s)))%Q ->
  (_last_request_time (self s) <= clock (net s))%Q ->
  exists s', _rate_limit s = (Return tt, s') /\
    (clock (net s) <= clock (net s'))%Q /\
    (_last_request_time (self s) <= _last_request_time (self s'))%Q /\
    (_last_request_time (self s') <= clock (net s'))%Q.
Proof.
  intros Hlag Hpast.
  exists (rl_state s). split; [apply _rate_limit_returns|].
  destruct s as [c n]. cbn in Hlag, Hpast. run_rate_limit.
  repeat match goal with
         | |- context [if ?b then _ else _] => destruct b eqn:?; cbn
         | |- context [time_sleep ?d ?s] =>
             rewrite (time_sleep_nonneg d s) by (apply Qlt_le_weak, Qlt_bool_true; assumption); cbn
         end; reflect_time; cbn in *; repeat split; lra.
Qed.

Lemma rate_limit_time_order_witness :
  exists s', _rate_limit full_window_state = (Return tt, s') /\
    (103 <= clock (net s'))%Q /\ (_last_request_time (self s') <= clock (net s'))%Q.
Proof.
  destruct (rate_limit_time_order full_window_state) as (s' & Hrun & Hc & _ & Hl).
  - vm_compute. discriminate.
  - vm_compute. discriminate.
  - exists s'. split; [exact Hrun|]. split; [exact Hc | exact Hl].
Defined.

Lemma repeat_rate_limit_add (a b : nat) (s s' : St) :
  repeat_rate_limit a s = (Return tt, s') ->
  repeat_rate_limit (a + b) s = repeat_rate_limit b s'.
Proof.
  revert s. induction a as [|a IH]; intros s Hrun.
  - cbn in Hrun. injection Hrun as <-. reflexivity.
  - cbn [repeat_rate_limit Nat.add] in *.
    rewrite (bind_return _ _ _ _ _ (_rate_limit_returns s)) in Hrun.
    rewrite (bind_return _ _ _ _ _ (_rate_limit_returns s)).
    apply IH. exact Hrun.
Qed.

(** X5. The first window of a newly constructed client, started later
    than 10 s after the epoch: the first call opens the window at its
    arrival, up to 50 calls in a row pass without a sleep, and the 51st
    sleeps 10 s, the whole window, before it starts a new one. *)
Theorem fresh_client_first_window (environ : gmap string string) (key : string)
    (n : Net) (k : nat) :
  (10 < clock n)%Q ->
  (0 <= hd 0 (lags n))%Q ->
  let s := mkSt (fresh_client environ key) n in
  ((1 <= k <= 50)%nat ->
   exists s', repeat_rate_limit k s = (Return tt, s') /\
     _request_count (self s') = Z.of_nat k /\
     _last_request_time (self s') = clock n /\
     net s' = n) /\
  (exists s' d, repeat_rate_limit 51 s = (Return tt, s') /\
     slept (net s') = (slept n ++ [d])%list /\ (d == 10)%Q /\
     _request_count (self s') = 1 /\
     (clock n + 10 <= clock (net s'))%Q).
Proof.
  intros Hclock Hlag s.
  set (s1 := set_request_count 1 (set_last_request_time (clock n) s)).
  assert (Hfirst : _rate_limit s = (Return tt, s1)).
  { rewrite _rate_limit_returns. f_equal. apply rl_state_expired; cbn; [lia | lra]. }
  assert (Hrest : forall j, (j <= 49)%nat ->
            exists s', repeat_rate_limit j s1 = (Return tt, s') /\
              _request_count (self s') = 1 + Z.of_nat j /\
              self s' = self (set_request_count (1 + Z.of_nat j) s1) /\
              net s' = n).
  { intros j Hj. apply (repeat_rate_limit_room j s1); cbn; [lra | lia]. }
  split.
  - intros Hk. destruct k as [|j]; [lia|].
    destruct (Hrest j) as (s' & Hrun & Hc & Hs & Hn); [lia|].
    exists s'. cbn [repeat_rate_limit]. rewrite (bind_return _ _ _ _ _ Hfirst).
    split; [exact Hrun|]. split; [lia|]. split; [rewrite Hs; reflexivity | exact Hn].
  - destruct (Hrest 49%nat) as (s50 & Hrun & Hc & Hs & Hn); [lia|].
    change 51%nat with (S (49 + 1)). cbn [repeat_rate_limit].
    rewrite (bind_return _ _ _ _ _ Hfirst).
    rewrite (repeat_rate_limit_add 49 1 s1 s50 Hrun). cbn [repeat_rate_limit].
    rewrite (bind_return _ _ _ _ _ (_rate_limit_returns s50)).
    assert (Hfull : rl_state s50 = _) by
      (apply rl_state_full; rewrite ?Hs, ?Hn; cbn; [lra | lia]).
    rewrite Hfull, Hs, Hn. cbn.
    eexists _, _. split; [reflexivity|]. cbn.
    split; [reflexivity|]. split; [lra|]. split; [reflexivity | lra].
Qed.

Lemma fresh_client_first_window_witness :
  (exists s', repeat_rate_limit 50 fresh_state = (Return tt, s') /\
     _request_count (self s') = 50 /\ net s' = net fresh_state) /\
  (exists s' d, repeat_rate_limit 51 fresh_state = (Return tt, s') /\
     slept (net s') = [d] /\ (d == 10)%Q /\ _request_count (self s') = 1).
Proof.
  destruct (fresh_client_first_window ∅ "abc" (net fresh_state) 50) as (Hpass & Hwait).
  - vm_compute. reflexivity.
  - vm_compute. discriminate.
  - split.
    + destruct Hpass as (s' & Hrun & Hc & _ & Hn); [lia|].
      exists s'. split; [exact Hrun|]. split; [exact Hc | exact Hn].
    + destruct Hwait as (s' & d & Hrun & Hs & Hd & Hc & _).
      exists s', d. repeat split; assumption.
Defined.

(** ** Any call of [_make_request], whatever the server answers *)

Lemma time_sleep_frame (d : Q) (s s' : St) (r : result unit) :
  time_sleep d s = (r, s') ->
  self s' = self s /\ sent (net s') = sent (net s).
Proof.
  unfold time_sleep. destruct (Qlt_bool d 0); intros [= <- <-]; split; reflexivity.
Qed.

Lemma time_sleep_raises (d : Q) (s s' : St) (e : exn) :
  time_sleep d s = (Raise e, s') ->
  e = ValueError "sleep length must be non-negative" /\ s' = s /\ (d < 0)%Q.
Proof.
  unfold time_sleep. destruct (Qlt_bool d 0) eqn:E; [|discriminate].
  intros [= <- <-]. apply Qlt_bool_true in E. auto.
Qed.

Section AnyScript.

Variables (method endpoint : string) (params json_data : option dict).

Local Abbreviation call depth :=
  (_make_request_in depth method endpoint params json_data).
Local Abbreviation tried := (attempt method endpoint params json_data).
Local Abbreviation req_of := (fun c => request_of c method endpoint params json_data).

Lemma tried_request (s : St) :
  req_of (self (tried s)) = req_of (self s) /\
  api_key (self (tried s)) = api_key (self s) /\
  base_url (self (tried s)) = base_url (self s) /\
  headers (self (tried s)) = headers (self s) /\
  _rate_limit_window (self (tried s)) = _rate_limit_window (self s) /\
  _rate_limit_max (self (tried s)) = _rate_limit_max (self s).
Proof.
  destruct (tried_frame method endpoint params json_data s) as (Hself & _).
  destruct (rl_state_frame s) as (Hk & Hu & Hh & Hw & Hm & _).
  rewrite Hself. unfold request_of. rewrite Hk, Hu, Hh, Hw, Hm. repeat split; reflexivity.
Qed.

(** The requests of one call and what it leaves of the client. *)
Lemma make_request_in_trace (depth : nat) (wire : list httpx.Response) (s : St) :
  exists k,
    sent (net (snd (fst (call depth wire s)))) =
      (sent (net s) ++ repeat (req_of (self s)) (S k))%list /\
    (length wire = (length (snd (call depth wire s)) + S k)%nat \/
     (fst (fst (call depth wire s)) = Raise ConnectError /\ snd (call depth wire s) = [] /\
      length wire = k)) /\
    api_key (self (snd (fst (call depth wire s)))) = api_key (self s) /\
    base_url (self (snd (fst (call depth wire s)))) = base_url (self s) /\
    headers (self (snd (fst (call depth wire s)))) = headers (self s) /\
    _rate_limit_window (self (snd (fst (call depth wire s)))) = _rate_limit_window (self s) /\
    _rate_limit_max (self (snd (fst (call depth wire s)))) = _rate_limit_max (self s).
Proof.
  revert depth s. induction wire as [|response wire IH]; intros depth s.
  - rewrite make_request_in_no_response. cbn [fst snd].
    destruct (tried_frame method endpoint params json_data s) as (_ & Hsent & _).
    destruct (tried_request s) as (_ & Hk & Hu & Hh & Hw & Hm).
    exists 0%nat. rewrite Hsent. repeat split; auto.
  - assert (Hstop : forall out, exists k,
              sent (net (snd (fst (out, tried s, wire)))) =
                (sent (net s) ++ repeat (req_of (self s)) (S k))%list /\
              (length (response :: wire)
                 = (length (snd (out : result value, tried s, wire)) + S k)%nat \/
               (fst (fst (out, tried s, wire)) = Raise ConnectError /\
                snd (out, tried s, wire) = [] /\ length (response :: wire) = k)) /\
              api_key (self (snd (fst (out, tried s, wire)))) = api_key (self s) /\
              base_url (self (snd (fst (out, tried s, wire)))) = base_url (self s) /\
              headers (self (snd (fst (out, tried s, wire)))) = headers (self s) /\
              _rate_limit_window (self (snd (fst (out, tried s, wire))))
                = _rate_limit_window (self s) /\
              _rate_limit_max (self (snd (fst (out, tried s, wire))))
                = _rate_limit_max (self s)).
    { intros out. cbn [fst snd].
      destruct (tried_frame method endpoint params json_data s) as (_ & Hsent & _).
      destruct (tried_request s) as (_ & Hk & Hu & Hh & Hw & Hm).
      exists 0%nat. rewrite Hsent. cbn [length]. repeat split; auto. left. lia. }
    rewrite make_request_in_response.
    destruct (httpx.status_code response =? 429).
    + destruct (retry_after_of response) as [d|e]; [|apply Hstop].
      destruct (time_sleep (inject_Z d) (tried s)) as [[[]|e] s2] eqn:Hsleep.
      * destruct (time_sleep_frame _ _ _ _ Hsleep) as (Hself2 & Hsent2).
        destruct (tried_frame method endpoint params json_data s) as (_ & Hsent & _).
        destruct (tried_request s) as (Hreq & Hk1 & Hu1 & Hh1 & Hw1 & Hm1).
        destruct depth as [|depth].
        { exists 0%nat. cbn [fst snd length]. rewrite Hself2, Hsent2, Hsent.
          repeat split; auto. left. lia. }
        destruct (IH depth s2) as (k & Hs & Hlen & Hk & Hu & Hh & Hw & Hm).
        exists (S k). rewrite Hs, Hk, Hu, Hh, Hw, Hm, Hself2, Hsent2, Hsent.
        rewrite Hreq, Hk1, Hu1, Hh1, Hw1, Hm1.
        split; [rewrite <- app_assoc; reflexivity|].
        split; [|repeat split; reflexivity].
        cbn [length]. destruct Hlen as [Hlen | (Hout & Hrest & Hlen)].
        -- left. lia.
        -- right. repeat split; auto.
      * destruct (time_sleep_raises _ _ _ _ Hsleep) as (_ & -> & _). apply Hstop.
    + destruct (raise_for_status response); [|apply Hstop].
      destruct (httpx.status_code response =? 204); [apply Hstop|].
      destruct (httpx.resp_json response); apply Hstop.
Qed.

(** The same of the call as the client makes it. *)
Lemma make_request_trace (wire : list httpx.Response) (s : St) :
  exists k,
    sent (net (snd (fst (_make_request method endpoint params json_data wire s)))) =
      (sent (net s) ++ repeat (req_of (self s)) (S k))%list /\
    (length wire
       = (length (snd (_make_request method endpoint params json_data wire s)) + S k)%nat \/
     (fst (fst (_make_request method endpoint params json_data wire s)) = Raise ConnectError /\
      snd (_make_request method endpoint params json_data wire s) = [] /\
      length wire = k)) /\
    api_key (self (snd (fst (_make_request method endpoint params json_data wire s))))
      = api_key (self s) /\
    base_url (self (snd (fst (_make_request method endpoint params json_data wire s))))
      = base_url (self s) /\
    headers (self (snd (fst (_make_request method endpoint params json_data wire s))))
      = headers (self s) /\
    _rate_limit_window (self (snd (fst (_make_request method endpoint params json_data wire s))))
      = _rate_limit_window (self s) /\
    _rate_limit_max (self (snd (fst (_make_request method endpoint params json_data wire s))))
      = _rate_limit_max (self s).
Proof. apply make_request_in_trace. Qed.

End AnyScript.


(** X7. A call leaves the client's configuration alone: key, base URL,
    headers, window length and ceiling are after the call what they were
    before it, for every script and outcome. *)
Theorem call_keeps_configuration (method endpoint : string)
    (params json_data : option dict) (wire : list httpx.Response) (s : St) :
  exists out s' rest,
    _make_request method endpoint params json_data wire s = (out, s', rest) /\
    api_key (self s') = api_key (self s) /\
    base_url (self s') = base_url (self s) /\
    headers (self s') = headers (self s) /\
    _rate_limit_window (self s') = _rate_limit_window (self s) /\
    _rate_limit_max (self s') = _rate_limit_max (self s).
Proof.
  unfold _make_request.
  destruct (make_request_in_trace method endpoint params json_data (frames (net s)) wire s)
    as (k & _ & _ & Hconf).
  destruct (_make_request_in (frames (net s)) method endpoint params json_data wire s)
    as [[out s'] rest].
  exists out, s', rest. cbn [fst snd] in *. auto.
Qed.



(** ** How long a call takes *)

Lemma lags_head_tail (lags : list Q) :
  Forall (Qle 0) lags -> (0 <= hd 0 lags)%Q /\ Forall (Qle 0) (tl lags).
Proof. intros [|x l Hx Hl]; cbn; split; try lra; auto. Qed.

Lemma rl_state_forward (s : St) :
  Forall (Qle 0) (lags (net s)) ->
  (clock (net s) <= clock (net (rl_state s)))%Q /\
  Forall (Qle 0) (lags (net (rl_state s))).
Proof.
  intros Hlags. destruct (lags_head_tail _ Hlags) as (Hhd & Htl).
  destruct s as [c n]. cbn in Hlags, Hhd, Htl. run_rate_limit.
  repeat match goal with
         | |- context [if ?b then _ else _] => destruct b eqn:?; cbn
         | |- context [time_sleep ?d ?s] =>
             rewrite (time_sleep_nonneg d s) by (apply Qlt_le_weak, Qlt_bool_true; assumption); cbn
         end; reflect_time; cbn in *; split; solve [lra | assumption].
Qed.

Lemma retried_forward (method endpoint : string) (params json_data : option dict)
    (ds : list Z) (s : St) :
  Forall (fun d => 0 <= d) ds ->
  Forall (Qle 0) (lags (net s)) ->
  (clock (net s) + inject_Z (fold_right Z.add 0%Z ds)
   <= clock (net (retried method endpoint params json_data ds s)))%Q /\
  Forall (Qle 0) (lags (net (retried method endpoint params json_data ds s))).
Proof.
  intros Hds. revert s. induction Hds as [|d ds Hd _ IH]; intros s Hlags.
  - cbn [retried fold_right]. change (inject_Z 0) with 0%Q. split; [lra | assumption].
  - cbn [retried fold_right].
    destruct (rl_state_forward s Hlags) as (Hclk & Hlags1).
    destruct (tried_frame method endpoint params json_data s)
      as (_ & _ & _ & Hclock & Hlagsq).
    destruct (asleep_frame (inject_Z d) (attempt method endpoint params json_data s)
                (inject_Z_nonneg d Hd)) as (_ & _ & _ & Hclock1 & Hlags2).
    rewrite Hclock, Hlagsq in Hclock1. rewrite Hlagsq in Hlags2.
    destruct (lags_head_tail _ Hlags1) as (Hhd & Htl).
    destruct (IH (asleep (inject_Z d) (attempt method endpoint params json_data s)))
      as (IHclk & IHlags).
    + rewrite Hlags2. exact Htl.
    + split; [|exact IHlags].
      rewrite Hclock1 in IHclk. rewrite inject_Z_plus. lra.
Qed.

(** X9. A call lasts at least as long as the server told it to wait:
    after usable 429s with lengths [ds] that the interpreter has room to
    nest, and a final response, and with sleeps that do not end early,
    the clock has moved on by at least the sum of [ds]. *)
Theorem call_lasts_at_least_the_waits (method endpoint : string)
    (params json_data : option dict) (rs : list httpx.Response) (ds : list Z)
    (final : httpx.Response) (wire : list httpx.Response) (s : St) :
  Forall2 usable_429 rs ds ->
  httpx.status_code final <> 429 ->
  (length rs <= frames (net s))%nat ->
  Forall (Qle 0) (lags (net s)) ->
  exists out s',
    _make_request method endpoint params json_data (rs ++ final :: wire) s
      = (out, s', wire) /\
    (clock (net s) + inject_Z (fold_right Z.add 0%Z ds) <= clock (net s'))%Q.
Proof.
  intros Hrs Hfinal Hroom Hlags.
  destruct (make_request_chain method endpoint params json_data rs ds final wire s
              Hrs Hfinal Hroom) as (out & Hcall).
  exists out, (attempt method endpoint params json_data
                 (retried method endpoint params json_data ds s)).
  split; [exact Hcall|].
  destruct (retried_forward method endpoint params json_data ds s
              (usable_429_nonneg rs ds Hrs) Hlags) as (Hclk & Hlags').
  destruct (tried_frame method endpoint params json_data
              (retried method endpoint params json_data ds s)) as (_ & _ & _ & Hclock & _).
  destruct (rl_state_forward _ Hlags') as (Hfwd & _).
  rewrite Hclock. lra.
Qed.

Lemma call_lasts_at_least_the_waits_witness :
  exists out s',
    _make_request "GET" "jobs" None None [too_many_2; too_many_plain; ok_empty_list]
                  idle_state = (out, s', []) /\
    (103 + 12 <= clock (net s'))%Q.
Proof.
  destruct (call_lasts_at_least_the_waits "GET" "jobs" None None
              [too_many_2; too_many_plain] [2; 10] ok_empty_list [] idle_state)
    as (out & s' & Hcall & Hclk).
  - repeat constructor; try (vm_compute; reflexivity); vm_compute; discriminate.
  - vm_compute. discriminate.
  - apply Nat.leb_le. vm_compute. reflexivity.
  - constructor.
  - exists out, s'. split; [exact Hcall | exact Hclk].
Defined.

(** ** Where an outcome comes from *)

(** X10. A returned value is always the server's: when a call returns
    [v], the responses it read are 429s followed by one 2xx response, and
    [v] is the empty record if that response is a 204 and its parsed
    body otherwise. No value comes out of an error status, a 429, or a
    failed connection. *)
Theorem returned_value_is_from_success (method endpoint : string)
    (params json_data : option dict) (wire : list httpx.Response) (s s' : St)
    (rest : list httpx.Response) (v : value) :
  _make_request method endpoint params json_data wire s = (Return v, s', rest) ->
  exists rs final,
    wire = (rs ++ final :: rest)%list /\
    Forall (fun r => httpx.status_code r = 429) rs /\
    200 <= httpx.status_code final <= 299 /\
    ((httpx.status_code final = 204 /\ v = VDict []) \/
     (httpx.status_code final <> 204 /\ httpx.resp_json final = Some v)).
Proof.
  unfold _make_request. generalize (frames (net s)) as depth. revert s.
  induction wire as [|response wire IH]; intros s depth H.
  - rewrite make_request_in_no_response in H. discriminate.
  - rewrite make_request_in_response in H.
    destruct (Z.eqb_spec (httpx.status_code response) 429) as [H429 | Hne].
    + destruct (retry_after_of response) as [d|e]; [|discriminate].
      destruct (time_sleep (inject_Z d) _) as [[[]|e] s2]; [|discriminate].
      destruct depth as [|depth]; [discriminate|].
      destruct (IH s2 depth H) as (rs & final & -> & Hrs & Hok & Hv).
      exists (response :: rs), final. repeat split; auto; lia.
    + unfold raise_for_status, httpx.is_success in H.
      destruct (Z.leb_spec 200 (httpx.status_code response)); cbn in H; [|discriminate].
      destruct (Z.leb_spec (httpx.status_code response) 299); cbn in H; [|discriminate].
      destruct (Z.eqb_spec (httpx.status_code response) 204) as [H204 | Hn204].
      * injection H as <- <- <-. exists [], response. repeat split; auto.
      * destruct (httpx.resp_json response) as [v'|] eqn:Hjson; [|discriminate].
        injection H as <- <- <-. exists [], response. repeat split; auto.
Qed.

Lemma returned_value_is_from_success_witness :
  exists rs final,
    [too_many_2; ok_empty_list] = (rs ++ [final])%list /\
    Forall (fun r => httpx.status_code r = 429) rs /\
    200 <= httpx.status_code final <= 299.
Proof.
  destruct (returned_value_is_from_success "GET" "jobs" None None
              [too_many_2; ok_empty_list] idle_state
              (snd (fst (_make_request "GET" "jobs" None None
                                       [too_many_2; ok_empty_list] idle_state)))
              [] (VList []))
    as (rs & final & Hwire & Hrs & Hok & _).
  - vm_compute. reflexivity.
  - exists rs, final. repeat split; assumption || apply Hok.
Defined.

(** X11. A status error names the response that caused it: when a call
    raises [HTTPStatusError] carrying [r], the responses read before [r]
    were all 429s, [r] is the first one that is not, its status is
    outside 2xx, and nothing after it was read. *)
Theorem status_error_names_its_response (method endpoint : string)
    (params json_data : option dict) (wire : list httpx.Response) (s s' : St)
    (rest : list httpx.Response) (r : httpx.Response) :
  _make_request method endpoint params json_data wire s
    = (Raise (HTTPStatusError r), s', rest) ->
  exists rs,
    wire = (rs ++ r :: rest)%list /\
    Forall (fun r' => httpx.status_code r' = 429) rs /\
    httpx.status_code r <> 429 /\
    httpx.is_success r = false.
Proof.
  unfold _make_request. generalize (frames (net s)) as depth. revert s.
  induction wire as [|response wire IH]; intros s depth H.
  - rewrite make_request_in_no_response in H. discriminate.
  - rewrite make_request_in_response in H.
    destruct (Z.eqb_spec (httpx.status_code response) 429) as [H429 | Hne].
    + unfold retry_after_of in H.
      destruct (httpx.resp_headers response !! "retry-after") as [hv|].
      * destruct (py_int hv) as [d|]; [|discriminate].
        destruct (time_sleep (inject_Z d) _) as [[[]|e] s2] eqn:Hsleep.
        -- destruct depth as [|depth]; [discriminate|].
           destruct (IH s2 depth H) as (rs & -> & Hrs & Hr).
           exists (response :: rs). repeat split; auto; apply Hr.
        -- destruct (time_sleep_raises _ _ _ _ Hsleep) as (-> & _). discriminate.
      * destruct (time_sleep (inject_Z 10) _) as [[[]|e] s2] eqn:Hsleep.
        -- destruct depth as [|depth]; [discriminate|].
           destruct (IH s2 depth H) as (rs & -> & Hrs & Hr).
           exists (response :: rs). repeat split; auto; apply Hr.
        -- destruct (time_sleep_raises _ _ _ _ Hsleep) as (-> & _). discriminate.
    + unfold raise_for_status in H.
      destruct (httpx.is_success response) eqn:Hok.
      * destruct (httpx.status_code response =? 204); [discriminate|].
        destruct (httpx.resp_json response); discriminate.
      * injection H as <- <- <-. exists []. repeat split; auto.
Qed.

Lemma status_error_names_its_response_witness :
  exists rs,
    [too_many_2; not_found; ok_empty_list] = (rs ++ [not_found; ok_empty_list])%list /\
    Forall (fun r' => httpx.status_code r' = 429) rs.
Proof.
  destruct (status_error_names_its_response "GET" "jobs/7" None None
              [too_many_2; not_found; ok_empty_list] idle_state
              (snd (fst (_make_request "GET" "jobs/7" None None
                                       [too_many_2; not_found; ok_empty_list] idle_state)))
              [ok_empty_list] not_found)
    as (rs & Hwire & Hrs & _).
  - vm_compute. reflexivity.
  - exists rs. split; assumption.
Defined.

(** ** Requests tell calls apart *)

Lemma append_inj_l (p x y : string) : p +:+ x = p +:+ y -> x = y.
Proof. induction p as [|c p IH]; simpl; [auto | intros [= H]; auto]. Qed.

Lemma append_length (x y : string) :
  String.length (x +:+ y) = (String.length x + String.length y)%nat.
Proof. induction x as [|c x IH]; simpl; [reflexivity | rewrite IH; reflexivity]. Qed.

Lemma append_inj_r (x y suffix : string) : x +:+ suffix = y +:+ suffix -> x = y.
Proof.
  revert y. induction x as [|c x IH]; intros [|c' y] H.
  - reflexivity.
  - apply (f_equal String.length) in H. rewrite !append_length in H. simpl in H. lia.
  - apply (f_equal String.length) in H. rewrite !append_length in H. simpl in H. lia.
  - simpl in H. injection H as -> H. f_equal. apply IH, H.
Qed.

Lemma str_of_Z_inj (a b : Z) : str_of_Z a = str_of_Z b -> a = b.
Proof.
  intros H. apply (f_equal (fun t => int_ascii (list_ascii_of_string t))) in H.
  rewrite !int_ascii_str_of_Z in H. injection H as ->. reflexivity.
Qed.

(** Two calls that do the same on one script and state have the same
    method, endpoint, params and body. *)
Lemma same_call_same_arguments (method method' endpoint endpoint' : string)
    (params params' json_data json_data' : option dict)
    (wire : list httpx.Response) (s : St) :
  _make_request method endpoint params json_data wire s
    = _make_request method' endpoint' params' json_data' wire s ->
  method = method' /\ endpoint = endpoint' /\ params = params' /\ json_data = json_data'.
Proof.
  unfold _make_request. intros H.
  destruct (make_request_in_trace method endpoint params json_data (frames (net s)) wire s)
    as (k & Hs & _).
  destruct (make_request_in_trace method' endpoint' params' json_data' (frames (net s)) wire s)
    as (k' & Hs' & _).
  rewrite H, Hs' in Hs. apply app_inv_head in Hs. cbn [repeat] in Hs.
  injection Hs as Hmethod Hurl Hparams Hjson _.
  apply append_inj_l, append_inj_l in Hurl. auto.
Qed.

(** X12. Identifiers are never confused: two calls of a by-id method
    that do the same on some script and state were made for the same
    identifier. This holds for reading a job, a candidate or an
    application, for updating a candidate, for advancing or rejecting an
    application and for both kinds of notes. *)
Theorem by_id_calls_tell_ids_apart (a b : Z) (wire : list httpx.Response) (s : St) :
  (get_job a wire s = get_job b wire s -> a = b) /\
  (get_candidate a wire s = get_candidate b wire s -> a = b) /\
  (get_application a wire s = get_application b wire s -> a = b) /\
  (forall data, update_candidate a data wire s = update_candidate b data wire s -> a = b) /\
  (forall f t, advance_application a f t wire s = advance_application b f t wire s
               -> a = b) /\
  (forall r n m, reject_application a r n m wire s = reject_application b r n m wire s
                 -> a = b) /\
  (forall body v, add_note_to_candidate a body v wire s
                  = add_note_to_candidate b body v wire s -> a = b) /\
  (forall body v, add_note_to_application a body v wire s
                  = add_note_to_application b body v wire s -> a = b).
Proof.
  repeat split; intros;
    match goal with
    | H : _ = _ |- _ =>
        apply same_call_same_arguments in H; destruct H as (_ & Hpath & _)
    end;
    repeat (apply append_inj_l in Hpath || apply append_inj_r in Hpath);
    apply str_of_Z_inj, Hpath.
Qed.

Lemma by_id_calls_tell_ids_apart_witness :
  get_job 7 [not_found] idle_state <> get_job 8 [not_found] idle_state.
Proof.
  intros H. apply (proj1 (by_id_calls_tell_ids_apart 7 8 [not_found] idle_state)) in H.
  discriminate H.
Defined.

(** ** The [candidate_ids] parameter *)

Lemma chars_app (a b : string) :
  list_ascii_of_string (a +:+ b) = (list_ascii_of_string a ++ list_ascii_of_string b)%list.
Proof. induction a as [|c a IH]; simpl; [reflexivity | rewrite IH; reflexivity]. Qed.

Lemma split_commas_piece (a : list ascii) :
  Forall (fun c => Ascii.eqb c "," = false) a -> split_commas a = [a].
Proof.
  induction 1 as [|c a Hc _ IH]; [reflexivity|].
  cbn [split_commas]. rewrite Hc, IH. reflexivity.
Qed.

Lemma split_commas_app (a b : list ascii) :
  Forall (fun c => Ascii.eqb c "," = false) a ->
  split_commas (a ++ ","%char :: b) = a :: split_commas b.
Proof.
  induction 1 as [|c a Hc _ IH]; [reflexivity|].
  cbn [split_commas app]. rewrite Hc, IH. reflexivity.
Qed.

Lemma uint_chars_no_comma (d : Decimal.uint) :
  Forall (fun c => Ascii.eqb c "," = false)
         (list_ascii_of_string (NilEmpty.string_of_uint d)).
Proof.
  induction d as [|d IH|d IH|d IH|d IH|d IH|d IH|d IH|d IH|d IH|d IH];
    cbn [NilEmpty.string_of_uint list_ascii_of_string]; constructor;
    solve [reflexivity | exact IH].
Qed.

Lemma str_of_Z_no_comma (n : Z) :
  Forall (fun c => Ascii.eqb c "," = false) (list_ascii_of_string (str_of_Z n)).
Proof.
  destruct n as [|p|p]; unfold str_of_Z; cbn [Z.to_int NilZero.string_of_int].
  - repeat constructor.
  - pose proof (DecimalPos.Unsigned.to_uint_nonnil p) as Hnil.
    destruct (Pos.to_uint p) eqn:E; [contradiction | rewrite <- E ..];
      unfold NilZero.string_of_uint; rewrite E; rewrite <- E; apply uint_chars_no_comma.
  - pose proof (DecimalPos.Unsigned.to_uint_nonnil p) as Hnil.
    cbn [list_ascii_of_string]. constructor; [reflexivity|].
    destruct (Pos.to_uint p) eqn:E; [contradiction | rewrite <- E ..];
      unfold NilZero.string_of_uint; rewrite E; rewrite <- E; apply uint_chars_no_comma.
Qed.

Lemma read_joined_ids (x : Z) (l : list Z) :
  read_candidate_ids (join "," (map str_of_Z (x :: l))) = map Some (x :: l).
Proof.
  revert x. induction l as [|y l IH]; intros x.
  - unfold read_candidate_ids. cbn [map join].
    rewrite (split_commas_piece _ (str_of_Z_no_comma x)). cbn [map].
    rewrite int_ascii_str_of_Z. reflexivity.
  - unfold read_candidate_ids in *. specialize (IH y).
    change (join "," (map str_of_Z (x :: y :: l)))
      with (str_of_Z x +:+ "," +:+ join "," (map str_of_Z (y :: l))).
    rewrite chars_app. change (list_ascii_of_string ("," +:+ ?r)) with
      (","%char :: list_ascii_of_string r).
    rewrite (split_commas_app _ _ (str_of_Z_no_comma x)). cbn [map].
    rewrite int_ascii_str_of_Z.
    f_equal. exact IH.
Qed.

(** X13. The comma-joined [candidate_ids] can be read back: for a list
    that is not empty, the parameter is a string whose pieces between
    the commas, read as integers, are the identifiers in their order;
    hence different lists give different parameters. *)
Theorem candidate_ids_read_back (ids ids' : list Z) :
  ids <> [] ->
  exists s, candidate_ids_param ids = VStr s /\
    read_candidate_ids s = map Some ids /\
    (ids' <> [] -> candidate_ids_param ids = candidate_ids_param ids' -> ids = ids').
Proof.
  intros Hne. destruct ids as [|x l]; [contradiction|].
  exists (join "," (map str_of_Z (x :: l))). split; [reflexivity|].
  split; [apply read_joined_ids|].
  intros Hne' Heq. destruct ids' as [|x' l']; [contradiction|].
  assert (Hjoin : join "," (map str_of_Z (x :: l)) = join "," (map str_of_Z (x' :: l')))
    by (unfold candidate_ids_param in Heq; injection Heq as H0; exact H0).
  apply (f_equal read_candidate_ids) in Hjoin. rewrite !read_joined_ids in Hjoin.
  revert Hjoin. generalize (x :: l) (x' :: l'). clear.
  induction l as [|a l IH]; intros [|b k] H; try discriminate; [reflexivity|].
  cbn in H. injection H as -> H. f_equal. apply IH, H.
Qed.

Lemma candidate_ids_read_back_witness :
  exists s, candidate_ids_param [1; 22; -3] = VStr s /\
    read_candidate_ids s = [Some 1; Some 22; Some (-3)].
Proof.
  destruct (candidate_ids_read_back [1; 22; -3] []) as (s & Hs & Hread & _).
  - discriminate.
  - exists s. split; [exact Hs | exact Hread].
Defined.

(** ** Supplied filters *)

Lemma truthy_str_nonempty (v : string) : v <> "" -> truthy_str (Some v) = true.
Proof. intros H. cbn. apply negb_true_iff, String.eqb_neq, H. Qed.

Lemma truthy_int_nonzero (z : Z) : z <> 0 -> truthy_int (Some z) = true.
Proof. intros H. cbn. apply negb_true_iff, Z.eqb_neq, H. Qed.

Ltac lookup_supplied H :=
  rewrite ?dict_get_set_if_other by reflexivity;
  rewrite dict_get_set_if, H; reflexivity.

Section SuppliedFilters.

Variables (per_page page : Z).
Variables (created_before created_after status email : option string).
Variables (job_id candidate_id : option Z) (candidate_ids : option (list Z)).

Local Abbreviation jobs :=
  (list_jobs_params per_page page created_before created_after status).
Local Abbreviation candidates :=
  (list_candidates_params per_page page created_before created_after email candidate_ids).
Local Abbreviation applications :=
  (list_applications_params per_page page created_before created_after job_id
                            candidate_id status).
Local Abbreviation users := (list_users_params per_page page email).

(** X14. A filter the caller supplied with a truthy value reaches the
    query parameters under its own name and with its value as given
    (the identifiers of [candidate_ids] joined by commas), whatever the
    other filters are. *)
Theorem supplied_filters_are_forwarded (v : string) (z x : Z) (ids : list Z) :
  v <> "" -> z <> 0 ->
  (created_before = Some v ->
   dict_get "created_before" jobs = Some (VStr v) /\
   dict_get "created_before" candidates = Some (VStr v) /\
   dict_get "created_before" applications = Some (VStr v)) /\
  (created_after = Some v ->
   dict_get "created_after" jobs = Some (VStr v) /\
   dict_get "created_after" candidates = Some (VStr v) /\
   dict_get "created_after" applications = Some (VStr v)) /\
  (status = Some v ->
   dict_get "status" jobs = Some (VStr v) /\
   dict_get "status" applications = Some (VStr v)) /\
  (email = Some v ->
   dict_get "email" candidates = Some (VStr v) /\
   dict_get "email" users = Some (VStr v)) /\
  (job_id = Some z -> dict_get "job_id" applications = Some (VInt z)) /\
  (candidate_id = Some z -> dict_get "candidate_id" applications = Some (VInt z)) /\
  (candidate_ids = Some (x :: ids) ->
   dict_get "candidate_ids" candidates
     = Some (VStr (join "," (map str_of_Z (x :: ids))))).
Proof.
  intros Hv Hz.
  pose proof (truthy_str_nonempty v Hv) as Hs.
  pose proof (truthy_int_nonzero z Hz) as Hi.
  assert (Hl : truthy_list (Some (x :: ids)) = true) by reflexivity.
  unfold list_jobs_params, list_candidates_params, list_applications_params,
    list_users_params. cbv zeta.
  repeat match goal with |- _ /\ _ => split end; intros ->;
    repeat match goal with |- _ /\ _ => split end;
    first [lookup_supplied Hs | lookup_supplied Hi | lookup_supplied Hl].
Qed.

End SuppliedFilters.

Lemma supplied_filters_are_forwarded_witness :
  dict_get "status" (list_jobs_params 50 1 None None (Some "open")) = Some (VStr "open") /\
  dict_get "job_id" (list_applications_params 50 1 None None (Some 7) None (Some "open"))
    = Some (VInt 7).
Proof.
  pose proof (supplied_filters_are_forwarded 50 1 None None (Some "open") None (Some 7) None
                None "open" 7 0 []) as H.
  destruct H as (_ & _ & Hst & _ & Hjob & _); [discriminate | lia |].
  split; [exact (proj1 (Hst eq_refl)) | exact (Hjob eq_refl)].
Defined.

(** ** All seventeen tools *)

Lemma ints_of_enc (l : list Z) : ints_of (map VInt l) = Some l.
Proof. induction l as [|z l IH]; cbn; [reflexivity | rewrite IH; reflexivity]. Qed.

Lemma arg_opt_ints_enc (kw : dict) (k : string) (ids : option (list Z)) :
  dict_get k kw = Some (enc_opt_ints ids) -> arg_opt_ints kw k = Return ids.
Proof.
  intros H. unfold arg_opt_ints. rewrite H.
  destruct ids as [l|]; cbn; [rewrite ints_of_enc|]; reflexivity.
Qed.

(** Every tool is an instance of the template; its method is in the
    client's table and binds the tool's arguments to the call the tool
    stands for, or, for the job-stage tools, is in no table. *)
Lemma run_tool_shape (tc : tool_call) (ctx : bool) :
  exists fail_template fail_args name kwargs info_template info_args,
    run_tool tc ctx
      = tool_template ctx fail_template fail_args name kwargs info_template info_args /\
    (reports_length tc = true -> info_args = len_arg) /\
    match forwarded_call tc with
    | Some call =>
        exists bind_args, dict_get name GreenhouseClient_methods = Some bind_args /\
                          bind_args kwargs = Return call
    | None =>
        dict_get name GreenhouseClient_methods = None /\
        existsb (String.eqb name) GreenhouseClient_other_attrs = false
    end.
Proof.
  destruct tc; cbn [run_tool forwarded_call reports_length];
    do 6 eexists; (split; [reflexivity|]); (split; [try discriminate; reflexivity|]);
    try (split; reflexivity);
    eexists; (split; [reflexivity|]);
    repeat match goal with
           | o : option _ |- _ => destruct o
           end; cbn; rewrite ?ints_of_enc; reflexivity.
Qed.

Lemma tool_template_run (ctx : bool) (fail_template : string) (fail_args : list log_arg)
    (name : string) (kwargs : dict) (info_template : string)
    (info_args : value -> result (list log_arg)) (w : World) :
  tool_template ctx fail_template fail_args name kwargs info_template info_args w =
    let failed e w' :=
      (Raise e,
       if ctx then log (CtxError fail_template (fail_args ++ [ArgExn e])%list) w' else w') in
    match get_client w with
    | (Raise e, w1) => failed e w1
    | (Return _, w1) =>
        match call_method name kwargs w1 with
        | (Raise e, w2) => failed e w2
        | (Return v, w2) =>
            if ctx then
              match info_args v with
              | Return a => (Return v, log (CtxInfo info_template a) w2)
              | Raise e => failed e w2
              end
            else (Return v, w2)
        end
    end.
Proof.
  unfold tool_template, try_except, mbind, M_bind, ctx_info.
  destruct (get_client w) as [[[]|e] w1]; [|reflexivity].
  destruct (call_method name kwargs w1) as [[v|e] w2]; [|reflexivity].
  destruct ctx; [|reflexivity].
  destruct (info_args v); reflexivity.
Qed.

Lemma get_client_frame (w w1 : World) (r : result unit) :
  get_client w = (r, w1) ->
  environ w1 = environ w /\ world_net w1 = world_net w /\ wire w1 = wire w /\
  ctx_log w1 = ctx_log w /\ (is_return r = false -> w1 = w).
Proof.
  unfold get_client. destruct (client w).
  - intros [= <- <-]. repeat split; reflexivity || discriminate.
  - destruct (negb _); [intros [= <- <-]; repeat split; reflexivity|].
    destruct (__init__ _ _); intros [= <- <-]; repeat split; reflexivity || discriminate.
Qed.

Lemma run_call_frame (call : Call value) (c : GreenhouseClient) (w : World) :
  environ (snd (run_call call c w)) = environ w /\
  ctx_log (snd (run_call call c w)) = ctx_log w /\
  exists c', client (snd (run_call call c w)) = Some c'.
Proof.
  unfold run_call. destruct (call _ _) as [[r s] wire']. cbn. eauto.
Qed.

Lemma call_method_frame (name : string) (kwargs : dict) (w : World) :
  environ (snd (call_method name kwargs w)) = environ w /\
  ctx_log (snd (call_method name kwargs w)) = ctx_log w.
Proof.
  unfold call_method. destruct (client w) as [c|]; [|auto].
  destruct (dict_get name GreenhouseClient_methods) as [bind_args|].
  - destruct (bind_args kwargs); [|auto].
    destruct (run_call_frame a c w) as (He & Hl & _). auto.
  - destruct (existsb _ _); auto.
Qed.

(** X15. Each tool tells its context once: without a context the log is
    left alone, and with one exactly one message is added, an info
    message if the tool returns and an error message if it raises. This
    holds for all seventeen tools, in every world. *)
Theorem tools_log_once (tc : tool_call) (w : World) :
  ctx_log (snd (run_tool tc false w)) = ctx_log w /\
  exists ev,
    ctx_log (snd (run_tool tc true w)) = (ctx_log w ++ [ev])%list /\
    is_info ev = is_return (fst (run_tool tc true w)).
Proof.
  split.
  - destruct (run_tool_shape tc false) as (ft & fa & name & kw & it & ia & -> & _).
    rewrite tool_template_run. cbv zeta.
    destruct (get_client w) as [[[]|e] w1] eqn:Hget;
      destruct (get_client_frame _ _ _ Hget) as (_ & _ & _ & Hlog & _); [|exact Hlog].
    pose proof (call_method_frame name kw w1) as (_ & Hlog2).
    destruct (call_method name kw w1) as [[v|e] w2]; cbn in *; congruence.
  - destruct (run_tool_shape tc true) as (ft & fa & name & kw & it & ia & -> & _).
    rewrite tool_template_run. cbv zeta.
    destruct (get_client w) as [[[]|e] w1] eqn:Hget;
      destruct (get_client_frame _ _ _ Hget) as (_ & _ & _ & Hlog & _).
    + pose proof (call_method_frame name kw w1) as (_ & Hlog2).
      destruct (call_method name kw w1) as [[v|e] w2]; cbn in Hlog2.
      * destruct (ia v); eexists; cbn; rewrite Hlog2, Hlog; split; reflexivity.
      * eexists; cbn; rewrite Hlog2, Hlog; split; reflexivity.
    + eexists; cbn; rewrite Hlog; split; reflexivity.
Qed.

Lemma call_method_bound (name : string) (kwargs : dict)
    (bind_args : dict -> result (Call value)) (call : Call value)
    (w : World) (c : GreenhouseClient) :
  client w = Some c ->
  dict_get name GreenhouseClient_methods = Some bind_args ->
  bind_args kwargs = Return call ->
  call_method name kwargs w = run_call call c w.
Proof. intros Hc Hm Hb. unfold call_method. rewrite Hc, Hm, Hb. reflexivity. Qed.

Lemma log_frame (ev : log_event) (w : World) :
  environ (log ev w) = environ w /\ client (log ev w) = client w /\
  world_net (log ev w) = world_net w /\ wire (log ev w) = wire w.
Proof. repeat split; reflexivity. Qed.

(** What a tool with a client call behind it does, for any tool. *)
Lemma run_tool_forwards (tc : tool_call) (ctx : bool) (w w' : World)
    (c : GreenhouseClient) (call : Call value) :
  get_client w = (Return tt, w') ->
  client w' = Some c ->
  forwarded_call tc = Some call ->
  let out := run_tool tc ctx w in
  let ran := run_call call c w' in
  client (snd out) = client (snd ran) /\
  world_net (snd out) = world_net (snd ran) /\
  wire (snd out) = wire (snd ran) /\
  (forall e, fst ran = Raise e -> fst out = Raise e) /\
  (forall v, fst out = Return v -> fst ran = Return v) /\
  (ctx = false -> out = ran) /\
  (forall v, ctx = true -> reports_length tc = true -> fst ran = Return v ->
             py_len v = None -> fst out = Raise (TypeError "object has no len()")).
Proof.
  intros Hget Hc Hfw. cbv zeta.
  destruct (run_tool_shape tc ctx) as (ft & fa & name & kw & it & ia & -> & Hlen & Hbind).
  rewrite Hfw in Hbind. destruct Hbind as (bind_args & Hm & Hb).
  rewrite tool_template_run, Hget. cbv zeta.
  rewrite (call_method_bound name kw bind_args call w' c Hc Hm Hb).
  destruct (run_call call c w') as [[v|e] w2]; destruct ctx; cbn [fst snd].
  - destruct (ia v) as [a|e] eqn:Hia; cbn [fst snd];
      (repeat split; try reflexivity; try discriminate; try congruence).
    + intros v' _ Hrep [= <-] Hnone. rewrite (Hlen Hrep) in Hia.
      unfold len_arg in Hia. rewrite Hnone in Hia. discriminate.
    + intros v' _ Hrep [= <-] Hnone. rewrite (Hlen Hrep) in Hia.
      unfold len_arg in Hia. rewrite Hnone in Hia. congruence.
  - repeat split; try reflexivity; try discriminate; congruence.
  - repeat split; try reflexivity; try discriminate; congruence.
  - repeat split; try reflexivity; try discriminate; congruence.
Qed.

(** X16. Every tool but the two job-stage ones forwards to the client
    method of its name with its arguments in the places of the same
    names: the network traffic and the state left in the singleton are
    those of that client call; an exception of the client call is the
    tool's exception, the tool returns nothing the client call did not
    return, and without a context the tool is the client call. *)
Theorem tools_forward_to_client (tc : tool_call) (ctx : bool) (w w' : World)
    (c : GreenhouseClient) (call : Call value) :
  get_client w = (Return tt, w') ->
  client w' = Some c ->
  forwarded_call tc = Some call ->
  let out := run_tool tc ctx w in
  let ran := run_call call c w' in
  client (snd out) = client (snd ran) /\
  world_net (snd out) = world_net (snd ran) /\
  wire (snd out) = wire (snd ran) /\
  (forall e, fst ran = Raise e -> fst out = Raise e) /\
  (forall v, fst out = Return v -> fst ran = Return v) /\
  (ctx = false -> out = ran).
Proof.
  intros Hget Hc Hfw.
  destruct (run_tool_forwards tc ctx w w' c call Hget Hc Hfw)
    as (H1 & H2 & H3 & H4 & H5 & H6 & _).
  exact (conj H1 (conj H2 (conj H3 (conj H4 (conj H5 H6))))).
Qed.

Lemma keyed_world_client :
  get_client keyed_world
    = (Return tt, set_client (Some (fresh_client (environ keyed_world) "abc")) keyed_world).
Proof. vm_compute. reflexivity. Qed.

Lemma tools_forward_to_client_witness :
  run_tool (Call_list_users 50 1 (Some "ada@x.com")) false keyed_world
    = run_call (list_users 50 1 (Some "ada@x.com"))
               (fresh_client (environ keyed_world) "abc")
               (set_client (Some (fresh_client (environ keyed_world) "abc")) keyed_world).
Proof.
  destruct (tools_forward_to_client (Call_list_users 50 1 (Some "ada@x.com")) false
              keyed_world _ _ _ keyed_world_client eq_refl eq_refl)
    as (_ & _ & _ & _ & _ & Hsame).
  exact (Hsame eq_refl).
Defined.

(** X17. With a context, a tool that reports the length of its result
    raises [TypeError] when the server's JSON is a value without a
    length (null, a number, a boolean), although the client call
    returned it and its requests have been sent; without a context the
    same call returns the value. *)
Theorem length_report_can_fail (tc : tool_call) (w w' : World) (c : GreenhouseClient)
    (call : Call value) (v : value) :
  get_client w = (Return tt, w') ->
  client w' = Some c ->
  forwarded_call tc = Some call ->
  reports_length tc = true ->
  fst (run_call call c w') = Return v ->
  py_len v = None ->
  fst (run_tool tc true w) = Raise (TypeError "object has no len()") /\
  world_net (snd (run_tool tc true w)) = world_net (snd (run_call call c w')) /\
  fst (run_tool tc false w) = Return v.
Proof.
  intros Hget Hc Hfw Hrep Hran Hlen.
  destruct (run_tool_forwards tc true w w' c call Hget Hc Hfw)
    as (_ & Hnet & _ & _ & _ & _ & Hfail).
  destruct (run_tool_forwards tc false w w' c call Hget Hc Hfw)
    as (_ & _ & _ & _ & _ & Hsame & _).
  split; [exact (Hfail v eq_refl Hrep Hran Hlen)|]. split; [exact Hnet|].
  rewrite (Hsame eq_refl). exact Hran.
Qed.

Lemma length_report_can_fail_witness :
  fst (run_tool (Call_list_departments 50 1) true null_world)
    = Raise (TypeError "object has no len()") /\
  length (sent (world_net (snd (run_tool (Call_list_departments 50 1) true null_world))))
    = 1%nat /\
  fst (run_tool (Call_list_departments 50 1) false null_world) = Return VNone.
Proof.
  assert (Hget : get_client null_world
                 = (Return tt, set_client (Some (fresh_client (environ null_world) "abc"))
                                          null_world))
    by (vm_compute; reflexivity).
  destruct (length_report_can_fail (Call_list_departments 50 1) null_world _ _ _ VNone
              Hget eq_refl eq_refl) as (Hfail & Hnet & Hok).
  - reflexivity.
  - vm_compute. reflexivity.
  - reflexivity.
  - split; [exact Hfail|]. split; [rewrite Hnet; vm_compute; reflexivity | exact Hok].
Defined.

(** X18. Without a key no tool reaches the network: when the singleton
    does not exist yet and [GREENHOUSE_API_KEY] is unset or empty, every
    tool raises the [ValueError] of [get_client], sends nothing, reads
    nothing of the server's script, and leaves the singleton unset. *)
Theorem tools_need_the_key (tc : tool_call) (ctx : bool) (w : World) :
  client w = None ->
  truthy_str (getenv (environ w) "GREENHOUSE_API_KEY") = false ->
  fst (run_tool tc ctx w)
    = Raise (ValueError "GREENHOUSE_API_KEY environment variable is required. Please set it in your .env file or environment.") /\
  client (snd (run_tool tc ctx w)) = None /\
  world_net (snd (run_tool tc ctx w)) = world_net w /\
  wire (snd (run_tool tc ctx w)) = wire w.
Proof.
  intros Hc Hkey.
  destruct (run_tool_shape tc ctx) as (ft & fa & name & kw & it & ia & -> & _).
  rewrite tool_template_run.
  assert (Hget : get_client w
                 = (Raise (ValueError "GREENHOUSE_API_KEY environment variable is required. Please set it in your .env file or environment."), w)).
  { unfold get_client. rewrite Hc, Hkey. reflexivity. }
  rewrite Hget. cbv zeta. destruct ctx; cbn; auto.
Qed.

Lemma tools_need_the_key_witness :
  fst (run_tool (Call_get_job 7) true keyless_world)
    = Raise (ValueError "GREENHOUSE_API_KEY environment variable is required. Please set it in your .env file or environment.") /\
  world_net (snd (run_tool (Call_get_job 7) true keyless_world)) = world_net keyless_world.
Proof.
  destruct (tools_need_the_key (Call_get_job 7) true keyless_world) as (Hr & _ & Hn & _).
  - reflexivity.
  - vm_compute. reflexivity.
  - split; [exact Hr | exact Hn].
Defined.

Lemma forwarded_call_request (tc : tool_call) (call : Call value) :
  forwarded_call tc = Some call ->
  exists method endpoint params json_data,
    call = _make_request method endpoint params json_data /\
    method = tool_method tc /\
    if reads_only tc then method = "GET" /\ json_data = None
    else (method = "POST" \/ method = "PATCH") /\ params = None /\
         exists body, json_data = Some body.
Proof.
  destruct tc; cbn [forwarded_call reads_only]; intros [= <-];
    do 4 eexists; (split; [reflexivity|]); (split; [reflexivity|]); eauto 6.
Qed.

(** X19. The singleton, once made, is kept: [get_client] returns the
    same object without looking at the environment again, and after any
    tool call the singleton is still there with the key, base URL and
    headers it was constructed with. *)
Theorem singleton_is_kept (tc : tool_call) (ctx : bool) (w w' : World)
    (c : GreenhouseClient) :
  get_client w = (Return tt, w') ->
  client w' = Some c ->
  get_client w' = (Return tt, w') /\
  exists c', client (snd (run_tool tc ctx w)) = Some c' /\
    api_key c' = api_key c /\ base_url c' = base_url c /\ headers c' = headers c /\
    _rate_limit_window c' = _rate_limit_window c /\ _rate_limit_max c' = _rate_limit_max c.
Proof.
  intros Hget Hc. split; [unfold get_client; rewrite Hc; reflexivity|].
  destruct (forwarded_call tc) as [call|] eqn:Hfw.
  - destruct (run_tool_forwards tc ctx w w' c call Hget Hc Hfw) as (Hcl & _).
    rewrite Hcl.
    destruct (forwarded_call_request tc call Hfw) as (m & e & p & j & -> & _).
    unfold run_call.
    destruct (make_request_trace m e p j (wire w') (mkSt c (world_net w')))
      as (k & _ & _ & Hconf).
    destruct (_make_request m e p j (wire w') (mkSt c (world_net w'))) as [[r s] rest].
    cbn [fst snd self] in *. exists (self s). split; [reflexivity | exact Hconf].
  - destruct (run_tool_shape tc ctx) as (ft & fa & name & kw & it & ia & -> & _ & Hbind).
    rewrite Hfw in Hbind. destruct Hbind as (Hm & Ha).
    rewrite tool_template_run, Hget. cbv zeta.
    rewrite (call_method_missing name kw w' c Hc Hm Ha).
    exists c. destruct ctx; cbn; repeat split; assumption || reflexivity.
Qed.

Lemma singleton_is_kept_witness :
  exists c', client (snd (run_tool (Call_list_offices 50 1) true keyed_world)) = Some c' /\
    headers c' = [("Authorization", "Basic YWJjOg=="); ("Content-Type", "application/json")].
Proof.
  destruct (singleton_is_kept (Call_list_offices 50 1) true keyed_world _ _
              keyed_world_client eq_refl) as (_ & c' & Hc & _ & _ & Hh & _).
  exists c'. split; [exact Hc | exact Hh].
Defined.

(** X20. Reading tools read: every request a [list_] or [get_] tool
    sends is a GET without a body, and the other tools send requests
    with a JSON body and no query parameters, by PATCH the
    [update_candidate] tool and by POST all the others; all requests of
    one tool call are the same request. *)
Theorem tools_use_their_method (tc : tool_call) (ctx : bool) (w w' : World)
    (c : GreenhouseClient) :
  get_client w = (Return tt, w') ->
  client w' = Some c ->
  exists k req,
    sent (world_net (snd (run_tool tc ctx w))) = (sent (world_net w) ++ repeat req k)%list /\
    httpx.headers req = headers c /\
    httpx.method req = tool_method tc /\
    if reads_only tc then httpx.method req = "GET" /\ httpx.json req = None
    else (k <> 0)%nat /\
         (httpx.method req = "POST" \/ httpx.method req = "PATCH") /\
         httpx.params req = None /\ exists body, httpx.json req = Some body.
Proof.
  intros Hget Hc.
  destruct (get_client_frame _ _ _ Hget) as (_ & Hnet & _).
  destruct (forwarded_call tc) as [call|] eqn:Hfw.
  - destruct (run_tool_forwards tc ctx w w' c call Hget Hc Hfw) as (_ & Hn & _).
    rewrite Hn.
    destruct (forwarded_call_request tc call Hfw) as (m & e & p & j & -> & Htool & Hmeth).
    unfold run_call.
    destruct (make_request_trace m e p j (wire w') (mkSt c (world_net w')))
      as (k & Hsent & _).
    destruct (_make_request m e p j (wire w') (mkSt c (world_net w'))) as [[r s] rest].
    cbn [fst snd self net world_net] in *.
    exists (S k), (request_of c m e p j). rewrite Hsent, Hnet.
    split; [reflexivity|]. split; [reflexivity|]. split; [exact Htool|].
    destruct (reads_only tc); cbn; [exact Hmeth|]. split; [discriminate | exact Hmeth].
  - destruct (run_tool_shape tc ctx) as (ft & fa & name & kw & it & ia & -> & _ & Hbind).
    rewrite Hfw in Hbind. destruct Hbind as (Hm & Ha).
    rewrite tool_template_run, Hget. cbv zeta.
    rewrite (call_method_missing name kw w' c Hc Hm Ha).
    exists 0%nat, (request_of c "GET" "" None None).
    assert (Hro : reads_only tc = true) by (destruct tc; try discriminate; reflexivity).
    unfold tool_method. rewrite Hro. destruct ctx; cbn; rewrite Hnet, app_nil_r; auto.
Qed.

Lemma tools_use_their_method_witness :
  exists k req,
    sent (world_net (snd (run_tool (Call_advance_application 5 10 None) false keyed_world)))
      = repeat req k /\
    (k <> 0)%nat /\ httpx.method req = "POST".
Proof.
  destruct (tools_use_their_method (Call_advance_application 5 10 None) false keyed_world _ _
              keyed_world_client eq_refl) as (k & req & Hsent & _ & Hm & Hk & _).
  exists k, req. split; [exact Hsent|]. split; [exact Hk | exact Hm].
Defined.

(** ** Starting up *)

(** X21. [main] guards the first use: if [main] lets the server start,
    the first [get_client] in the same environment constructs the
    client from the environment's key; if it does not, [main] exits
    with status 1 and [get_client] would have raised. *)
Theorem main_guards_first_use (w : World) :
  client w = None ->
  (main (environ w) = Serve ->
   exists key, getenv (environ w) "GREENHOUSE_API_KEY" = Some key /\ key <> "" /\
     get_client w = (Return tt, set_client (Some (fresh_client (environ w) key)) w)) /\
  (main (environ w) <> Serve ->
   (exists lines, main (environ w) = Exit 1 lines) /\
   exists msg, get_client w = (Raise (ValueError msg), w)).
Proof.
  intros Hc. unfold main, get_client. rewrite Hc.
  destruct (getenv (environ w) "GREENHOUSE_API_KEY") as [key|] eqn:Hkey.
  - destruct (String.eqb_spec key "") as [-> | Hne].
    + cbn. split; [discriminate|]. intros _. split; eauto.
    + assert (Ht : truthy_str (Some key) = true) by (apply truthy_str_nonempty, Hne).
      rewrite Ht. cbn [negb]. split; [|intros H; contradiction H; reflexivity].
      intros _. exists key. split; [reflexivity|]. split; [exact Hne|].
      unfold __init__. rewrite Ht. cbv iota. rewrite Ht. reflexivity.
  - cbn. split; [discriminate|]. intros _. split; eauto.
Qed.

Lemma main_guards_first_use_witness :
  (exists key, get_client keyed_world
               = (Return tt, set_client (Some (fresh_client (environ keyed_world) key))
                                        keyed_world)) /\
  (exists lines, main (environ keyless_world) = Exit 1 lines).
Proof.
  split.
  - destruct (proj1 (main_guards_first_use keyed_world eq_refl)) as (key & _ & _ & Hget).
    + vm_compute. reflexivity.
    + exists key. exact Hget.
  - apply (proj2 (main_guards_first_use keyless_world eq_refl)).
    vm_compute. discriminate.
Defined.

(** ** Rejecting through the adapter *)

(** X22. The [reject_application] tool has no argument for the
    rejection e-mail: the body it makes the client post to
    [applications/{id}/reject] can hold [rejection_reason_id] and
    [notes] and no other key, and is the empty record when both are
    unset or falsy. *)
Theorem reject_tool_body (application_id : Z) (rejection_reason_id : option Z)
    (notes : option string) (ctx : bool) (w w' : World) (c : GreenhouseClient) :
  get_client w = (Return tt, w') ->
  client w' = Some c ->
  let data := reject_application_data rejection_reason_id notes None in
  let out := Tools.reject_application application_id rejection_reason_id notes ctx w in
  let ran :=
    run_call (_make_request "POST"
                ("applications/" +:+ str_of_Z application_id +:+ "/reject")
                None (Some data)) c w' in
  fst out = fst ran /\
  world_net (snd out) = world_net (snd ran) /\
  wire (snd out) = wire (snd ran) /\
  (forall k, k <> "rejection_reason_id" -> k <> "notes" -> dict_get k data = None) /\
  (truthy_int rejection_reason_id = false -> truthy_str notes = false -> data = []).
Proof.
  intros Hget Hc. cbv zeta.
  assert (Hfw := tool_forwards ctx "Failed to reject application {}: {}"
                "Rejected application {}" [ArgVal (VInt application_id)]
                [ArgVal (VInt application_id)] "reject_application"
                [("application_id", VInt application_id);
                 ("rejection_reason_id", enc_opt_int rejection_reason_id);
                 ("notes", enc_opt_str notes)]
                _ (reject_application application_id rejection_reason_id notes None)
                w w' c Hget Hc eq_refl).
  cbv zeta in Hfw.
  destruct Hfw as (Hout & _ & _ & Hnet & Hwire);
    [destruct rejection_reason_id, notes; reflexivity|].
  split; [exact Hout|]. split; [exact Hnet|]. split; [exact Hwire|].
  unfold reject_application_data. cbv zeta. split.
  - intros k Hk1 Hk2.
    rewrite (set_if_falsy truthy_int VInt "rejection_email_send_email_at" None)
      by (left; reflexivity).
    rewrite !dict_get_set_if_other by (apply String.eqb_neq; assumption). reflexivity.
  - intros Hr Hn.
    rewrite !set_if_falsy by (first [right; assumption | left; reflexivity]).
    reflexivity.
Qed.

Lemma reject_tool_body_witness :
  fst (Tools.reject_application 5 None (Some "") false keyed_world)
    = fst (run_call (_make_request "POST" "applications/5/reject" None (Some []))
                    (fresh_client (environ keyed_world) "abc")
                    (set_client (Some (fresh_client (environ keyed_world) "abc"))
                                keyed_world)).
Proof.
  destruct (reject_tool_body 5 None (Some "") false keyed_world _ _
              keyed_world_client eq_refl) as (Hout & _).
  exact Hout.
Defined.

(** ** The self-test script *)

(** X23. The self-test's verdict: the script exits with 0 exactly when
    the import and the tool check both succeed, whether or not the API
    key is set; the tool check succeeds exactly when every expected name
    is among the registered ones; and every expected name is the name of
    one of the seventeen tools. *)
Theorem self_test_verdict (import_ok tools_ok : bool) (environ : gmap string string)
    (tool_names : list string) :
  test_main import_ok tools_ok environ = (if import_ok && tools_ok then 0 else 1) /\
  (test_tools tool_names = true <-> forall t, In t expected_tools -> In t tool_names) /\
  (forall t, In t expected_tools -> exists tc, tool_name tc = t).
Proof.
  split; [|split].
  - unfold test_main, test_env_check.
    destruct import_ok, tools_ok, (truthy_str _); reflexivity.
  - unfold test_tools.
    destruct (List.filter _ expected_tools) as [|t l] eqn:Hf.
    + split; [|reflexivity]. intros _ t Ht.
      destruct (existsb (String.eqb t) tool_names) eqn:Hex.
      * apply existsb_exists in Hex. destruct Hex as (t' & Hin & Heq).
        apply String.eqb_eq in Heq. subst. exact Hin.
      * assert (Hin : In t (List.filter
                   (fun t => negb (existsb (String.eqb t) tool_names)) expected_tools)).
        { apply filter_In. split; [exact Ht|]. rewrite Hex. reflexivity. }
        rewrite Hf in Hin. destruct Hin.
    + split; [discriminate|]. intros Hall. exfalso.
      assert (Hin : In t (List.filter
                 (fun t => negb (existsb (String.eqb t) tool_names)) expected_tools))
        by (rewrite Hf; left; reflexivity).
      apply filter_In in Hin. destruct Hin as (Ht & Hmiss).
      apply negb_true_iff in Hmiss.
      assert (Hex : existsb (String.eqb t) tool_names = true).
      { apply existsb_exists. exists t. split; [apply Hall, Ht | apply String.eqb_refl]. }
      congruence.
  - intros t Ht. cbn in Ht.
    repeat (destruct Ht as [<- | Ht];
            [first [ exists (Call_list_jobs 0 0 None None None); reflexivity
                   | exists (Call_get_job 0); reflexivity
                   | exists (Call_list_candidates 0 0 None None None None); reflexivity
                   | exists (Call_get_candidate 0); reflexivity
                   | exists (Call_create_candidate "" "" None None None None None); reflexivity
                   | exists (Call_update_candidate 0 None None None None None None None); reflexivity
                   | exists (Call_list_applications 0 0 None None None None None); reflexivity
                   | exists (Call_get_application 0); reflexivity
                   | exists (Call_list_job_stages 0 0 None None None); reflexivity
                   | exists (Call_get_job_stage 0); reflexivity
                   | exists (Call_advance_application 0 0 None); reflexivity
                   | exists (Call_reject_application 0 None None); reflexivity
                   | exists (Call_add_note_to_candidate 0 "" ""); reflexivity
                   | exists (Call_add_note_to_application 0 "" ""); reflexivity
                   | exists (Call_list_departments 0 0); reflexivity
                   | exists (Call_list_offices 0 0); reflexivity
                   | exists (Call_list_users 0 0 None); reflexivity ]|]).
    destruct Ht.
Qed.

Lemma self_test_verdict_witness :
  test_tools expected_tools = true /\
  exists tc, tool_name tc = "get_job_stage".
Proof.
  destruct (self_test_verdict true true ∅ expected_tools) as (_ & Htools & Hnames).
  split.
  - apply Htools. intros t Ht. exact Ht.
  - apply Hnames. vm_compute. tauto.
Defined.

(** ** One limiter for all tools *)

(** X24. The tools share the limiter of the singleton: a tool call that
    is answered at once by a response other than 429, made inside the
    window with room under the ceiling, leaves the singleton's counter
    one higher and its window start unchanged, for the next tool call
    to start from. *)
Theorem tools_share_the_limiter (tc : tool_call) (ctx : bool) (w w' : World)
    (c : GreenhouseClient) (call : Call value) (response : httpx.Response)
    (rest : list httpx.Response) :
  get_client w = (Return tt, w') ->
  client w' = Some c ->
  forwarded_call tc = Some call ->
  wire w' = response :: rest ->
  httpx.status_code response <> 429 ->
  (clock (world_net w') - _last_request_time c <= _rate_limit_window c)%Q ->
  _request_count c < _rate_limit_max c ->
  exists c', client (snd (run_tool tc ctx w)) = Some c' /\
    _request_count c' = _request_count c + 1 /\
    _last_request_time c' = _last_request_time c /\
    wire (snd (run_tool tc ctx w)) = rest.
Proof.
  intros Hget Hc Hfw Hwire Hne Hin Hroom.
  destruct (run_tool_forwards tc ctx w w' c call Hget Hc Hfw) as (Hcl & _ & Hw & _).
  rewrite Hcl, Hw.
  destruct (forwarded_call_request tc call Hfw) as (m & e & p & j & -> & _).
  unfold run_call. rewrite Hwire.
  destruct (make_request_final m e p j response rest (mkSt c (world_net w')) Hne)
    as (r & -> & _).
  cbn [fst snd]. exists (self (attempt m e p j (mkSt c (world_net w')))).
  destruct (tried_frame m e p j (mkSt c (world_net w'))) as (Hself & _).
  rewrite Hself, rl_state_room by (cbn; assumption).
  cbn. repeat split; reflexivity.
Qed.

Lemma tools_share_the_limiter_witness :
  exists c', client (snd (run_tool (Call_get_job 7) true
                            (set_client (Some (self idle_state)) keyed_world))) = Some c' /\
    _request_count c' = 4.
Proof.
  destruct (tools_share_the_limiter (Call_get_job 7) true
              (set_client (Some (self idle_state)) keyed_world)
              (set_client (Some (self idle_state)) keyed_world)
              (self idle_state) (get_job 7) ok_empty_list [])
    as (c' & Hc & Hcount & _); try reflexivity.
  - vm_compute. discriminate.
  - vm_compute. discriminate.
  - exists c'. split; [exact Hc | exact Hcount].
Defined.

(** ** The authorization header *)

Lemma list_ind3 {A : Type} (P : list A -> Prop) :
  P [] -> (forall a, P [a]) -> (forall a b, P [a; b]) ->
  (forall a b c l, P l -> P (a :: b :: c :: l)) ->
  forall l, P l.
Proof.
  intros H0 H1 H2 H3 l.
  assert (H : P l /\ (forall a, P (a :: l)) /\ (forall a b, P (a :: b :: l))).
  { induction l as [|x l (IH0 & IH1 & IH2)]; [auto|].
    split; [apply IH1|]. split; [intros a; apply IH2 | intros a b; apply H3, IH0]. }
  apply H.
Qed.

Lemma in_all_bytes (n : N) : (n < 256)%N -> In n all_bytes.
Proof.
  intros H. unfold all_bytes. rewrite <- (N2Nat.id n).
  apply in_map, in_seq. lia.
Qed.

Lemma for_all_bytes (P : N -> N -> bool) :
  forallb (fun a => forallb (P a) all_bytes) all_bytes = true ->
  forall a b, (a < 256)%N -> (b < 256)%N -> P a b = true.
Proof.
  intros H a b Ha Hb.
  rewrite forallb_forall in H. specialize (H a (in_all_bytes a Ha)).
  rewrite forallb_forall in H. exact (H b (in_all_bytes b Hb)).
Qed.

Lemma b64_digits_printable (a b : N) :
  (a < 256)%N -> (b < 256)%N ->
  printable (b64_digit (N.shiftr a 2)) = true /\
  printable (b64_digit (N.shiftl (N.land a 3) 4)) = true /\
  printable (b64_digit (N.lor (N.shiftl (N.land a 3) 4) (N.shiftr b 4))) = true /\
  printable (b64_digit (N.shiftl (N.land b 15) 2)) = true /\
  printable (b64_digit (N.lor (N.shiftl (N.land a 15) 2) (N.shiftr b 6))) = true /\
  printable (b64_digit (N.land b 63)) = true.
Proof.
  intros Ha Hb.
  assert (H := for_all_bytes
    (fun a b =>
       printable (b64_digit (N.shiftr a 2)) &&
       printable (b64_digit (N.shiftl (N.land a 3) 4)) &&
       printable (b64_digit (N.lor (N.shiftl (N.land a 3) 4) (N.shiftr b 4))) &&
       printable (b64_digit (N.shiftl (N.land b 15) 2)) &&
       printable (b64_digit (N.lor (N.shiftl (N.land a 15) 2) (N.shiftr b 6))) &&
       printable (b64_digit (N.land b 63)))).
  specialize (H ltac:(vm_compute; reflexivity) a b Ha Hb). cbv beta in H.
  do 5 (apply andb_true_iff in H; destruct H as [H ?]). repeat split; assumption.
Qed.

Lemma b64encode_bytes_printable (l : list N) :
  Forall (fun n => (n < 256)%N) l ->
  Forall (fun c => printable c = true \/ c = "="%char)
         (list_ascii_of_string (b64encode_bytes l)).
Proof.
  induction l as [|a|a b|a b c l IH] using list_ind3; intros Hl.
  - constructor.
  - inversion_clear Hl as [|? ? Ha _].
    destruct (b64_digits_printable a a Ha Ha) as (H1 & H2 & _).
    cbn [b64encode_bytes list_ascii_of_string]. repeat constructor; auto.
  - inversion_clear Hl as [|? ? Ha Hl']. inversion_clear Hl' as [|? ? Hb _].
    destruct (b64_digits_printable a b Ha Hb) as (H1 & _ & H3 & H4 & _).
    cbn [b64encode_bytes list_ascii_of_string]. repeat constructor; auto.
  - inversion_clear Hl as [|? ? Ha Hl']. inversion_clear Hl' as [|? ? Hb Hl''].
    inversion_clear Hl'' as [|? ? Hc Hl].
    destruct (b64_digits_printable a b Ha Hb) as (H1 & _ & H3 & _).
    destruct (b64_digits_printable b c Hb Hc) as (_ & _ & _ & _ & H5 & H6).
    cbn [b64encode_bytes list_ascii_of_string]. repeat (constructor; auto).
Qed.

Lemma b64encode_bytes_length (l : list N) :
  String.length (b64encode_bytes l) = (4 * ((length l + 2) / 3))%nat.
Proof.
  induction l as [|a|a b|a b c l IH] using list_ind3; try reflexivity.
  cbn [b64encode_bytes String.length length]. rewrite IH.
  replace (S (S (S (length l))) + 2)%nat with ((length l + 2) + 1 * 3)%nat by lia.
  rewrite Nat.div_add by lia. lia.
Qed.

(** X25. The authorization header is well-formed for every key: the
    client constructed for [key] sends ["Basic "] followed by a code
    made of printable ASCII characters only (no control character or
    line break, whatever bytes the key holds), four characters for each
    three bytes of ["<key>:"], rounded up. *)
Theorem authorization_header_is_printable (environ : gmap string string) (key : string) :
  exists code,
    dict_get "Authorization" (headers (fresh_client environ key)) = Some ("Basic " +:+ code) /\
    Forall (fun c => printable c = true) (list_ascii_of_string ("Basic " +:+ code)) /\
    String.length code = (4 * ((String.length key + 1 + 2) / 3))%nat.
Proof.
  exists (b64encode (key +:+ ":")). split; [reflexivity|]. split.
  - rewrite chars_app. apply Forall_app. split; [repeat constructor|].
    unfold b64encode.
    eapply List.Forall_impl; [|apply b64encode_bytes_printable].
    + intros c [Hc | ->]; [exact Hc | reflexivity].
    + apply List.Forall_forall. intros n Hn. apply in_map_iff in Hn.
      destruct Hn as (c & <- & _). apply N_ascii_bounded.
  - unfold b64encode. rewrite b64encode_bytes_length. rewrite length_map.
    assert (Hlen : forall s, length (list_ascii_of_string s) = String.length s)
      by (induction s as [|c s IH]; simpl; [reflexivity | rewrite IH; reflexivity]).
    rewrite Hlen, append_length. reflexivity.
Qed.

(** ** What an update can say *)

Lemma dict_set_values (Q : value -> Prop) (k : string) (v : value) (d : dict) :
  Forall (fun kv => Q (snd kv)) d -> Q v ->
  Forall (fun kv => Q (snd kv)) (dict_set k v d).
Proof.
  intros Hd Hv. induction Hd as [|[k' v'] d Hkv Hd IH]; simpl.
  - repeat constructor. exact Hv.
  - destruct (String.eqb k k'); constructor; assumption.
Qed.

Lemma set_if_values {A : Type} (Q : value -> Prop) (truthy : option A -> bool)
    (inj : A -> value) (k : string) (x : option A) (d : dict) :
  (forall a, truthy (Some a) = true -> Q (inj a)) ->
  Forall (fun kv => Q (snd kv)) d ->
  Forall (fun kv => Q (snd kv)) (set_if truthy inj k x d).
Proof.
  intros Hinj Hd. unfold set_if. destruct x as [a|]; [|exact Hd].
  destruct (truthy (Some a)) eqn:E; [|exact Hd].
  apply dict_set_values; [exact Hd | apply Hinj, E].
Qed.

Lemma dict_get_value {A : Type} (Q : A -> Prop) (k : string) (d : list (string * A)) (v : A) :
  Forall (fun kv => Q (snd kv)) d -> dict_get k d = Some v -> Q v.
Proof.
  intros Hd. induction Hd as [|[k' v'] d Hkv Hd IH]; simpl; [discriminate|].
  destruct (String.eqb k k'); [|exact IH]. intros [= <-]. exact Hkv.
Qed.

(** X26. The [update_candidate] tool cannot blank a field: whatever its
    arguments are, every value in the body it hands to the client is
    truthy, so no empty name, company, title or tag list is ever sent;
    and when both names are given and not empty the body is the one the
    [create_candidate] tool builds from the same arguments. *)
Theorem update_cannot_blank_a_field (first_name last_name email phone company title : option string)
    (tags : option (list string)) :
  let data := Tools.update_candidate_data first_name last_name email phone company title tags in
  (forall k v, dict_get k data = Some v -> py_truthy v = true) /\
  (forall f l, first_name = Some f -> last_name = Some l -> f <> "" -> l <> "" ->
     data = Tools.create_candidate_data f l email phone company title tags).
Proof.
  cbv zeta. split.
  - intros k v. apply (dict_get_value (fun v => py_truthy v = true)).
    unfold Tools.update_candidate_data, Tools.candidate_fields. cbv zeta.
    repeat (apply (set_if_values (fun v => py_truthy v = true));
            [ first [ intros a Ha; exact Ha
                    | intros a _; reflexivity
                    | intros [|t l] Ha; [discriminate Ha | reflexivity] ] |]).
    constructor.
  - intros f l -> -> Hf Hl.
    unfold Tools.update_candidate_data, Tools.create_candidate_data. cbv zeta.
    rewrite !set_if_truthy
      by (unfold truthy_str; apply negb_true_iff, String.eqb_neq; assumption).
    reflexivity.
Qed.

Lemma update_cannot_blank_a_field_witness :
  py_truthy (VStr "Ada") = true /\
  Tools.update_candidate_data (Some "Ada") (Some "Lovelace") (Some "a@x.com") None None None None
    = Tools.create_candidate_data "Ada" "Lovelace" (Some "a@x.com") None None None None.
Proof.
  split.
  - apply (proj1 (update_cannot_blank_a_field (Some "Ada") None None None (Some "") None
                    (Some [])) "first_name" (VStr "Ada")).
    reflexivity.
  - apply (proj2 (update_cannot_blank_a_field (Some "Ada") (Some "Lovelace") (Some "a@x.com")
                    None None None None) "Ada" "Lovelace");
      [reflexivity | reflexivity | discriminate | discriminate].
Defined.

(** ** The end of the retries *)



(** ** The limiter, whatever is rounded *)

(** X28. The limiter as the code computes it lets every call through,
    whatever its subtractions round to: it never raises, sleeps at most
    once and then for a positive length, sends nothing, leaves the
    client's configuration alone, does not set the clock back when the
    sleep does not end early, and leaves a counter of at least 1 behind
    when it found one that was not negative. *)
Theorem rate_limit_binary64_passes (s : St) :
  exists s' l,
    _rate_limit_binary64 s = (Return tt, s') /\
    slept (net s') = (slept (net s) ++ l)%list /\
    (length l <= 1)%nat /\
    Forall (Qlt 0) l /\
    sent (net s') = sent (net s) /\
    api_key (self s') = api_key (self s) /\
    base_url (self s') = base_url (self s) /\
    headers (self s') = headers (self s) /\
    _rate_limit_window (self s') = _rate_limit_window (self s) /\
    _rate_limit_max (self s') = _rate_limit_max (self s) /\
    ((0 <= hd 0 (lags (net s)))%Q -> (clock (net s) <= clock (net s'))%Q) /\
    (0 <= _request_count (self s) -> 1 <= _request_count (self s')).
Proof.
  destruct s as [c n].
  unfold _rate_limit_binary64, float_sub.
  unfold mbind, M_bind, gets, modify, time_time, mret, M_ret.
  cbn -[float_of].
  repeat match goal with
         | |- context [if ?b then _ else _] => destruct b eqn:?; cbn -[float_of]
         | |- context [time_sleep ?d ?s] =>
             rewrite (time_sleep_nonneg d s)
               by (apply Qlt_le_weak, Qlt_bool_true; assumption);
             cbn -[float_of]
         end;
    reflect_time;
    first [ eexists; eexists [_]; split; [reflexivity|]; split; [reflexivity|]
          | eexists; exists []; split; [reflexivity|];
            split; [symmetry; apply app_nil_r|] ];
    cbn -[float_of];
    repeat match goal with |- _ /\ _ => split end;
    try reflexivity; try lia; try (intros; lra); try (intros; lia);
    try (repeat constructor; assumption).
Qed.

Lemma rate_limit_binary64_passes_witness :
  exists s', _rate_limit_binary64 rounding_state = (Return tt, s') /\
    1 <= _request_count (self s') /\
    (clock (net rounding_state) <= clock (net s'))%Q.
Proof.
  destruct (rate_limit_binary64_passes rounding_state)
    as (s' & l & Hrun & _ & _ & _ & _ & _ & _ & _ & _ & _ & Hclock & Hcount).
  exists s'. split; [exact Hrun|]. split.
  - apply Hcount. vm_compute. discriminate.
  - apply Hclock. vm_compute. discriminate.
Defined.

(** ** Where the limiter rounds nothing *)

Lemma odd_part_le (p : positive) : (odd_part p <= p)%positive.
Proof. induction p as [p IH|p IH|]; cbn [odd_part]; lia. Qed.

Lemma odd_part_odd (p : positive) : Z.odd (Z.pos (odd_part p)) = true.
Proof. induction p as [p IH|p IH|]; cbn [odd_part]; [reflexivity | exact IH | reflexivity]. Qed.

Lemma odd_part_divides (p : positive) : exists c, Z.pos p = Z.pos (odd_part p) * c /\ 0 < c.
Proof.
  induction p as [p IH|p (c & Hc & Hpos)|]; cbn [odd_part].
  - exists 1. lia.
  - exists (2 * c). split; [|lia]. rewrite Pos2Z.inj_xO, Hc. ring.
  - exists 1. lia.
Qed.

(** An odd divisor of a power of two is one. *)
Lemma odd_divisor_of_power (k : nat) (q c : Z) :
  Z.odd q = true -> 0 < q -> q * c = 2 ^ Z.of_nat k -> q = 1.
Proof.
  revert c. induction k as [|k IH]; intros c Hodd Hq Hc.
  - change (2 ^ Z.of_nat 0) with 1 in Hc.
    destruct (Z.eq_mul_1 q c Hc); lia.
  - rewrite Nat2Z.inj_succ, Z.pow_succ_r in Hc by lia.
    assert (Heven : Z.even (q * c) = true).
    { rewrite Hc, Z.even_mul. reflexivity. }
    rewrite Z.even_mul in Heven. rewrite <- Z.negb_odd, Hodd in Heven. cbn in Heven.
    apply Z.even_spec in Heven. destruct Heven as (c' & ->).
    apply (IH c'); [assumption | assumption | lia].
Qed.

(** A multiple of [2^-k] with fewer than 53 bits is a float. *)
Lemma binary64_dyadic (k : nat) (x : Q) (a : Z) :
  on_grid k x a -> Z.abs a < 2 ^ 53 -> (k <= 1074)%nat -> binary64 x = true.
Proof.
  intros Hx Ha Hk.
  assert (Hpow : 0 < 2 ^ Z.of_nat k) by (apply Z.pow_pos_nonneg; lia).
  rewrite (binary64_Qeq x (a # Z.to_pos (2 ^ Z.of_nat k))).
  2:{ unfold on_grid in Hx. unfold Qeq in *. cbn in *.
      rewrite Z2Pos.id by exact Hpow. lia. }
  unfold binary64, Qred.
  pose proof (Z.ggcd_correct_divisors a (Z.pos (Z.to_pos (2 ^ Z.of_nat k)))) as Hdiv.
  pose proof (Z.ggcd_gcd a (Z.pos (Z.to_pos (2 ^ Z.of_nat k)))) as Hg.
  pose proof (Z.gcd_nonneg a (Z.pos (Z.to_pos (2 ^ Z.of_nat k)))) as Hg0.
  destruct (Z.ggcd a (Z.pos (Z.to_pos (2 ^ Z.of_nat k)))) as [g [aa bb]].
  cbn [fst snd] in *. destruct Hdiv as (Haa & Hbb). rewrite <- Hg in Hg0.
  rewrite Z2Pos.id in Hbb by exact Hpow.
  assert (Hgpos : 0 < g).
  { destruct (Z.eq_dec g 0) as [Hz|]; [|lia]. rewrite Hz, Z.mul_0_l in Hbb. lia. }
  assert (Hbpos : 0 < bb).
  { apply (Z.mul_pos_cancel_l g); [exact Hgpos | rewrite <- Hbb; exact Hpow]. }
  cbn [Qnum Qden].
  assert (Hden : Pos.eqb (odd_part (Z.to_pos bb)) 1 = true /\
                 (Z.pos (Z.to_pos bb) <=? 2 ^ 1074) = true).
  { destruct (odd_part_divides (Z.to_pos bb)) as (c & Hc & Hcpos).
    rewrite Z2Pos.id in Hc by exact Hbpos.
    split.
    - apply Pos.eqb_eq.
      assert (H1 : Z.pos (odd_part (Z.to_pos bb)) = 1).
      { pose proof (odd_part_odd (Z.to_pos bb)) as Hodd.
        pose proof (Pos2Z.is_pos (odd_part (Z.to_pos bb))) as Hopos.
        revert Hc Hodd Hopos. generalize (Z.pos (odd_part (Z.to_pos bb))).
        intros o Hc Hodd Hopos.
        apply (odd_divisor_of_power k o (c * g)); [assumption | assumption |].
        rewrite Hbb, Hc. ring. }
      lia.
    - apply Z.leb_le. rewrite Z2Pos.id by exact Hbpos.
      apply Z.le_trans with (2 ^ Z.of_nat k); [nia|].
      apply Z.pow_le_mono_r; lia. }
  destruct Hden as (Hd1 & Hd2).
  assert (Hnum : forall n, Z.abs aa = Z.pos n ->
                   (Z.pos (odd_part n) <? 2 ^ 53) = true /\ (Z.pos n <? 2 ^ 1024) = true).
  { intros n Hn.
    assert (Hle : Z.pos n <= Z.abs a) by (rewrite Haa, Z.abs_mul, <- Hn; nia).
    pose proof (odd_part_le n) as Hop.
    split; apply Z.ltb_lt; [lia|].
    apply Z.lt_trans with (2 ^ 53); [lia|]. apply Z.pow_lt_mono_r; lia. }
  destruct aa as [|n|n]; [reflexivity | |];
    destruct (Hnum n eq_refl) as (Hn1 & Hn2); rewrite Hd1, Hd2, Hn1, Hn2; reflexivity.
Qed.

(** X29. On a grid of time the limiter rounds nothing: when the clock
    reading and the window start are multiples of one step [2^-k] of a
    second, the clock is not before the window start, and both are below
    [2^53] steps, all floats of a 10 s limiter and their differences are
    exact, so the limiter as the code computes it is the limiter
    computed exactly. (The floats from 2^30 to 2^31 seconds, the clock
    readings of the years 2004 to 2038, are the multiples of [2^-22]
    there.) *)
Theorem rate_limit_exact_on_grid (s : St) (k : nat) (a b : Z) :
  _rate_limit_window (self s) = 10%Q ->
  on_grid k (clock (net s)) a ->
  on_grid k (_last_request_time (self s)) b ->
  0 <= b <= a ->
  a < 2 ^ 53 ->
  (k <= 49)%nat ->
  exact_floats s = true /\ _rate_limit_binary64 s = _rate_limit s.
Proof.
  intros Hwin Ht Hstart Hba Ha Hk.
  assert (Hexact : exact_floats s = true).
  { unfold exact_floats. cbv zeta. rewrite Hwin.
    assert (Hpow : 0 < 2 ^ Z.of_nat k) by (apply Z.pow_pos_nonneg; lia).
    assert (Hten : 10 * 2 ^ Z.of_nat k < 2 ^ 53).
    { apply Z.le_lt_trans with (10 * 2 ^ 49); [|reflexivity].
      apply Z.mul_le_mono_nonneg_l; [lia|]. apply Z.pow_le_mono_r; lia. }
    rewrite (binary64_dyadic k _ a Ht) by lia.
    rewrite (binary64_dyadic k _ b Hstart) by lia.
    rewrite (binary64_dyadic k (clock (net s) - _last_request_time (self s)) (a - b)).
    2:{ unfold on_grid in *. unfold Z.sub.
        rewrite inject_Z_plus, inject_Z_opp, <- Ht, <- Hstart. ring. }
    2:{ lia. }
    2:{ lia. }
    rewrite (binary64_dyadic k (10 - (clock (net s) - _last_request_time (self s)))
               (10 * 2 ^ Z.of_nat k - (a - b))).
    2:{ unfold on_grid in *. unfold Z.sub.
        rewrite !inject_Z_plus, !inject_Z_opp, inject_Z_plus, inject_Z_opp, inject_Z_mult.
        rewrite <- Ht, <- Hstart. change (inject_Z 10) with 10%Q. ring. }
    2:{ lia. }
    2:{ lia. }
    reflexivity. }
  split; [exact Hexact | exact (rate_limit_binary64_exact s Hexact)].
Qed.

Lemma rate_limit_exact_on_grid_witness :
  exact_floats recent_state = true /\
  _rate_limit_binary64 recent_state = _rate_limit recent_state.
Proof.
  apply (rate_limit_exact_on_grid recent_state 2 6800000013 6800000002).
  - reflexivity.
  - vm_compute. reflexivity.
  - vm_compute. reflexivity.
  - lia.
  - reflexivity.
  - lia.
Defined.
